(** * save_hdfeos5: metadata translation and file naming

    A shallow embedding of [pysar/save_hdfeos5.py] (functions
    [get_mission_name], [metadata_pysar2unavco], [prep_metadata],
    [get_output_filename] and [read_template2inps], the attributes
    [write2hdf5] gives to the geometry datasets, and [main] up to the
    name it hands to the writer) together with the Python builtins they
    call, the properties of the HDF-EOS5 specification proved about
    them, and further properties of the code.

    Conventions of the embedding:
    - a Python [str] is a [string] (a sequence of bytes; case conversion
      is the ASCII one);
    - a Python [dict] is an association list in insertion order, read
      with [dict_get] and written with [setitem] (replace in place, or
      append at the end);
    - a statement that can raise lives in the [result] monad; a
      [try ... except] is a match on the result;
    - a Python [float] is an IEEE-754 binary64 number, [spec_float] with
      precision 53 and maximal exponent 1024;
    - the wall clock read by [datetime.utcnow()] is an explicit argument. *)

From Stdlib Require Import ZArith List String Ascii Bool Lia.
From Stdlib Require Import SpecFloat.
Import ListNotations.
Local Open Scope string_scope.
Local Open Scope Z_scope.

(* ------------------------------------------------------------------ *)
(** ** Exceptions and the error monad *)
(* ------------------------------------------------------------------ *)

Inductive exn : Type :=
| KeyError (key : string)
| IndexError
| ValueError
| TypeError
| OverflowError.

Inductive result (A : Type) : Type :=
| Ok (a : A)
| Raise (e : exn).
Arguments Ok {A} a.
Arguments Raise {A} e.

Definition bind {A B : Type} (r : result A) (f : A -> result B) : result B :=
  match r with
  | Ok a => f a
  | Raise e => Raise e
  end.

Notation "x <- r ;; k" := (bind r (fun x => k))
  (at level 61, r at next level, right associativity).

(** [try: r  except: h] with a bare [except]. *)
Definition try_except {A : Type} (r : result A) (h : result A) : result A :=
  match r with
  | Ok a => Ok a
  | Raise _ => h
  end.

(** [try: r  except ValueError: h]; any other exception propagates. *)
Definition try_except_ValueError {A : Type} (r : result A) (h : result A)
  : result A :=
  match r with
  | Ok a => Ok a
  | Raise ValueError => h
  | Raise e => Raise e
  end.

Definition raises {A : Type} (r : result A) : Prop := exists e, r = Raise e.

(* ------------------------------------------------------------------ *)
(** ** Python values *)
(* ------------------------------------------------------------------ *)

Definition float := spec_float.

Inductive pyval : Type :=
| PNone
| PStr (s : string)
| PInt (z : Z)
| PFloat (f : float).

(* ------------------------------------------------------------------ *)
(** ** Strings *)
(* ------------------------------------------------------------------ *)

Module Str.

Definition in_range (lo hi : nat) (c : ascii) : bool :=
  (Nat.leb lo (nat_of_ascii c) && Nat.leb (nat_of_ascii c) hi)%bool.

Definition is_digit (c : ascii) : bool := in_range 48 57 c.

Definition digit_val (c : ascii) : Z := Z.of_nat (nat_of_ascii c) - 48.

Definition digit_char (d : Z) : ascii := ascii_of_nat (Z.to_nat (d + 48)).

(** The white space that [int()] and [float()] skip at both ends of an
    ASCII string: TAB..CR and space. *)
Definition is_space (c : ascii) : bool :=
  (in_range 9 13 c || in_range 32 32 c)%bool.

Definition lower_char (c : ascii) : ascii :=
  if in_range 65 90 c then ascii_of_nat (nat_of_ascii c + 32) else c.

Definition upper_char (c : ascii) : ascii :=
  if in_range 97 122 c then ascii_of_nat (nat_of_ascii c - 32) else c.

Fixpoint map (f : ascii -> ascii) (s : string) : string :=
  match s with
  | EmptyString => EmptyString
  | String c s' => String (f c) (map f s')
  end.

(** [s.lower()] and [s.upper()] *)
Definition lower (s : string) : string := map lower_char s.
Definition upper (s : string) : string := map upper_char s.

(** [s.startswith(p)] *)
Fixpoint startswith (s p : string) {struct p} : bool :=
  match p with
  | EmptyString => true
  | String a p' =>
      match s with
      | String b s' => (Ascii.eqb a b && startswith s' p')%bool
      | EmptyString => false
      end
  end.

(** [s.startswith((p1, p2, ...))] *)
Definition startswith_any (s : string) (ps : list string) : bool :=
  existsb (startswith s) ps.

(** [s.endswith(suf)]: some suffix of [s] is [suf]. *)
Fixpoint endswith (s suf : string) : bool :=
  (String.eqb s suf
   || match s with
      | EmptyString => false
      | String _ s' => endswith s' suf
      end)%bool.

(** [sub in s] *)
Fixpoint contains (sub s : string) : bool :=
  (startswith s sub
   || match s with
      | EmptyString => false
      | String _ s' => contains sub s'
      end)%bool.

(** [s.split(sep)] for a non-empty [sep]: the occurrences of [sep] are
    taken from the left and do not overlap.  [skip] counts the
    characters of the current occurrence still to be dropped and [cur]
    is the piece being read. *)
Fixpoint split_go (sep s : string) (skip : nat) (cur : string)
  : list string :=
  match s with
  | EmptyString => [cur]
  | String c s' =>
      match skip with
      | S k => split_go sep s' k cur
      | O =>
          if startswith s sep
          then cur :: split_go sep s' (Nat.pred (String.length sep)) ""
          else split_go sep s' 0 (cur ++ String c "")
      end
  end.

Definition split (sep s : string) : list string := split_go sep s 0 "".

(** [sep.join(l)] *)
Definition join (sep : string) (l : list string) : string :=
  String.concat sep l.

(** [s[0:n]] *)
Fixpoint take (n : nat) (s : string) : string :=
  match n, s with
  | S k, String c s' => String c (take k s')
  | _, _ => EmptyString
  end.

(** [s[n:]] *)
Fixpoint drop (n : nat) (s : string) : string :=
  match n, s with
  | S k, String _ s' => drop k s'
  | _, _ => s
  end.

(** [s[::-1]], onto an accumulator *)
Fixpoint rev (s acc : string) : string :=
  match s with
  | EmptyString => acc
  | String c s' => rev s' (String c acc)
  end.

(** [s[0]] *)
Definition head (s : string) : result string :=
  match s with
  | EmptyString => Raise IndexError
  | String c _ => Ok (String c "")
  end.

(** The string without the white space at its ends. *)
Fixpoint lstrip (s : string) : string :=
  match s with
  | String c s' => if is_space c then lstrip s' else s
  | EmptyString => EmptyString
  end.

Fixpoint rstrip (s : string) : string :=
  match s with
  | EmptyString => EmptyString
  | String c s' =>
      match rstrip s' with
      | EmptyString => if is_space c then EmptyString else String c ""
      | r => String c r
      end
  end.

Definition strip (s : string) : string := rstrip (lstrip s).

Fixpoint repeat (c : ascii) (n : nat) : string :=
  match n with
  | O => EmptyString
  | S k => String c (repeat c k)
  end.

(** Left padding with zeros up to [width] characters. *)
Definition zfill (width : nat) (s : string) : string :=
  repeat "0"%char (width - String.length s) ++ s.

End Str.

(* ------------------------------------------------------------------ *)
(** ** Integers: [int(str)], [str(int)] and ["%0wd" % n] *)
(* ------------------------------------------------------------------ *)

Module PyInt.

(** Decimal digits with single underscores between digits, as the
    integer and float literals allow. [after_digit] tells whether the
    previous character was a digit. *)
Fixpoint digits_value (s : string) (acc : Z) (after_digit : bool)
  : option Z :=
  match s with
  | EmptyString => if after_digit then Some acc else None
  | String c s' =>
      if Str.is_digit c
      then digits_value s' (10 * acc + Str.digit_val c) true
      else if Ascii.eqb c "_"
           then if after_digit then digits_value s' acc false else None
           else None
  end.

Definition signed_value (s : string) : option Z :=
  match s with
  | String "-" s' => option_map Z.opp (digits_value s' 0 false)
  | String "+" s' => digits_value s' 0 false
  | _ => digits_value s 0 false
  end.

(** [int(s)] for a string [s], base 10. *)
Definition of_string (s : string) : result Z :=
  match signed_value (Str.strip s) with
  | Some z => Ok z
  | None => Raise ValueError
  end.

(** Decimal digits of a non-negative number, most significant first. *)
Fixpoint digits_fuel (fuel : nat) (n : Z) (acc : string) : string :=
  match fuel with
  | O => acc
  | S f =>
      let acc' := String (Str.digit_char (n mod 10)) acc in
      if n <? 10 then acc' else digits_fuel f (n / 10) acc'
  end.

Definition digits (n : Z) : string :=
  digits_fuel (S (Z.to_nat (Z.log2 n))) n "".

(** [str(n)] *)
Definition to_string (n : Z) : string :=
  if n <? 0 then "-" ++ digits (- n) else digits n.

(** ["%0<width>d" % n]: the zeros go between the sign and the digits. *)
Definition format_0d (width : nat) (n : Z) : string :=
  if n <? 0
  then "-" ++ Str.zfill (Nat.pred width) (digits (- n))
  else Str.zfill width (digits n).

End PyInt.

(* ------------------------------------------------------------------ *)
(** ** Floats: binary64 arithmetic, [float(str)], [round] and [repr] *)
(* ------------------------------------------------------------------ *)

Module PyFloat.

Definition prec : Z := 53.
Definition emax : Z := 1024.

Definition zero : float := S754_zero false.
Definition add : float -> float -> float := SFadd prec emax.
Definition mul : float -> float -> float := SFmul prec emax.
Definition ltb : float -> float -> bool := SFltb.
Definition abs : float -> float := SFabs.

(** The binary64 number nearest to the integer [z] (ties to even). *)
Definition of_Z (z : Z) : float := binary_normalize prec emax z 0 false.

(** Conversion of an [int] operand, as in [x * n] or [float(n)]. *)
Definition of_int (z : Z) : result float :=
  match of_Z z with
  | S754_infinity _ => Raise OverflowError
  | f => Ok f
  end.

(** The float literal [1e3]. *)
Definition f1e3 : float := Eval vm_compute in of_Z 1000.

(** The binary64 number nearest to [(-1)^neg * m * 10^e], for [0 <= m]:
    an exact integer is rounded once; a quotient by a power of ten is
    one correctly rounded division. *)
Definition of_decimal (neg : bool) (m e : Z) : float :=
  match m with
  | Z0 => S754_zero neg
  | Zpos p =>
      if 0 <=? e
      then binary_normalize prec emax
             (cond_Zopp neg (Zpos p * 10 ^ e)) 0 false
      else match 10 ^ (- e) with
           | Zpos d => SFdiv prec emax (S754_finite neg p 0)
                             (S754_finite false d 0)
           | _ => S754_nan
           end
  | Zneg _ => S754_nan
  end.

(** *** Parsing *)

Fixpoint span_digits (s : string) : string * string :=
  match s with
  | String c s' =>
      if Str.is_digit c
      then let (d, r) := span_digits s' in (String c d, r)
      else (EmptyString, s)
  | EmptyString => (EmptyString, EmptyString)
  end.

Fixpoint digits_to_Z (s : string) (acc : Z) : Z :=
  match s with
  | EmptyString => acc
  | String c s' => digits_to_Z s' (10 * acc + Str.digit_val c)
  end.

(** Every underscore stands between two digits; [prev] is the previous
    character. *)
Fixpoint underscores_ok (s : string) (prev : ascii) : bool :=
  match s with
  | EmptyString => negb (Ascii.eqb prev "_")
  | String c s' =>
      if Ascii.eqb c "_"
      then (Str.is_digit prev && underscores_ok s' c)%bool
      else if (Ascii.eqb prev "_" && negb (Str.is_digit c))%bool
           then false
           else underscores_ok s' c
  end.

Fixpoint remove_underscores (s : string) : string :=
  match s with
  | EmptyString => EmptyString
  | String c s' =>
      if Ascii.eqb c "_" then remove_underscores s'
      else String c (remove_underscores s')
  end.

(** The exponent part: empty, or [e] or [E], an optional sign and at
    least one digit, up to the end of the string. *)
Definition parse_exponent (s : string) : option Z :=
  match s with
  | EmptyString => Some 0
  | String c r =>
      if (Ascii.eqb c "e" || Ascii.eqb c "E")%bool
      then
        let '(neg, r') :=
          match r with
          | String "-" t => (true, t)
          | String "+" t => (false, t)
          | _ => (false, r)
          end in
        match span_digits r' with
        | (EmptyString, _) => None
        | (ds, EmptyString) => Some (cond_Zopp neg (digits_to_Z ds 0))
        | (_, String _ _) => None
        end
      else None
  end.

(** [digits [. digits] [exponent]] with at least one digit before the
    exponent: the mantissa as an integer and the decimal exponent. *)
Definition parse_decimal (s : string) : option (Z * Z) :=
  let (ip, r1) := span_digits s in
  let (fp, r2) :=
    match r1 with
    | String "." r => span_digits r
    | _ => (EmptyString, r1)
    end in
  match ip ++ fp with
  | EmptyString => None
  | ds =>
      match parse_exponent r2 with
      | Some x => Some (digits_to_Z ds 0, x - Z.of_nat (String.length fp))
      | None => None
      end
  end.

Definition parse_unsigned (neg : bool) (s : string) : option float :=
  let w := Str.lower s in
  if (String.eqb w "inf" || String.eqb w "infinity")%bool
  then Some (S754_infinity neg)
  else if String.eqb w "nan" then Some S754_nan
  else match parse_decimal s with
       | Some (m, e) => Some (of_decimal neg m e)
       | None => None
       end.

Definition parse_signed (s : string) : option float :=
  match s with
  | String "-" s' => parse_unsigned true s'
  | String "+" s' => parse_unsigned false s'
  | _ => parse_unsigned false s
  end.

(** [float(s)] for a string [s]. *)
Definition of_string (s : string) : result float :=
  let t := Str.strip s in
  if underscores_ok t "000"%char
  then match parse_signed (remove_underscores t) with
       | Some f => Ok f
       | None => Raise ValueError
       end
  else Raise ValueError.

(** *** Rounding to an integer *)

(** [m * 2^e] rounded to the nearest integer, ties to the even one. *)
Definition round_half_even (m e : Z) : Z :=
  if 0 <=? e then m * 2 ^ e
  else
    let d := 2 ^ (- e) in
    let q := m / d in
    match (2 * (m mod d)) ?= d with
    | Lt => q
    | Gt => q + 1
    | Eq => if Z.even q then q else q + 1
    end.

(** [round(x)] with one argument. *)
Definition round (x : float) : result Z :=
  match x with
  | S754_zero _ => Ok 0
  | S754_infinity _ => Raise OverflowError
  | S754_nan => Raise ValueError
  | S754_finite s m e => Ok (cond_Zopp s (round_half_even (Zpos m) e))
  end.

(** [int(x)]: truncation towards zero. *)
Definition trunc (x : float) : result Z :=
  match x with
  | S754_zero _ => Ok 0
  | S754_infinity _ => Raise OverflowError
  | S754_nan => Raise ValueError
  | S754_finite s m e =>
      Ok (cond_Zopp s (if 0 <=? e then Zpos m * 2 ^ e
                       else Zpos m / 2 ^ (- e)))
  end.

(** [bool(x)] *)
Definition truthy (x : float) : bool :=
  match x with
  | S754_zero _ => false
  | _ => true
  end.

(** *** [repr(x)], which is also [str(x)]

    The shortest decimal string that [float()] reads back as [x]; among
    the strings of that length, the one nearest to [x]. *)

(** The magnitude [m * 2^e] as a fraction. *)
Definition to_ratio (m : positive) (e : Z) : Z * Z :=
  if 0 <=? e then (Zpos m * 2 ^ e, 1) else (Zpos m, 2 ^ (- e)).

(** For [0 < n < d]: the least [j >= 0] with [d <= n * 10^(j+1)]. *)
Fixpoint leading_zeros (fuel : nat) (n d : Z) (j : Z) : Z :=
  match fuel with
  | O => j
  | S f => if d <=? n * 10 then j else leading_zeros f (n * 10) d (j + 1)
  end.

(** The [k] with [10^(k-1) <= n/d < 10^k]. *)
Definition decimal_point (n d : Z) : Z :=
  if d <=? n
  then Z.of_nat (String.length (PyInt.digits (n / d)))
  else - leading_zeros 400 n d 0.

Definition same_magnitude (x y : float) : bool :=
  match x, y with
  | S754_finite _ mx ex, S754_finite _ my ey =>
      (Pos.eqb mx my && Z.eqb ex ey)%bool
  | _, _ => false
  end.

(** The candidate with [nd] significant digits, if one reads back as
    [x]: the integer [c] with [x ~ c * 10^(k - nd)]. *)
Definition candidate (x : float) (n d k : Z) (nd : Z) : option Z :=
  let s := nd - k in
  let '(n', d') := if 0 <=? s then (n * 10 ^ s, d) else (n, d * 10 ^ (- s)) in
  let lo := n' / d' in
  let r := n' mod d' in
  let hi := lo + 1 in
  let ok c := same_magnitude (of_decimal false c (k - nd)) x in
  if r =? 0 then Some lo
  else
    match ok lo, ok hi with
    | true, true =>
        match (2 * r) ?= d' with
        | Lt => Some lo
        | Gt => Some hi
        | Eq => Some (if Z.even lo then lo else hi)
        end
    | true, false => Some lo
    | false, true => Some hi
    | false, false => None
    end.

Fixpoint shortest (fuel : nat) (x : float) (n d k : Z) (nd : Z)
  : Z * Z :=
  match fuel with
  | O => (n / d, nd)
  | S f =>
      match candidate x n d k nd with
      | Some c => (c, nd)
      | None => shortest f x n d k (nd + 1)
      end
  end.

Fixpoint strip_zeros_rev (s : string) : string :=
  match s with
  | String "0" s' => strip_zeros_rev s'
  | _ => s
  end.

(** The significant digits of a finite non-zero [x] and the position
    of its decimal point: [x = 0.d1d2... * 10^decpt]. *)
Definition shortest_digits (x : float) (m : positive) (e : Z)
  : string * Z :=
  let '(n, d) := to_ratio m e in
  let k := decimal_point n d in
  let '(c, nd) := shortest 17 x n d k 1 in
  let ds := PyInt.digits c in
  let decpt := k + (Z.of_nat (String.length ds) - nd) in
  (Str.rev (strip_zeros_rev (Str.rev ds "")) "", decpt).

Definition format_repr (ds : string) (decpt : Z) : string :=
  let len := Z.of_nat (String.length ds) in
  if ((-4 <? decpt) && (decpt <=? 16))%bool
  then
    if decpt <=? 0
    then "0." ++ Str.repeat "0"%char (Z.to_nat (- decpt)) ++ ds
    else if len <=? decpt
         then ds ++ Str.repeat "0"%char (Z.to_nat (decpt - len)) ++ ".0"
         else Str.take (Z.to_nat decpt) ds ++ "."
                ++ Str.drop (Z.to_nat decpt) ds
  else
    let x := decpt - 1 in
    Str.take 1 ds
      ++ (if 1 <? len then "." ++ Str.drop 1 ds else "")
      ++ "e" ++ (if x <? 0 then "-" else "+")
      ++ PyInt.format_0d 2 (Z.abs x).

Definition repr (x : float) : string :=
  match x with
  | S754_nan => "nan"
  | S754_infinity s => if s then "-inf" else "inf"
  | S754_zero s => if s then "-0.0" else "0.0"
  | S754_finite s m e =>
      let '(ds, decpt) := shortest_digits x m e in
      (if s then "-" else "") ++ format_repr ds decpt
  end.

End PyFloat.

(* ------------------------------------------------------------------ *)
(** ** Conversions and operators on Python values *)
(* ------------------------------------------------------------------ *)

(** [str(v)] *)
Definition py_str (v : pyval) : string :=
  match v with
  | PNone => "None"
  | PStr s => s
  | PInt z => PyInt.to_string z
  | PFloat f => PyFloat.repr f
  end.

(** [bool(v)], the test of [if v:] *)
Definition py_truthy (v : pyval) : bool :=
  match v with
  | PNone => false
  | PStr s => negb (String.eqb s "")
  | PInt z => negb (z =? 0)
  | PFloat f => PyFloat.truthy f
  end.

(** [int(v)] *)
Definition py_int (v : pyval) : result Z :=
  match v with
  | PNone => Raise TypeError
  | PStr s => PyInt.of_string s
  | PInt z => Ok z
  | PFloat f => PyFloat.trunc f
  end.

(** [float(v)] *)
Definition py_float (v : pyval) : result float :=
  match v with
  | PNone => Raise TypeError
  | PStr s => PyFloat.of_string s
  | PInt z => PyFloat.of_int z
  | PFloat f => Ok f
  end.

(** [a + b] where one operand is known to be a [str]: concatenation, and
    a [TypeError] when the other operand is not a [str]. *)
Definition str_add (a b : pyval) : result pyval :=
  match a, b with
  | PStr x, PStr y => Ok (PStr (x ++ y))
  | _, _ => Raise TypeError
  end.

(* ------------------------------------------------------------------ *)
(** ** Dictionaries *)
(* ------------------------------------------------------------------ *)

Module Dict.

Definition t (V : Type) : Type := list (string * V).

Section Ops.
Context {V : Type}.

(** [d.get(k)] *)
Fixpoint get (k : string) (d : t V) : option V :=
  match d with
  | [] => None
  | (k', v) :: d' => if String.eqb k k' then Some v else get k d'
  end.

(** [k in d.keys()] *)
Definition mem (k : string) (d : t V) : bool :=
  match get k d with
  | Some _ => true
  | None => false
  end.

(** [d[k]] *)
Definition getitem (d : t V) (k : string) : result V :=
  match get k d with
  | Some v => Ok v
  | None => Raise (KeyError k)
  end.

(** [d[k] = v]: an existing key keeps its place, a new key goes to
    the end. *)
Fixpoint setitem (k : string) (v : V) (d : t V) : t V :=
  match d with
  | [] => [(k, v)]
  | (k', v') :: d' =>
      if String.eqb k k' then (k', v) :: d'
      else (k', v') :: setitem k v d'
  end.

(** [d.keys()], in iteration order *)
Definition keys (d : t V) : list string := List.map fst d.

(** [d.update(e)] *)
Definition update (d e : t V) : t V :=
  fold_left (fun acc kv => setitem (fst kv) (snd kv) acc) e d.

End Ops.

End Dict.

(* ------------------------------------------------------------------ *)
(** ** Dates: [datetime.strptime], [isoformat] and [strftime] *)
(* ------------------------------------------------------------------ *)

Module DateTime.

Record t : Type := mk
  { year : Z; month : Z; day : Z;
    hour : Z; minute : Z; second : Z; microsecond : Z }.

Definition is_leap (y : Z) : bool :=
  ((y mod 4 =? 0) && (negb (y mod 100 =? 0) || (y mod 400 =? 0)))%bool.

Definition days_in_month (y m : Z) : Z :=
  if m =? 2 then (if is_leap y then 29 else 28)
  else if ((m =? 4) || (m =? 6) || (m =? 9) || (m =? 11))%bool then 30
  else 31.

(** The check of the [datetime] constructor on the date fields. *)
Definition valid_date (y m d : Z) : bool :=
  ((1 <=? y) && (y <=? 9999) && (1 <=? m) && (m <=? 12)
   && (1 <=? d) && (d <=? days_in_month y m))%bool.

Definition dv := Str.digit_val.

(** [%Y] is the regular expression [\d\d\d\d]. *)
Definition match_Y (s : string) : option (Z * string) :=
  match s with
  | String a (String b (String c (String d r))) =>
      if (Str.is_digit a && Str.is_digit b
          && Str.is_digit c && Str.is_digit d)%bool
      then Some (1000 * dv a + 100 * dv b + 10 * dv c + dv d, r)
      else None
  | _ => None
  end.

(** Two characters in given ranges, read as a two-digit number. *)
Definition two (lo1 hi1 lo2 hi2 : nat) (s : string)
  : list (Z * string) :=
  match s with
  | String a (String b r) =>
      if (Str.in_range lo1 hi1 a && Str.in_range lo2 hi2 b)%bool
      then [(10 * dv a + dv b, r)] else []
  | _ => []
  end.

(** One digit from 1 to 9. *)
Definition one (s : string) : list (Z * string) :=
  match s with
  | String a r => if Str.in_range 49 57 a then [(dv a, r)] else []
  | _ => []
  end.

(** [%m] is [1[0-2]|0[1-9]|[1-9]]: its matches, in the order the
    regular expression tries them. *)
Definition match_m (s : string) : list (Z * string) :=
  two 49 49 48 50 s ++ two 48 48 49 57 s ++ one s.

(** [%d] is [3[01]|[12]\d|0[1-9]|[1-9]| [1-9]]. *)
Definition match_d (s : string) : list (Z * string) :=
  two 51 51 48 49 s ++ two 49 50 48 57 s ++ two 48 48 49 57 s
    ++ one s
    ++ match s with
       | String " " r => one r
       | _ => []
       end.

(** A literal of the format. *)
Definition match_lit (lit s : string) : list string :=
  if Str.startswith s lit
  then [Str.drop (String.length lit) s] else [].

(** The matches of [<sep>%m<sep>%d] at the start of [r0], in the order
    in which backtracking over the alternatives finds them: month, day
    and what is left of the string. *)
Definition fields_md (sep r0 : string) : list (Z * Z * string) :=
  flat_map (fun r1 =>
  flat_map (fun '(m, r2) =>
  flat_map (fun r3 =>
  List.map (fun '(d, r4) => (m, d, r4)) (match_d r3))
    (match_lit sep r2))
    (match_m r1))
    (match_lit sep r0).

(** The first match of [%Y<sep>%m<sep>%d] at the start of [s]. *)
Definition regex_Ymd (sep s : string) : option (Z * Z * Z * string) :=
  match match_Y s with
  | None => None
  | Some (y, r0) =>
      match hd_error (fields_md sep r0) with
      | Some (m, d, r) => Some (y, m, d, r)
      | None => None
      end
  end.

(** [datetime.strptime(s, "%Y<sep>%m<sep>%d")]: no match, text left
    over after the match, and an impossible date are [ValueError]s. *)
Definition strptime_Ymd (sep s : string) : result t :=
  match regex_Ymd sep s with
  | Some (y, m, d, EmptyString) =>
      if valid_date y m d then Ok (mk y m d 0 0 0 0) else Raise ValueError
  | _ => Raise ValueError
  end.

(** [datetime.strptime(v, fmt)] on a value: the argument must be a
    [str]. *)
Definition strptime (v : pyval) (sep : string) : result t :=
  match v with
  | PStr s => strptime_Ymd sep s
  | _ => Raise TypeError
  end.

(** [d.strftime("%Y%m%d")], the year written with four digits as
    documented.  For a year below 1000 some C libraries leave out the
    leading zeros; what is proved below about the digits of a token is
    stated for the years from 1000 on, where all agree. *)
Definition strftime_Ymd (d : t) : string :=
  PyInt.format_0d 4 (year d) ++ PyInt.format_0d 2 (month d)
    ++ PyInt.format_0d 2 (day d).

(** [d.isoformat()] *)
Definition isoformat (d : t) : string :=
  PyInt.format_0d 4 (year d) ++ "-" ++ PyInt.format_0d 2 (month d)
    ++ "-" ++ PyInt.format_0d 2 (day d)
    ++ "T" ++ PyInt.format_0d 2 (hour d)
    ++ ":" ++ PyInt.format_0d 2 (minute d)
    ++ ":" ++ PyInt.format_0d 2 (second d)
    ++ (if microsecond d =? 0 then ""
        else "." ++ PyInt.format_0d 6 (microsecond d)).

End DateTime.

(* ------------------------------------------------------------------ *)
(** ** [os.path.splitext] (POSIX) *)
(* ------------------------------------------------------------------ *)

Module OsPath.

(** [p.rfind(c)] for a character [c]; [-1] when [c] does not occur. *)
Fixpoint rfind (c : ascii) (p : string) : Z :=
  match p with
  | EmptyString => -1
  | String a p' =>
      let i := rfind c p' in
      if 0 <=? i then i + 1
      else if Ascii.eqb a c then 0 else -1
  end.

Fixpoint has_non_dot (s : string) : bool :=
  match s with
  | EmptyString => false
  | String a s' => (negb (Ascii.eqb a ".") || has_non_dot s')%bool
  end.

(** The extension starts at the last dot of the last path component,
    unless that component has only dots before it. *)
Definition splitext (p : string) : string * string :=
  let sepIndex := rfind "/" p in
  let dotIndex := rfind "." p in
  if sepIndex <? dotIndex
  then
    let filenameIndex := sepIndex + 1 in
    if has_non_dot (Str.take (Z.to_nat (dotIndex - filenameIndex))
                      (Str.drop (Z.to_nat filenameIndex) p))
    then (Str.take (Z.to_nat dotIndex) p, Str.drop (Z.to_nat dotIndex) p)
    else (p, EmptyString)
  else (p, EmptyString).

End OsPath.

(* ------------------------------------------------------------------ *)
(** ** The program *)
(* ------------------------------------------------------------------ *)

(** [l[i]] for a list and [l[-1]] *)
Definition list_item {A : Type} (l : list A) (i : nat) : result A :=
  match nth_error l i with
  | Some a => Ok a
  | None => Raise IndexError
  end.

Definition list_last {A : Type} (l : list A) : result A :=
  list_item (List.rev l) 0.

(** A [for] loop over a list, threading the loop's state. *)
Fixpoint for_each {A S : Type} (body : S -> A -> result S) (l : list A)
  (s : S) : result S :=
  match l with
  | [] => Ok s
  | a :: l' => s' <- body s a ;; for_each body l' s'
  end.

(** *** [get_mission_name] (lines 72-116)

    [value] is [None] on the early return of line 86, when the map has
    neither key. *)

Definition get_mission_name (meta_dict : Dict.t string) : result pyval :=
  let mission := PNone in
  value <-
    (if Dict.mem "mission" meta_dict then
       raw <- Dict.getitem meta_dict "mission" ;; Ok (Some (Str.lower raw))
     else if Dict.mem "PLATFORM" meta_dict then
       raw <- Dict.getitem meta_dict "PLATFORM" ;; Ok (Some (Str.lower raw))
     else Ok None) ;;
  match value with
  | None => Ok mission
  | Some value =>
      if Str.startswith value "ers" then Ok (PStr "ERS")
      else if Str.startswith_any value ["env"; "asar"] then Ok (PStr "ENV")
      else if Str.startswith_any value ["s1"; "sen"] then Ok (PStr "S1")
      else if Str.startswith_any value ["rs"; "rsat"; "radarsat"] then
        let mission := "RS" in
        if Str.endswith value "1" then Ok (PStr (mission ++ "1"))
        else Ok (PStr (mission ++ "2"))
      else if Str.startswith_any value ["csk"; "cos"] then Ok (PStr "CSK")
      else if Str.startswith_any value ["tsx"; "tdx"; "terra"; "tandem"]
      then Ok (PStr "TSX")
      else if Str.startswith value "jers" then Ok (PStr "JERS")
      else if Str.startswith_any value ["alos"; "palsar"] then
        if Str.endswith value "2" then Ok (PStr "ALOS2")
        else Ok (PStr "ALOS")
      else Ok mission
  end.

(** *** [metadata_pysar2unavco] (lines 119-248) *)

(** Lines 124-127: when [marker] occurs in [key], the value is stored
    again under the second piece of [key.split(marker)]: what follows the
    first occurrence, up to the next one. *)
Definition alias_key (pysar_meta_dict_in : Dict.t string)
  (marker key : string) (pysar_meta_dict : Dict.t string)
  : result (Dict.t string) :=
  if Str.contains marker key then
    v <- Dict.getitem pysar_meta_dict_in key ;;
    k <- list_item (Str.split marker key) 1 ;;
    Ok (Dict.setitem k v pysar_meta_dict)
  else Ok pysar_meta_dict.

(** The body of the loop of lines 122-127. *)
Definition alias_step (pysar_meta_dict_in : Dict.t string)
  (pysar_meta_dict : Dict.t string) (key : string)
  : result (Dict.t string) :=
  v <- Dict.getitem pysar_meta_dict_in key ;;
  let pysar_meta_dict := Dict.setitem key v pysar_meta_dict in
  pysar_meta_dict <-
    alias_key pysar_meta_dict_in "unavco." key pysar_meta_dict ;;
  alias_key pysar_meta_dict_in "hdfEos5." key pysar_meta_dict.

(** Lines 121-127: the copy of the source map with its aliases. *)
Definition alias_keys (pysar_meta_dict_in : Dict.t string)
  : result (Dict.t string) :=
  for_each (alias_step pysar_meta_dict_in) (Dict.keys pysar_meta_dict_in) [].

(** [u[k] = <expr>] *)
Definition assign (k : string) (r : result pyval) (u : Dict.t pyval)
  : result (Dict.t pyval) :=
  v <- r ;; Ok (Dict.setitem k v u).

(** [try: u[k] = <expr>  except: pass] *)
Definition assign_or_pass (k : string) (r : result pyval) (u : Dict.t pyval)
  : result (Dict.t pyval) :=
  try_except (assign k r u) (Ok u).

(** [try: u[k] = <expr>  except: u[k] = dflt] *)
Definition assign_or_default (k : string) (r : result pyval) (dflt : pyval)
  (u : Dict.t pyval) : result (Dict.t pyval) :=
  try_except (assign k r u) (Ok (Dict.setitem k dflt u)).

(** ["POLYGON((" + ",".join([lon+' '+lat for lon, lat in zip(lons, lats)])
    + "))"] *)
Definition polygon (lons lats : list string) : string :=
  "POLYGON(("
    ++ Str.join "," (List.map (fun '(lon, lat) => lon ++ " " ++ lat)
                       (List.combine lons lats))
    ++ "))".

Section Translation.

(** The aliased copy of the source map, [pysar_meta_dict]. *)
Variable pysar_meta_dict : Dict.t string.

(** [pysar_meta_dict[k]], and the same under [int()] and [float()] *)
Definition item (k : string) : result string :=
  Dict.getitem pysar_meta_dict k.

Definition str_item (k : string) : result pyval :=
  v <- item k ;; Ok (PStr v).

Definition int_item (k : string) : result pyval :=
  v <- item k ;; z <- PyInt.of_string v ;; Ok (PInt z).

Definition float_item (k : string) : result pyval :=
  v <- item k ;; f <- PyFloat.of_string v ;; Ok (PFloat f).

(** [dt.datetime.strptime(d, '%Y%m%d').isoformat()[0:10]] *)
Definition iso_date (d : string) : result pyval :=
  t <- DateTime.strptime_Ymd "" d ;;
  Ok (PStr (Str.take 10 (DateTime.isoformat t))).

(** Lines 130-180, "Required metadata". *)
Definition required_metadata (utcnow : DateTime.t) (dateList : list string)
  (u : Dict.t pyval) : result (Dict.t pyval) :=
  (* mission (136-139) *)
  u <- try_except_ValueError
         (assign "mission" (get_mission_name pysar_meta_dict) u) (Ok u) ;;
  (* beam_mode/swath (142-146) *)
  u <- assign "beam_mode" (str_item "beam_mode") u ;;
  u <- assign_or_default "beam_swath" (int_item "beam_swath") (PInt 0) u ;;
  (* relative_orbit (150) *)
  u <- assign "relative_orbit" (int_item "relative_orbit") u ;;
  (* processing info (153-156) *)
  u <- assign_or_default "processing_type" (str_item "processing_type")
         (PStr "LOS_TIMESERIES") u ;;
  (* date info (161-162) *)
  u <- assign "first_date" (d <- list_item dateList 0 ;; iso_date d) u ;;
  u <- assign "last_date" (d <- list_last dateList ;; iso_date d) u ;;
  (* footprint (165-178) *)
  lon1 <- item "LON_REF1" ;;
  lon3 <- item "LON_REF3" ;;
  lon4 <- item "LON_REF4" ;;
  lon2 <- item "LON_REF2" ;;
  lon1' <- item "LON_REF1" ;;
  let lons := [lon1; lon3; lon4; lon2; lon1'] in
  lat1 <- item "LAT_REF1" ;;
  lat3 <- item "LAT_REF3" ;;
  lat4 <- item "LAT_REF4" ;;
  lat2 <- item "LAT_REF2" ;;
  lat1' <- item "LAT_REF1" ;;
  let lats := [lat1; lat3; lat4; lat2; lat1'] in
  let u := Dict.setitem "scene_footprint" (PStr (polygon lons lats)) u in
  (* history (180) *)
  Ok (Dict.setitem "history"
        (PStr (Str.take 10 (DateTime.isoformat utcnow))) u).

(** Lines 182-230, "Recommended metadata". *)
Definition recommended_metadata (u : Dict.t pyval)
  : result (Dict.t pyval) :=
  (* frame (186-191) *)
  u <- (if Dict.mem "frame" pysar_meta_dict
        then assign "frame" (int_item "frame") u
        else if Dict.mem "first_frame" pysar_meta_dict
             then assign "frame" (int_item "first_frame") u
             else Ok (Dict.setitem "frame" (PInt 0) u)) ;;
  (* 193-208 *)
  u <- assign_or_pass "atmos_correct_method"
         (str_item "atmos_correct_method") u ;;
  u <- assign_or_default "post_processing_method"
         (str_item "post_processing_method") (PStr "PYSAR") u ;;
  u <- assign_or_pass "processing_dem" (str_item "processing_dem") u ;;
  u <- assign_or_pass "unwrap_method" (str_item "unwrap_method") u ;;
  (* flight and look direction (211-218) *)
  u <- assign_or_pass "flight_direction"
         (v <- item "ORBIT_DIRECTION" ;;
          c <- Str.head v ;;
          Ok (PStr (Str.upper c))) u ;;
  side <- item "ANTENNA_SIDE" ;;
  let u := if String.eqb side "-1"
           then Dict.setitem "look_direction" (PStr "R") u
           else Dict.setitem "look_direction" (PStr "L") u in
  (* 219-230 *)
  u <- assign_or_pass "polarization" (str_item "POLARIZATION") u ;;
  u <- assign_or_pass "prf" (float_item "PRF") u ;;
  assign_or_pass "wavelength" (float_item "WAVELENGTH") u.

(** Lines 237-244: the footprint of the data coverage. *)
Definition data_footprint : result pyval :=
  x_first <- item "X_FIRST" ;;
  lon0 <- PyFloat.of_string x_first ;;
  y_first <- item "Y_FIRST" ;;
  lat0 <- PyFloat.of_string y_first ;;
  x_step <- item "X_STEP" ;;
  x_step <- PyFloat.of_string x_step ;;
  width <- item "WIDTH" ;;
  width <- PyInt.of_string width ;;
  width <- PyFloat.of_int width ;;
  let lon1 := PyFloat.add lon0 (PyFloat.mul x_step width) in
  y_step <- item "Y_STEP" ;;
  y_step <- PyFloat.of_string y_step ;;
  length <- item "LENGTH" ;;
  length <- PyInt.of_string length ;;
  length <- PyFloat.of_int length ;;
  let lat1 := PyFloat.add lat0 (PyFloat.mul y_step length) in
  let lons := List.map PyFloat.repr [lon0; lon1; lon1; lon0; lon0] in
  let lats := List.map PyFloat.repr [lat0; lat0; lat1; lat1; lat0] in
  Ok (PStr (polygon lons lats)).

(** Lines 232-246, "insarmaps metadata". *)
Definition insarmaps_metadata (u : Dict.t pyval)
  : result (Dict.t pyval) :=
  if Dict.mem "X_FIRST" pysar_meta_dict
  then assign "data_footprint" data_footprint u
  else Ok u.

End Translation.

(** The function: the aliasing loop, then the three parts of the
    translation on an empty [unavco_meta_dict]. *)
Definition metadata_pysar2unavco (utcnow : DateTime.t)
  (pysar_meta_dict_in : Dict.t string) (dateList : list string)
  : result (Dict.t pyval) :=
  pysar_meta_dict <- alias_keys pysar_meta_dict_in ;;
  let unavco_meta_dict : Dict.t pyval := [] in
  unavco_meta_dict <-
    required_metadata pysar_meta_dict utcnow dateList unavco_meta_dict ;;
  unavco_meta_dict <-
    recommended_metadata pysar_meta_dict unavco_meta_dict ;;
  insarmaps_metadata pysar_meta_dict unavco_meta_dict.

(** *** [prep_metadata] (lines 251-265), from the metadata and the date
    list of the time-series file *)

Definition prep_metadata (utcnow : DateTime.t) (metadata : Dict.t string)
  (dateList : list string) : result (Dict.t pyval) :=
  unavco_meta_dict <- metadata_pysar2unavco utcnow metadata dateList ;;
  let meta_dict : Dict.t pyval :=
    List.map (fun '(k, v) => (k, PStr v)) metadata in
  let meta_dict := Dict.update meta_dict unavco_meta_dict in
  Ok (Dict.setitem "FILE_TYPE" (PStr "HDFEOS") meta_dict).

(** *** [get_output_filename] (lines 268-318) *)

(** Lines 300-314: the suffix [SUB] of the subset mode. *)
Definition subset_range (metadata : Dict.t pyval) : result string :=
  let item k := Dict.getitem metadata k in
  y_first <- item "Y_FIRST" ;;
  lat1 <- py_float y_first ;;
  x_first <- item "X_FIRST" ;;
  lon0 <- py_float x_first ;;
  y_step <- item "Y_STEP" ;;
  y_step <- py_float y_step ;;
  length <- item "LENGTH" ;;
  length <- py_int length ;;
  length <- PyFloat.of_int length ;;
  let lat0 := PyFloat.add lat1 (PyFloat.mul y_step length) in
  x_step <- item "X_STEP" ;;
  x_step <- py_float x_step ;;
  width <- item "WIDTH" ;;
  width <- py_int width ;;
  width <- PyFloat.of_int width ;;
  let lon1 := PyFloat.add lon0 (PyFloat.mul x_step width) in
  lat0N <- PyFloat.round (PyFloat.mul lat0 PyFloat.f1e3) ;;
  lat1N <- PyFloat.round (PyFloat.mul lat1 PyFloat.f1e3) ;;
  lon0E <- PyFloat.round (PyFloat.mul lon0 PyFloat.f1e3) ;;
  lon1E <- PyFloat.round (PyFloat.mul lon1 PyFloat.f1e3) ;;
  let lat0Str := "N" ++ PyInt.format_0d 5 lat0N in
  let lat1Str := "N" ++ PyInt.format_0d 5 lat1N in
  let lon0Str := "E" ++ PyInt.format_0d 6 lon0E in
  let lon1Str := "E" ++ PyInt.format_0d 6 lon1E in
  lat0Str <- (if PyFloat.ltb lat0 PyFloat.zero
              then n <- PyFloat.round
                          (PyFloat.mul (PyFloat.abs lat0) PyFloat.f1e3) ;;
                   Ok ("S" ++ PyInt.format_0d 5 n)
              else Ok lat0Str) ;;
  lat1Str <- (if PyFloat.ltb lat1 PyFloat.zero
              then n <- PyFloat.round
                          (PyFloat.mul (PyFloat.abs lat1) PyFloat.f1e3) ;;
                   Ok ("S" ++ PyInt.format_0d 5 n)
              else Ok lat1Str) ;;
  lon0Str <- (if PyFloat.ltb lon0 PyFloat.zero
              then n <- PyFloat.round
                          (PyFloat.mul (PyFloat.abs lon0) PyFloat.f1e3) ;;
                   Ok ("W" ++ PyInt.format_0d 6 n)
              else Ok lon0Str) ;;
  lon1Str <- (if PyFloat.ltb lon1 PyFloat.zero
              then n <- PyFloat.round
                          (PyFloat.mul (PyFloat.abs lon1) PyFloat.f1e3) ;;
                   Ok ("W" ++ PyInt.format_0d 6 n)
              else Ok lon1Str) ;;
  Ok ("_" ++ lat0Str ++ "_" ++ lat1Str ++ "_" ++ lon0Str ++ "_" ++ lon1Str).

(** Lines 270-296: the name without the subset range. *)
Definition plain_filename (metadata : Dict.t pyval) (update_mode : bool)
  : result string :=
  let item k := Dict.getitem metadata k in
  SAT <- item "mission" ;;
  SW <- item "beam_mode" ;;
  beam_swath <- item "beam_swath" ;;
  SW <- (if py_truthy beam_swath
         then beam_swath <- item "beam_swath" ;;
              str_add SW (PStr (py_str beam_swath))
         else Ok SW) ;;
  relative_orbit <- item "relative_orbit" ;;
  relative_orbit <- py_int relative_orbit ;;
  let RELORB := PyInt.format_0d 3 relative_orbit in
  (* first and/or last frame *)
  frame <- item "frame" ;;
  frame1 <- py_int frame ;;
  frame1 <- (if Dict.mem "first_frame" metadata
             then v <- item "first_frame" ;; py_int v
             else Ok frame1) ;;
  let FRAME := PyInt.format_0d 4 frame1 in
  FRAME <- (if Dict.mem "last_frame" metadata
            then v <- item "last_frame" ;;
                 frame2 <- py_int v ;;
                 Ok (if negb (frame2 =? frame1)
                     then FRAME ++ "_" ++ PyInt.format_0d 4 frame2
                     else FRAME)
            else Ok FRAME) ;;
  first_date <- item "first_date" ;;
  date1 <- DateTime.strptime first_date "-" ;;
  let DATE1 := DateTime.strftime_Ymd date1 in
  last_date <- item "last_date" ;;
  date2 <- DateTime.strptime last_date "-" ;;
  let DATE2 := DateTime.strftime_Ymd date2 in
  let DATE2 := if update_mode then "XXXXXXXX" else DATE2 in
  outName <- str_add SAT (PStr "_") ;;
  outName <- str_add outName SW ;;
  outName <- str_add outName
               (PStr ("_" ++ RELORB ++ "_" ++ FRAME ++ "_" ++ DATE1
                        ++ "_" ++ DATE2 ++ ".he5")) ;;
  Ok (py_str outName).

Definition get_output_filename (metadata : Dict.t pyval)
  (update_mode subset_mode : bool) : result string :=
  outName <- plain_filename metadata update_mode ;;
  if subset_mode then
    SUB <- subset_range metadata ;;
    Ok (fst (OsPath.splitext outName) ++ SUB
          ++ snd (OsPath.splitext outName))
  else Ok outName.

(** *** [read_template2inps] (lines 321-340) *)

(** The options of the command line as [create_parser] (lines 41-62)
    declares them: a positional file, four optional files that default to
    [None], and two flags that default to [False]. *)
Record Namespace : Type := mk_inps
  { timeseries_file : string;
    template_file : option string;
    coherence_file : option string;
    mask_file : option string;
    geom_file : option string;
    update : bool;
    subset : bool }.

(** [inps.update = True] and [inps.subset = True] *)
Definition set_update (inps : Namespace) : Namespace :=
  mk_inps (timeseries_file inps) (template_file inps) (coherence_file inps)
    (mask_file inps) (geom_file inps) true (subset inps).

Definition set_subset (inps : Namespace) : Namespace :=
  mk_inps (timeseries_file inps) (template_file inps) (coherence_file inps)
    (mask_file inps) (geom_file inps) (update inps) true.

(** [key in template.keys() and template[key] == 'yes'] *)
Definition template_says_yes (template : Dict.t string) (key : string)
  : result bool :=
  if Dict.mem key template
  then v <- Dict.getitem template key ;; Ok (String.eqb v "yes")
  else Ok false.

(** The function, over the two readers it calls: [cmd_line_parse], from
    the argument list (or [None], for that of the process) to the
    options, and [readfile.read_template], from the path of a template
    file to its options.  An [inps] that is [None] is replaced by the
    options of the command line. *)
Definition read_template2inps
  (cmd_line_parse : option (list string) -> result Namespace)
  (read_template : string -> result (Dict.t string))
  (template_file : string) (inps : option Namespace) : result Namespace :=
  inps <- (match inps with
           | None => cmd_line_parse None
           | Some inps => Ok inps
           end) ;;
  template <- read_template template_file ;;
  let prefix := "pysar.save.hdfEos5." in
  let key := prefix ++ "update" in
  yes <- template_says_yes template key ;;
  let inps := if yes then set_update inps else inps in
  let key := prefix ++ "subset" in
  yes <- template_says_yes template key ;;
  let inps := if yes then set_subset inps else inps in
  Ok inps.

(** *** [write2hdf5] (lines 343-495): the attributes of a geometry
    dataset *)

(** The fill values of lines 21-24. *)
Inductive fill_value : Type :=
  | BOOL_ZERO
  | INT_ZERO
  | FLOAT_ZERO
  | CPX_ZERO.

(** What the writer stores in an attribute of a dataset: a text, or one
    of the fill values. *)
Inductive attr_value : Type :=
  | AText (s : string)
  | AFill (z : fill_value).

(** [dsName in [...]] *)
Definition in_names (dsName : string) (names : list string) : bool :=
  existsb (String.eqb dsName) names.

(** Lines 462-486: the assignments to [dset.attrs] in the loop over the
    datasets of the geometry file, on the attributes [attrs] the dataset
    has when it is created. *)
Definition geometry_attrs (dsName : string) (attrs : Dict.t attr_value)
  : Dict.t attr_value :=
  let attrs := Dict.setitem "Title" (AText dsName) attrs in
  if in_names dsName ["height"; "slantRangeDistance"; "bperp"] then
    let attrs := Dict.setitem "MissingValue" (AFill FLOAT_ZERO) attrs in
    let attrs := Dict.setitem "_FillValue" (AFill FLOAT_ZERO) attrs in
    Dict.setitem "Units" (AText "meters") attrs
  else if in_names dsName
            ["incidenceAngle"; "headingAngle"; "latitude"; "longitude"] then
    let attrs := Dict.setitem "MissingValue" (AFill FLOAT_ZERO) attrs in
    let attrs := Dict.setitem "_FillValue" (AFill FLOAT_ZERO) attrs in
    Dict.setitem "Units" (AText "degrees") attrs
  else if in_names dsName ["rangeCoord"; "azimuthCoord"] then
    let attrs := Dict.setitem "MissingValue" (AFill FLOAT_ZERO) attrs in
    let attrs := Dict.setitem "_FillValue" (AFill FLOAT_ZERO) attrs in
    Dict.setitem "Units" (AText "1") attrs
  else if in_names dsName ["waterMask"; "shadowMask"] then
    let attrs := Dict.setitem "MissingValue" (AFill BOOL_ZERO) attrs in
    let attrs := Dict.setitem "_FillValue" (AFill BOOL_ZERO) attrs in
    Dict.setitem "Units" (AText "1") attrs
  else attrs.

(** *** [main] (lines 499-519), up to the name it hands to
    [write2hdf5] *)

(** [if inps.template_file:], on a value that is [None] or a [str] *)
Definition path_given (f : option string) : option string :=
  match f with
  | Some f => if String.eqb f "" then None else Some f
  | None => None
  end.

(** From the argument list, and from the metadata and the date list of
    the time-series file [inps.timeseries_file]. *)
Definition main_outName (utcnow : DateTime.t)
  (cmd_line_parse : option (list string) -> result Namespace)
  (read_template : string -> result (Dict.t string))
  (iargs : option (list string))
  (metadata : Dict.t string) (dateList : list string) : result string :=
  inps <- cmd_line_parse iargs ;;
  inps <- (match path_given (template_file inps) with
           | Some f =>
               read_template2inps cmd_line_parse read_template f (Some inps)
           | None => Ok inps
           end) ;;
  meta_dict <- prep_metadata utcnow metadata dateList ;;
  get_output_filename meta_dict (update inps) (subset inps).

(* ------------------------------------------------------------------ *)
(** ** Notions of the specification *)
(* ------------------------------------------------------------------ *)

(** The mission indicator: the value of [mission] if the key is present,
    else the value of [PLATFORM]. *)
Definition mission_indicator (meta_dict : Dict.t string) : option string :=
  match Dict.get "mission" meta_dict with
  | Some v => Some v
  | None => Dict.get "PLATFORM" meta_dict
  end.

(** The prefixes of the mission table. *)
Definition mission_prefixes : list string :=
  ["ers"; "env"; "asar"; "s1"; "sen"; "rs"; "rsat"; "radarsat"; "csk";
   "cos"; "tsx"; "tdx"; "terra"; "tandem"; "jers"; "alos"; "palsar"].

(** The keys under which the aliasing loop stores the value of the
    source key [key]: the key itself, and the second piece of the key
    split at [unavco.] and at [hdfEos5.]. *)
Definition alias_targets (key : string) : list string :=
  key
    :: (if Str.contains "unavco." key
        then [nth 1 (Str.split "unavco." key) ""] else [])
    ++ (if Str.contains "hdfEos5." key
        then [nth 1 (Str.split "hdfEos5." key) ""] else []).

Definition writes (key t : string) : bool :=
  existsb (String.eqb t) (alias_targets key).

(** The last key of [ks], in iteration order, stored under [t]. *)
Fixpoint last_writer (t : string) (ks : list string) : option string :=
  match ks with
  | [] => None
  | k :: ks' =>
      match last_writer t ks' with
      | Some k' => Some k'
      | None => if writes k t then Some k else None
      end
  end.

(** The keys written by the "Recommended metadata" part. *)
Definition recommended_keys : list string :=
  ["frame"; "atmos_correct_method"; "post_processing_method";
   "processing_dem"; "unwrap_method"; "flight_direction"; "look_direction";
   "polarization"; "prf"; "wavelength"].

(** The required keys of the archive metadata. *)
Definition required_keys : list string :=
  ["mission"; "beam_mode"; "beam_swath"; "relative_orbit"; "first_date";
   "last_date"; "scene_footprint"; "history"].

(** The corner keys of the scene footprint. *)
Definition corner_keys : list string :=
  ["LON_REF1"; "LON_REF2"; "LON_REF3"; "LON_REF4";
   "LAT_REF1"; "LAT_REF2"; "LAT_REF3"; "LAT_REF4"].

(** A value that [int()] accepts. *)
Definition int_parsable (s : string) : Prop :=
  exists z, PyInt.of_string s = Ok z.

(** The frame number, when the map has one, is an integer: [frame] if
    present, else [first_frame]. *)
Definition frame_parsable (p : Dict.t string) : Prop :=
  match Dict.get "frame" p with
  | Some s => int_parsable s
  | None =>
      match Dict.get "first_frame" p with
      | Some s => int_parsable s
      | None => True
      end
  end.

(** A date string that [strptime(d, '%Y%m%d')] accepts. *)
Definition valid_date_string (d : string) : Prop :=
  exists t, DateTime.strptime_Ymd "" d = Ok t.

(** The well-known text of a ring of vertices [(lon, lat)]. *)
Definition wkt_ring (vertices : list (string * string)) : string :=
  "POLYGON(("
    ++ String.concat "," (List.map (fun v => fst v ++ " " ++ snd v) vertices)
    ++ "))".

(** [beam_swath] is absent, or is not an integer. *)
Definition swath_missing (p : Dict.t string) : Prop :=
  match Dict.get "beam_swath" p with
  | None => True
  | Some s => ~ int_parsable s
  end.

(** What the translation needs of the aliased map [p] and of the date
    list, the data footprint apart. *)
Definition translatable (p : Dict.t string) (dates : list string) : Prop :=
  (exists bm, Dict.get "beam_mode" p = Some bm)
  /\ (exists ro, Dict.get "relative_orbit" p = Some ro /\ int_parsable ro)
  /\ (exists side, Dict.get "ANTENNA_SIDE" p = Some side)
  /\ (forall k, In k corner_keys -> exists v, Dict.get k p = Some v)
  /\ (exists d0 dl, list_item dates 0 = Ok d0 /\ list_last dates = Ok dl
                    /\ valid_date_string d0 /\ valid_date_string dl)
  /\ frame_parsable p.

(** The geocoding anchors other than [X_FIRST]. *)
Definition other_anchors : list string :=
  ["Y_FIRST"; "X_STEP"; "Y_STEP"; "WIDTH"; "LENGTH"].

(** The override key of the track. *)
Definition override_key : string := "hdfEos5.relative_orbit".

(** The anchor [k] of the map read as a float, and as an integer
    extent converted to a float. *)
Definition anchor_float (p : Dict.t string) (k : string) (f : float)
  : Prop :=
  exists s, Dict.get k p = Some s /\ PyFloat.of_string s = Ok f.

Definition anchor_extent (p : Dict.t string) (k : string) (f : float)
  : Prop :=
  exists s z, Dict.get k p = Some s /\ PyInt.of_string s = Ok z
              /\ PyFloat.of_int z = Ok f.

(** The rectangle from the origin [(lon0, lat0)] to the opposite corner
    [(lon1, lat1)]: origin, end of the first row, opposite corner, end of
    the first column, origin. *)
Definition rectangle_ring (lon0 lat0 lon1 lat1 : float) : string :=
  let r := PyFloat.repr in
  wkt_ring [(r lon0, r lat0); (r lon1, r lat0); (r lon1, r lat1);
            (r lon0, r lat1); (r lon0, r lat0)].

(** A date value reformatted from [YYYY-MM-DD] to [YYYYMMDD]. *)
Definition date_token (v : pyval) : result string :=
  d <- DateTime.strptime v "-" ;; Ok (DateTime.strftime_Ymd d).

(** The end-date token of a name: the literal of the update mode, or the
    reformatted [last_date]. *)
Definition end_token (update_mode : bool) (tok : string) : string :=
  if update_mode then "XXXXXXXX" else tok.

(** A string of exactly [n] decimal digits. *)
Fixpoint all_digits (s : string) : bool :=
  match s with
  | EmptyString => true
  | String c s' => (Str.is_digit c && all_digits s')%bool
  end.

Definition digit_field (n : nat) (s : string) : Prop :=
  String.length s = n /\ all_digits s = true.

(** The ten digit characters. *)
Definition digit_chars : list ascii :=
  ["0"; "1"; "2"; "3"; "4"; "5"; "6"; "7"; "8"; "9"]%char.

(** Checks over digit characters, decided by evaluation. *)
Definition two_digits_check (e f : ascii) : bool :=
  String.eqb (PyInt.format_0d 2 (10 * Str.digit_val e + Str.digit_val f))
    (String e (String f "")).

Definition four_digits_check (a b c d : ascii) : bool :=
  String.eqb
    (PyInt.format_0d 4 (1000 * Str.digit_val a + 100 * Str.digit_val b
                        + 10 * Str.digit_val c + Str.digit_val d))
    (String a (String b (String c (String d "")))).

(** A month and a day of two digits each are read as such, if at all. *)
Definition month_day_check (e f g h : ascii) : bool :=
  match hd_error (DateTime.fields_md "-"
                    (String "-" (String e (String f
                       (String "-" (String g (String h ""))))))) with
  | Some (m, d, EmptyString) =>
      ((m =? 10 * Str.digit_val e + Str.digit_val f)
       && (d =? 10 * Str.digit_val g + Str.digit_val h))%bool
  | _ => true
  end.

(** The value of key [k] of the metadata read as a float, and as an
    integer extent converted to a float. *)
Definition meta_float (m : Dict.t pyval) (k : string) (f : float) : Prop :=
  exists v, Dict.get k m = Some v /\ py_float v = Ok f.

Definition meta_extent (m : Dict.t pyval) (k : string) (f : float) : Prop :=
  exists v z, Dict.get k m = Some v /\ py_int v = Ok z
              /\ PyFloat.of_int z = Ok f.

(** One bound of the subset range in the words of the specification: a
    hemisphere letter, [pos] for a coordinate that is not negative and
    [neg] for a negative one, followed by the absolute value in
    milli-degrees, rounded to the nearest integer and padded with zeros
    to [width] digits. *)
Definition spec_bound (pos neg : string) (width : nat) (x : float)
  : result string :=
  n <- PyFloat.round (PyFloat.mul (PyFloat.abs x) PyFloat.f1e3) ;;
  Ok ((if PyFloat.ltb x PyFloat.zero then neg else pos)
        ++ PyInt.format_0d width n).

(** The smaller and the larger of two coordinates. *)
Definition fmin (a b : float) : float := if PyFloat.ltb b a then b else a.
Definition fmax (a b : float) : float := if PyFloat.ltb a b then b else a.

(** The subset range with its bounds in the order minimum latitude,
    maximum latitude, minimum longitude, maximum longitude of the edges
    [lat_a], [lat_b], [lon_a], [lon_b] of the raster. *)
Definition min_max_range (lat_a lat_b lon_a lon_b : float) : result string :=
  b1 <- spec_bound "N" "S" 5 (fmin lat_a lat_b) ;;
  b2 <- spec_bound "N" "S" 5 (fmax lat_a lat_b) ;;
  b3 <- spec_bound "E" "W" 6 (fmin lon_a lon_b) ;;
  b4 <- spec_bound "E" "W" 6 (fmax lon_a lon_b) ;;
  Ok ("_" ++ b1 ++ "_" ++ b2 ++ "_" ++ b3 ++ "_" ++ b4).

(** Two maps agree off the key [history]. *)
Definition agree_off_history (m1 m2 : Dict.t pyval) : Prop :=
  forall k, k <> "history" -> Dict.get k m1 = Dict.get k m2.

(** Two maps hold the same keys in the same order, with the same values
    except perhaps under [history]. *)
Definition same_but_history (m1 m2 : Dict.t pyval) : Prop :=
  Forall2 (fun a b => fst a = fst b
                      /\ (fst a <> "history" -> snd a = snd b)) m1 m2.

(** Two runs end alike: with the same exception, or with results
    related by [R]. *)
Definition alike {A : Type} (R : A -> A -> Prop) (r1 r2 : result A) : Prop :=
  match r1, r2 with
  | Ok a, Ok b => R a b
  | Raise e1, Raise e2 => e1 = e2
  | _, _ => False
  end.

(** The name [main] chooses (lines 502-508): [prep_metadata], then
    [get_output_filename] on its result, from the metadata and the date
    list of the time-series file. *)
Definition output_name (utcnow : DateTime.t) (metadata : Dict.t string)
  (dateList : list string) (update_mode subset_mode : bool)
  : result string :=
  meta_dict <- prep_metadata utcnow metadata dateList ;;
  get_output_filename meta_dict update_mode subset_mode.

(** A value that [int()] accepts. *)
Definition int_value (v : pyval) : Prop := exists z, py_int v = Ok z.

(** Metadata that [get_output_filename] can name: the mission and the
    beam mode are strings, the swath is present, the track and the frame
    numbers are integers, and the two dates are valid [YYYY-MM-DD]
    dates. *)
Definition nameable (m : Dict.t pyval) : Prop :=
  (exists sat, Dict.get "mission" m = Some (PStr sat))
  /\ (exists sw, Dict.get "beam_mode" m = Some (PStr sw))
  /\ (exists bs, Dict.get "beam_swath" m = Some bs)
  /\ (exists v, Dict.get "relative_orbit" m = Some v /\ int_value v)
  /\ (exists v, Dict.get "frame" m = Some v /\ int_value v)
  /\ (forall v, Dict.get "first_frame" m = Some v -> int_value v)
  /\ (forall v, Dict.get "last_frame" m = Some v -> int_value v)
  /\ (exists v tok, Dict.get "first_date" m = Some v
                    /\ date_token v = Ok tok)
  /\ (exists v tok, Dict.get "last_date" m = Some v
                    /\ date_token v = Ok tok).

(** A string whose last character is a digit. *)
Definition ends_in_digit (s : string) : Prop :=
  exists pre c, s = pre ++ String c "" /\ Str.is_digit c = true.

(* ------------------------------------------------------------------ *)
(** ** Notions of the further properties *)
(* ------------------------------------------------------------------ *)

(** The keys the translation can write: the required ones,
    [processing_type], the recommended ones and [data_footprint]. *)
Definition archive_keys : list string :=
  (required_keys ++ ["processing_type"] ++ recommended_keys
     ++ ["data_footprint"])%list.

(** The keys, beyond the required ones, that every result of the
    translation holds. *)
Definition always_keys : list string :=
  ["processing_type"; "frame"; "post_processing_method"; "look_direction"].

(** A map without duplicate keys, all of them in [L]. *)
Definition within (L : list string) (d : Dict.t pyval) : Prop :=
  NoDup (Dict.keys d) /\ incl (Dict.keys d) L.

(** The frame of lines 186-191 as a value. *)
Definition frame_value (p : Dict.t string) : result pyval :=
  if Dict.mem "frame" p then int_item p "frame"
  else if Dict.mem "first_frame" p then int_item p "first_frame"
       else Ok (PInt 0).

(** What [recommended_metadata] returns on [u], given the frame [vf] and
    the antenna side [side] it has read. *)
Definition recommended_result (p : Dict.t string) (vf : pyval)
  (side : string) (u : Dict.t pyval) : Dict.t pyval :=
  let u := Dict.setitem "frame" vf u in
  let u := match str_item p "atmos_correct_method" with
           | Ok v => Dict.setitem "atmos_correct_method" v u
           | Raise _ => u
           end in
  let u := Dict.setitem "post_processing_method"
             (match str_item p "post_processing_method" with
              | Ok v => v
              | Raise _ => PStr "PYSAR"
              end) u in
  let u := match str_item p "processing_dem" with
           | Ok v => Dict.setitem "processing_dem" v u
           | Raise _ => u
           end in
  let u := match str_item p "unwrap_method" with
           | Ok v => Dict.setitem "unwrap_method" v u
           | Raise _ => u
           end in
  let u := match (v <- item p "ORBIT_DIRECTION" ;;
                  c <- Str.head v ;;
                  Ok (PStr (Str.upper c))) with
           | Ok v => Dict.setitem "flight_direction" v u
           | Raise _ => u
           end in
  let u := if String.eqb side "-1"
           then Dict.setitem "look_direction" (PStr "R") u
           else Dict.setitem "look_direction" (PStr "L") u in
  let u := match str_item p "POLARIZATION" with
           | Ok v => Dict.setitem "polarization" v u
           | Raise _ => u
           end in
  let u := match float_item p "PRF" with
           | Ok v => Dict.setitem "prf" v u
           | Raise _ => u
           end in
  match float_item p "WAVELENGTH" with
  | Ok v => Dict.setitem "wavelength" v u
  | Raise _ => u
  end.

(** The value the frame number is read from: [frame] if present, else
    [first_frame]. *)
Definition frame_source (p : Dict.t string) : option string :=
  match Dict.get "frame" p with
  | Some s => Some s
  | None => Dict.get "first_frame" p
  end.

(** The frame number of the aliased map: read from [frame], else from
    [first_frame], else [0]. *)
Definition frame_number (p : Dict.t string) (fr : Z) : Prop :=
  match frame_source p with
  | Some s => PyInt.of_string s = Ok fr
  | None => fr = 0
  end.

(** The swath number of the aliased map: [0] when [beam_swath] is absent
    or is not an integer. *)
Definition swath_number (p : Dict.t string) : Z :=
  match Dict.get "beam_swath" p with
  | Some s =>
      match PyInt.of_string s with
      | Ok z => z
      | Raise _ => 0
      end
  | None => 0
  end.

(** A value, or a default when there is none. *)
Definition with_default (o : option string) (dflt : string) : string :=
  match o with
  | Some v => v
  | None => dflt
  end.


(** The first letter of a value in upper case, when there is one. *)
Definition initial (p : Dict.t string) (k : string) : option pyval :=
  match Dict.get k p with
  | Some (String c _) => Some (PStr (String (Str.upper_char c) ""))
  | _ => None
  end.

(** A key without either marker of the aliasing loop. *)
Definition plain_key (k : string) : bool :=
  (negb (Str.contains "unavco." k) && negb (Str.contains "hdfEos5." k))%bool.

(** The date part [YYYY-MM-DD] of a reading of the clock. *)
Definition iso_day (t : DateTime.t) : string :=
  PyInt.format_0d 4 (DateTime.year t) ++ "-"
    ++ PyInt.format_0d 2 (DateTime.month t) ++ "-"
    ++ PyInt.format_0d 2 (DateTime.day t).

(** The swath as the name shows it: nothing for a swath that is false
    (zero, empty or [None]). *)
Definition swath_suffix (beam_swath : pyval) : string :=
  if py_truthy beam_swath then py_str beam_swath else "".

(** The frame token: the first frame, followed by the last one when it
    is given and differs. *)
Definition frame_token (frame1 : Z) (frame2 : option Z) : string :=
  PyInt.format_0d 4 frame1
    ++ match frame2 with
       | Some f2 => if f2 =? frame1 then ""
                    else "_" ++ PyInt.format_0d 4 f2
       | None => ""
       end.

(** The number read under an optional key of the metadata, or a
    default; and the number read under an optional key, if any. *)
Definition int_under (m : Dict.t pyval) (k : string) (dflt z : Z) : Prop :=
  match Dict.get k m with
  | Some v => py_int v = Ok z
  | None => z = dflt
  end.

Definition opt_int_under (m : Dict.t pyval) (k : string) (o : option Z)
  : Prop :=
  match Dict.get k m with
  | Some v => exists z, py_int v = Ok z /\ o = Some z
  | None => o = None
  end.

(** The keys [get_output_filename] reads in every mode, and the six
    geocoding anchors it reads in the subset mode. *)
Definition naming_keys : list string :=
  ["mission"; "beam_mode"; "beam_swath"; "relative_orbit"; "frame";
   "first_date"; "last_date"].

Definition anchor_keys : list string :=
  ["Y_FIRST"; "X_FIRST"; "Y_STEP"; "LENGTH"; "X_STEP"; "WIDTH"].

(** The option [name] of the template is set to [yes]. *)
Definition template_flag (template : Dict.t string) (name : string) : bool :=
  match Dict.get ("pysar.save.hdfEos5." ++ name) template with
  | Some v => String.eqb v "yes"
  | None => false
  end.

(** The fill value and the unit of the geometry datasets the writer
    knows. *)
Definition geometry_table : list (string * (fill_value * string)) :=
  [("height", (FLOAT_ZERO, "meters"));
   ("slantRangeDistance", (FLOAT_ZERO, "meters"));
   ("bperp", (FLOAT_ZERO, "meters"));
   ("incidenceAngle", (FLOAT_ZERO, "degrees"));
   ("headingAngle", (FLOAT_ZERO, "degrees"));
   ("latitude", (FLOAT_ZERO, "degrees"));
   ("longitude", (FLOAT_ZERO, "degrees"));
   ("rangeCoord", (FLOAT_ZERO, "1"));
   ("azimuthCoord", (FLOAT_ZERO, "1"));
   ("waterMask", (BOOL_ZERO, "1"));
   ("shadowMask", (BOOL_ZERO, "1"))].

(** The numbers from [1] to [n]. *)
Definition upto (n : Z) : list Z :=
  List.map Z.of_nat (seq 1 (Z.to_nat n)).

(** Checks over months, days and years, decided by evaluation: a month
    and a day written with two digits each after dashes are read back as
    the same numbers; a month and a day of two digits each without
    separators are read as such, if the whole text is read at all; a
    number is written with a given count of characters. *)
Definition iso_fields_check (m d : Z) : bool :=
  match PyInt.format_0d 2 m, PyInt.format_0d 2 d with
  | String e (String f EmptyString), String g (String h EmptyString) =>
      match hd_error (DateTime.fields_md "-"
                        (String "-" (String e (String f
                           (String "-" (String g (String h ""))))))) with
      | Some (m', d', EmptyString) => ((m' =? m) && (d' =? d))%bool
      | _ => false
      end
  | _, _ => false
  end.

Definition compact_fields_check (e f g h : ascii) : bool :=
  match hd_error (DateTime.fields_md ""
                    (String e (String f (String g (String h ""))))) with
  | Some (m, d, EmptyString) =>
      ((m =? 10 * Str.digit_val e + Str.digit_val f)
       && (d =? 10 * Str.digit_val g + Str.digit_val h))%bool
  | _ => true
  end.

Definition width_check (w : nat) (z : Z) : bool :=
  Nat.eqb (String.length (PyInt.format_0d w z)) w.

(* ------------------------------------------------------------------ *)
(** ** Sample inputs *)
(* ------------------------------------------------------------------ *)

Module Sample.

(** A reading of the clock. *)
Definition now : DateTime.t := DateTime.mk 2018 3 9 17 45 12 250.

(** The end-to-end scenario of the specification: Sentinel-1, beam
    mode IW, swath 1, track 5, frame 117, right looking. *)
Definition corners : Dict.t string :=
  [("LON_REF1", "130.1"); ("LON_REF2", "131.2");
   ("LON_REF3", "130.0"); ("LON_REF4", "131.1");
   ("LAT_REF1", "31.5"); ("LAT_REF2", "31.6");
   ("LAT_REF3", "32.5"); ("LAT_REF4", "32.6")].

Definition radar : Dict.t string :=
  ([("PLATFORM", "Sentinel-1"); ("beam_mode", "IW"); ("beam_swath", "1");
    ("relative_orbit", "5"); ("frame", "117"); ("ANTENNA_SIDE", "-1")]
     ++ corners)%list.

Definition anchors : Dict.t string :=
  [("X_FIRST", "130.5"); ("Y_FIRST", "32.1"); ("X_STEP", "0.001");
   ("Y_STEP", "-0.001"); ("WIDTH", "600"); ("LENGTH", "400")].

Definition geocoded : Dict.t string := (radar ++ anchors)%list.

Definition dates : list string := ["20150101"; "20160614"; "20181231"].

(** The override of the track comes last, or first. *)
Definition override_last : Dict.t string :=
  (radar ++ [("hdfEos5.relative_orbit", "7")])%list.

Definition override_first : Dict.t string :=
  ("hdfEos5.relative_orbit", "7") :: radar.

(** No track at all, and a swath that is not a number. *)
Definition no_orbit : Dict.t string :=
  ([("PLATFORM", "Sentinel-1"); ("beam_mode", "IW"); ("beam_swath", "1");
    ("frame", "117"); ("ANTENNA_SIDE", "-1")] ++ corners)%list.

Definition bad_swath : Dict.t string :=
  ([("PLATFORM", "Sentinel-1"); ("beam_mode", "IW");
    ("beam_swath", "IW1"); ("relative_orbit", "5"); ("frame", "117");
    ("ANTENNA_SIDE", "-1")] ++ corners)%list.

(** One corner is missing. *)
Definition no_corner : Dict.t string :=
  [("PLATFORM", "Sentinel-1"); ("beam_mode", "IW"); ("beam_swath", "1");
   ("relative_orbit", "5"); ("frame", "117"); ("ANTENNA_SIDE", "-1");
   ("LON_REF1", "130.1"); ("LON_REF2", "131.2");
   ("LON_REF3", "130.0"); ("LON_REF4", "131.1");
   ("LAT_REF1", "31.5"); ("LAT_REF2", "31.6"); ("LAT_REF3", "32.5")].

(** [X_FIRST] without [Y_FIRST]. *)
Definition half_geocoded : Dict.t string :=
  (radar ++ [("X_FIRST", "130.5"); ("X_STEP", "0.001");
             ("Y_STEP", "-0.001"); ("WIDTH", "600"); ("LENGTH", "400")])%list.

(** The metadata of the geocoded scenario as [prep_metadata] hands it
    to [get_output_filename]. *)
Definition archive : Dict.t pyval :=
  Eval vm_compute in
    match prep_metadata now geocoded dates with
    | Ok m => m
    | Raise _ => []
    end.

(** The same raster stored south-up: the first row is the southern
    one and [Y_STEP] is positive. *)
Definition south_up : Dict.t pyval :=
  Dict.setitem "Y_STEP" (PStr "0.001") archive.

End Sample.

(** Further inputs: a geocoded scene with its optional attributes, a
    platform the mission table does not know, and options of the command
    line with a template. *)
Module Cases.

(** The geocoded scenario with a last frame, the optional attributes
    (one of them, [WAVELENGTH], not a number) and an aliased key. *)
Definition full : Dict.t string :=
  (Sample.geocoded
     ++ [("last_frame", "119"); ("ORBIT_DIRECTION", "ascending");
         ("POLARIZATION", "VV"); ("PRF", "1717.13"); ("WAVELENGTH", "n/a");
         ("atmos_correct_method", "ECMWF");
         ("unavco.processing_dem", "SRTM")])%list.

(** Its archive metadata, and what [prep_metadata] makes of it. *)
Definition translated : Dict.t pyval :=
  Eval vm_compute in
    match metadata_pysar2unavco Sample.now full Sample.dates with
    | Ok m => m
    | Raise _ => []
    end.

Definition prepared : Dict.t pyval :=
  Eval vm_compute in
    match prep_metadata Sample.now full Sample.dates with
    | Ok m => m
    | Raise _ => []
    end.

(** The radar scenario as [prep_metadata] hands it on: not geocoded. *)
Definition radar_prepared : Dict.t pyval :=
  Eval vm_compute in
    match prep_metadata Sample.now Sample.radar Sample.dates with
    | Ok m => m
    | Raise _ => []
    end.

(** The radar scenario of a platform that is not in the mission
    table. *)
Definition unknown_platform : Dict.t string :=
  ("PLATFORM", "UAVSAR") :: List.tl Sample.radar.

(** Metadata with a first frame, but without [frame]. *)
Definition no_frame : Dict.t pyval :=
  [("mission", PStr "S1"); ("beam_mode", PStr "IW"); ("beam_swath", PInt 1);
   ("relative_orbit", PInt 5); ("first_frame", PInt 117);
   ("first_date", PStr "2015-01-01"); ("last_date", PStr "2018-12-31")].

(** Options that name a template, and a template that asks for the
    update mode and declines the subset mode. *)
Definition options : Namespace :=
  mk_inps "timeseries.h5" (Some "pysarApp_template.txt") None None None
    false true.

Definition cmd_line_parse (iargs : option (list string))
  : result Namespace := Ok options.

Definition template : Dict.t string :=
  [("pysar.save.hdfEos5", "yes"); ("pysar.save.hdfEos5.update", "yes");
   ("pysar.save.hdfEos5.subset", "no")].

Definition read_template (f : string) : result (Dict.t string) :=
  Ok template.

End Cases.

(* ================================================================== *)
(** * Properties *)
(* ================================================================== *)

(** ** The monad *)

Lemma bind_Ok_inv {A B : Type} (r : result A) (f : A -> result B) (b : B) :
  bind r f = Ok b -> exists a, r = Ok a /\ f a = Ok b.
Proof.
  destruct r as [a|e]; simpl; intros H; [eauto | discriminate].
Qed.

Lemma Ok_inj {A : Type} (a b : A) : Ok a = Ok b -> a = b.
Proof. intros H; inversion H; reflexivity. Qed.

Lemma raises_bind_l {A B : Type} (r : result A) (f : A -> result B) :
  raises r -> raises (bind r f).
Proof. intros [e ->]; exists e; reflexivity. Qed.

Lemma raises_bind_r {A B : Type} (r : result A) (f : A -> result B) :
  (forall a, r = Ok a -> raises (f a)) -> raises (bind r f).
Proof.
  destruct r as [a|e]; simpl; intros H; [apply H; reflexivity|].
  exists e; reflexivity.
Qed.

(** ** Strings *)

Lemma startswith_inv (s p : string) :
  Str.startswith s p = true -> exists r, s = p ++ r.
Proof.
  revert s; induction p as [|a p IH]; intros s H.
  - exists s; reflexivity.
  - destruct s as [|b s]; simpl in H; [discriminate|].
    apply andb_prop in H; destruct H as [Hab H].
    apply Ascii.eqb_eq in Hab; subst b.
    destruct (IH _ H) as [r ->]; exists r; reflexivity.
Qed.

Lemma lower_char_eq_digit (c : ascii) (d : ascii) :
  Str.is_digit d = true ->
  Ascii.eqb (Str.lower_char c) d = Ascii.eqb c d.
Proof.
  destruct d as [[] [] [] [] [] [] [] []]; try discriminate; intros _;
    destruct c as [[] [] [] [] [] [] [] []]; reflexivity.
Qed.

Lemma eqb_map_empty (f : ascii -> ascii) (s : string) :
  String.eqb (Str.map f s) "" = String.eqb s "".
Proof. destruct s; reflexivity. Qed.

(** Lower-casing does not change whether a string ends in a given
    digit. *)
Lemma endswith_lower_digit (s : string) (d : ascii) :
  Str.is_digit d = true ->
  Str.endswith (Str.lower s) (String d "") = Str.endswith s (String d "").
Proof.
  intros Hd; induction s as [|c s IH]; [reflexivity|].
  change (Str.lower (String c s))
    with (String (Str.lower_char c) (Str.lower s)).
  cbn [Str.endswith String.eqb].
  rewrite IH, (lower_char_eq_digit c d Hd).
  unfold Str.lower; rewrite (eqb_map_empty Str.lower_char s); reflexivity.
Qed.

(** ** Dictionaries *)

Lemma get_setitem {V : Type} (k k' : string) (v : V) (d : Dict.t V) :
  Dict.get k (Dict.setitem k' v d)
  = if String.eqb k k' then Some v else Dict.get k d.
Proof.
  induction d as [|[k0 v0] d IH]; simpl.
  - reflexivity.
  - destruct (String.eqb_spec k' k0) as [->|Hne]; simpl.
    + destruct (String.eqb k k0); reflexivity.
    + rewrite IH.
      destruct (String.eqb_spec k k0) as [->|]; [|reflexivity].
      destruct (String.eqb_spec k0 k') as [->|]; [contradiction|reflexivity].
Qed.

Lemma get_setitem_same {V : Type} (k : string) (v : V) (d : Dict.t V) :
  Dict.get k (Dict.setitem k v d) = Some v.
Proof. rewrite get_setitem, String.eqb_refl; reflexivity. Qed.

Lemma get_setitem_other {V : Type} (k k' : string) (v : V) (d : Dict.t V) :
  String.eqb k k' = false ->
  Dict.get k (Dict.setitem k' v d) = Dict.get k d.
Proof. intros H; rewrite get_setitem, H; reflexivity. Qed.

Lemma get_in_keys {V : Type} (k : string) (d : Dict.t V) :
  In k (Dict.keys d) -> exists v, Dict.get k d = Some v.
Proof.
  induction d as [|[k0 v0] d IH]; simpl; [contradiction|].
  intros [->|Hin].
  - rewrite String.eqb_refl; eauto.
  - destruct (String.eqb k k0); eauto.
Qed.

Lemma getitem_Ok {V : Type} (d : Dict.t V) (k : string) (v : V) :
  Dict.getitem d k = Ok v <-> Dict.get k d = Some v.
Proof.
  unfold Dict.getitem; destruct (Dict.get k d); split;
    intros H; inversion H; reflexivity.
Qed.

(** ** The aliasing loop *)

Lemma split_go_nonempty (sep s : string) (skip : nat) (cur : string) :
  exists a l, Str.split_go sep s skip cur = a :: l.
Proof.
  revert skip cur; induction s as [|c s IH]; intros skip cur; simpl.
  - eauto.
  - destruct skip; [|apply IH].
    destruct (Str.startswith (String c s) sep); [eauto | apply IH].
Qed.

Lemma split_go_two (sep s cur : string) :
  sep <> "" -> Str.contains sep s = true ->
  exists a b l, Str.split_go sep s 0 cur = a :: b :: l.
Proof.
  intros Hsep; revert cur; induction s as [|c s IH]; intros cur H.
  - simpl in H; destruct sep; [congruence | discriminate].
  - cbn [Str.contains] in H; cbn [Str.split_go].
    destruct (Str.startswith (String c s) sep).
    + destruct (split_go_nonempty sep s (Nat.pred (String.length sep)) "")
        as (a & l & ->); eauto.
    + apply IH; assumption.
Qed.

Lemma split_second (sep s : string) :
  sep <> "" -> Str.contains sep s = true ->
  list_item (Str.split sep s) 1 = Ok (nth 1 (Str.split sep s) "").
Proof.
  intros Hsep H; unfold Str.split.
  destruct (split_go_two sep s "" Hsep H) as (a & b & l & ->); reflexivity.
Qed.

Lemma alias_key_get (d_in : Dict.t string) (marker key v : string)
  (acc : Dict.t string) :
  marker <> "" -> Dict.get key d_in = Some v ->
  exists acc', alias_key d_in marker key acc = Ok acc'
    /\ forall t, Dict.get t acc' =
         if existsb (String.eqb t)
              (if Str.contains marker key
               then [nth 1 (Str.split marker key) ""] else [])
         then Some v else Dict.get t acc.
Proof.
  intros Hm Hv; unfold alias_key, Dict.getitem; rewrite Hv.
  destruct (Str.contains marker key) eqn:Hc.
  - rewrite (split_second _ _ Hm Hc); cbn [bind].
    eexists; split; [reflexivity|]; intros t.
    rewrite get_setitem; cbn [existsb]; rewrite orb_false_r; reflexivity.
  - eexists; split; [reflexivity|]; reflexivity.
Qed.

Lemma alias_step_get (d_in acc : Dict.t string) (key v : string) :
  Dict.get key d_in = Some v ->
  exists acc', alias_step d_in acc key = Ok acc'
    /\ forall t, Dict.get t acc' =
         if writes key t then Some v else Dict.get t acc.
Proof.
  intros Hv; unfold alias_step.
  unfold Dict.getitem at 1; rewrite Hv; cbn [bind].
  destruct (alias_key_get d_in "unavco." key v (Dict.setitem key v acc))
    as (a1 & E1 & G1); [discriminate | assumption |].
  destruct (alias_key_get d_in "hdfEos5." key v a1)
    as (a2 & E2 & G2); [discriminate | assumption |].
  rewrite E1; cbn [bind]; rewrite E2.
  exists a2; split; [reflexivity|]; intros t.
  rewrite G2, G1, get_setitem.
  unfold writes, alias_targets; cbn [existsb]; rewrite existsb_app.
  destruct (String.eqb t key); cbn [orb];
    repeat match goal with
      | |- context [existsb ?f ?l] => destruct (existsb f l); cbn [orb]
      end; reflexivity.
Qed.

Lemma for_each_alias_get (d_in : Dict.t string) (ks : list string) :
  (forall k, In k ks -> exists v, Dict.get k d_in = Some v) ->
  forall acc, exists a,
    for_each (alias_step d_in) ks acc = Ok a
    /\ forall t, Dict.get t a =
         match last_writer t ks with
         | Some k => Dict.get k d_in
         | None => Dict.get t acc
         end.
Proof.
  induction ks as [|k ks IH]; intros Hks acc.
  - exists acc; split; reflexivity.
  - destruct (Hks k (or_introl eq_refl)) as [v Hv].
    destruct (alias_step_get d_in acc k v Hv) as (a1 & E1 & G1).
    destruct (IH (fun k' H => Hks k' (or_intror H)) a1) as (a & E & G).
    exists a; split.
    + cbn [for_each]; rewrite E1; exact E.
    + intros t; rewrite G; cbn [last_writer].
      destruct (last_writer t ks); [reflexivity|].
      rewrite G1; destruct (writes k t); [symmetry; exact Hv | reflexivity].
Qed.

(** The aliasing loop never raises, and a key of the aliased map holds
    the value of the last source key stored under it. *)
Lemma alias_keys_get (d_in : Dict.t string) :
  exists a, alias_keys d_in = Ok a
    /\ forall t, Dict.get t a =
         match last_writer t (Dict.keys d_in) with
         | Some k => Dict.get k d_in
         | None => None
         end.
Proof.
  destruct (for_each_alias_get d_in (Dict.keys d_in)
              (fun k H => get_in_keys k d_in H) []) as (a & E & G).
  exists a; split; [exact E | exact G].
Qed.

(** ** Mission classification *)

Lemma get_mission_name_indicator (meta_dict : Dict.t string) (raw : string) :
  mission_indicator meta_dict = Some raw ->
  get_mission_name meta_dict =
    get_mission_name [("mission", raw)].
Proof.
  unfold mission_indicator, get_mission_name, Dict.mem, Dict.getitem.
  destruct (Dict.get "mission" meta_dict) as [v|] eqn:Hm.
  - intros [= ->]; reflexivity.
  - intros ->; reflexivity.
Qed.

Lemma get_mission_name_total (meta_dict : Dict.t string) :
  exists m, get_mission_name meta_dict = Ok m.
Proof.
  unfold get_mission_name, Dict.mem, Dict.getitem.
  destruct (Dict.get "mission" meta_dict) as [v|];
    [|destruct (Dict.get "PLATFORM" meta_dict) as [v|]];
    cbn [bind];
    repeat match goal with
      | |- context [if ?b then _ else _] => destruct b
      end; eauto.
Qed.

Ltac expose_prefix H :=
  apply startswith_inv in H; destruct H as [? ->].

(** C1. For every attribute map whose mission indicator (the value of
    [mission] if present, else of [PLATFORM], lower-cased) starts with a
    prefix of the table, [get_mission_name] returns the canonical code of
    that prefix: ERS, ENV, S1, RS1 or RS2 (by whether the raw value ends
    in 1), CSK, TSX, JERS, ALOS2 or ALOS (by whether the raw value ends
    in 2).  For an indicator that starts with none of the prefixes, and
    for a map with neither key, it returns [None] and does not raise. *)
Theorem get_mission_name_canonical (meta_dict : Dict.t string) :
  (forall raw, mission_indicator meta_dict = Some raw ->
     let value := Str.lower raw in
     let returns code := get_mission_name meta_dict = Ok code in
     (Str.startswith value "ers" = true -> returns (PStr "ERS"))
     /\ (Str.startswith value "env" = true
         \/ Str.startswith value "asar" = true -> returns (PStr "ENV"))
     /\ (Str.startswith value "s1" = true
         \/ Str.startswith value "sen" = true -> returns (PStr "S1"))
     /\ (Str.startswith value "rs" = true
         \/ Str.startswith value "rsat" = true
         \/ Str.startswith value "radarsat" = true ->
         returns (PStr (if Str.endswith raw "1" then "RS1" else "RS2")))
     /\ (Str.startswith value "csk" = true
         \/ Str.startswith value "cos" = true -> returns (PStr "CSK"))
     /\ (Str.startswith value "tsx" = true
         \/ Str.startswith value "tdx" = true
         \/ Str.startswith value "terra" = true
         \/ Str.startswith value "tandem" = true -> returns (PStr "TSX"))
     /\ (Str.startswith value "jers" = true -> returns (PStr "JERS"))
     /\ (Str.startswith value "alos" = true
         \/ Str.startswith value "palsar" = true ->
         returns (PStr (if Str.endswith raw "2" then "ALOS2" else "ALOS")))
     /\ (Str.startswith_any value mission_prefixes = false ->
         returns PNone))
  /\ (mission_indicator meta_dict = None ->
      get_mission_name meta_dict = Ok PNone).
Proof.
  split.
  - intros raw Hraw value returns; subst returns.
    rewrite (get_mission_name_indicator _ _ Hraw).
    unfold get_mission_name, Dict.mem, Dict.getitem.
    cbn [Dict.get String.eqb Ascii.eqb Bool.eqb bind].
    fold value.
    rewrite <- (endswith_lower_digit raw "1" eq_refl),
            <- (endswith_lower_digit raw "2" eq_refl).
    fold value.
    generalize (Str.endswith value "1"), (Str.endswith value "2").
    intros e1 e2.
    repeat split.
    + intros H; expose_prefix H; reflexivity.
    + intros [H|H]; expose_prefix H; reflexivity.
    + intros [H|H]; expose_prefix H; reflexivity.
    + intros [H|[H|H]]; expose_prefix H; destruct e1; reflexivity.
    + intros [H|H]; expose_prefix H; reflexivity.
    + intros [H|[H|[H|H]]]; expose_prefix H; reflexivity.
    + intros H; expose_prefix H; reflexivity.
    + intros [H|H]; expose_prefix H; destruct e2; reflexivity.
    + unfold Str.startswith_any, mission_prefixes; cbn [existsb].
      intros H.
      repeat (apply orb_false_elim in H; destruct H as [?H H]).
      repeat match goal with
        | E : Str.startswith _ _ = false |- _ => rewrite E; clear E
        end.
      reflexivity.
  - unfold mission_indicator, get_mission_name, Dict.mem, Dict.getitem.
    destruct (Dict.get "mission" meta_dict); [discriminate|].
    intros ->; reflexivity.
Qed.

Lemma get_mission_name_canonical_witness :
  get_mission_name [("PLATFORM", "Sentinel-1A")] = Ok (PStr "S1")
  /\ get_mission_name [("PLATFORM", "ERS2"); ("mission", "Radarsat-1")]
     = Ok (PStr "RS1")
  /\ get_mission_name [("mission", "ALOS-2")] = Ok (PStr "ALOS2")
  /\ get_mission_name [("PLATFORM", "UAVSAR")] = Ok PNone
  /\ get_mission_name [("beam_mode", "IW")] = Ok PNone.
Proof.
  split; [|split; [|split; [|split]]].
  - destruct (proj1 (get_mission_name_canonical
                       [("PLATFORM", "Sentinel-1A")]) "Sentinel-1A" eq_refl)
      as (_ & _ & H & _).
    exact (H (or_intror eq_refl)).
  - destruct (proj1 (get_mission_name_canonical
                       [("PLATFORM", "ERS2"); ("mission", "Radarsat-1")])
                "Radarsat-1" eq_refl)
      as (_ & _ & _ & H & _).
    exact (H (or_intror (or_intror eq_refl))).
  - destruct (proj1 (get_mission_name_canonical [("mission", "ALOS-2")])
                "ALOS-2" eq_refl)
      as (_ & _ & _ & _ & _ & _ & _ & H & _).
    exact (H (or_introl eq_refl)).
  - destruct (proj1 (get_mission_name_canonical [("PLATFORM", "UAVSAR")])
                "UAVSAR" eq_refl)
      as (_ & _ & _ & _ & _ & _ & _ & _ & H).
    exact (H eq_refl).
  - exact (proj2 (get_mission_name_canonical [("beam_mode", "IW")]) eq_refl).
Defined.

(** ** The parts of the translation *)

Lemma assign_Ok_inv (k : string) (r : result pyval) (u u' : Dict.t pyval) :
  assign k r u = Ok u' -> exists v, r = Ok v /\ u' = Dict.setitem k v u.
Proof.
  unfold assign; destruct r as [v|e]; simpl; intros H; inversion H; eauto.
Qed.

Lemma assign_or_default_eq (k : string) (r : result pyval) (dflt : pyval)
  (u : Dict.t pyval) :
  assign_or_default k r dflt u
  = Ok (Dict.setitem k (match r with Ok v => v | Raise _ => dflt end) u).
Proof. unfold assign_or_default, assign; destruct r; reflexivity. Qed.

Lemma assign_or_pass_eq (k : string) (r : result pyval) (u : Dict.t pyval) :
  assign_or_pass k r u
  = Ok (match r with Ok v => Dict.setitem k v u | Raise _ => u end).
Proof. unfold assign_or_pass, assign; destruct r; reflexivity. Qed.

Lemma mission_step (p : Dict.t string) (u : Dict.t pyval) :
  exists m, get_mission_name p = Ok m
    /\ try_except_ValueError (assign "mission" (get_mission_name p) u) (Ok u)
       = Ok (Dict.setitem "mission" m u).
Proof.
  destruct (get_mission_name_total p) as [m Hm]; exists m; split; [exact Hm|].
  unfold assign; rewrite Hm; reflexivity.
Qed.

Ltac inv_bind H :=
  let E := fresh "E" in
  apply bind_Ok_inv in H; destruct H as (? & E & H).

Ltac inv_item H :=
  let E := fresh "E" in
  apply bind_Ok_inv in H; destruct H as (? & E & H);
  unfold item in E; apply getitem_Ok in E.

(** What [required_metadata] needs in order to return, and what it
    returns. *)
Lemma required_metadata_inv (p : Dict.t string) (now : DateTime.t)
  (dates : list string) (u0 u : Dict.t pyval) :
  required_metadata p now dates u0 = Ok u ->
  exists m bm ro z d0 dl fd ld lon1 lon2 lon3 lon4 lat1 lat2 lat3 lat4,
    get_mission_name p = Ok m
    /\ Dict.get "beam_mode" p = Some bm
    /\ Dict.get "relative_orbit" p = Some ro
    /\ PyInt.of_string ro = Ok z
    /\ list_item dates 0 = Ok d0 /\ iso_date d0 = Ok fd
    /\ list_last dates = Ok dl /\ iso_date dl = Ok ld
    /\ Dict.get "LON_REF1" p = Some lon1 /\ Dict.get "LON_REF2" p = Some lon2
    /\ Dict.get "LON_REF3" p = Some lon3 /\ Dict.get "LON_REF4" p = Some lon4
    /\ Dict.get "LAT_REF1" p = Some lat1 /\ Dict.get "LAT_REF2" p = Some lat2
    /\ Dict.get "LAT_REF3" p = Some lat3 /\ Dict.get "LAT_REF4" p = Some lat4
    /\ u =
       Dict.setitem "history"
         (PStr (Str.take 10 (DateTime.isoformat now)))
       (Dict.setitem "scene_footprint"
         (PStr (polygon [lon1; lon3; lon4; lon2; lon1]
                        [lat1; lat3; lat4; lat2; lat1]))
       (Dict.setitem "last_date" ld
       (Dict.setitem "first_date" fd
       (Dict.setitem "processing_type"
         (match str_item p "processing_type" with
          | Ok v => v | Raise _ => PStr "LOS_TIMESERIES" end)
       (Dict.setitem "relative_orbit" (PInt z)
       (Dict.setitem "beam_swath"
         (match int_item p "beam_swath" with
          | Ok v => v | Raise _ => PInt 0 end)
       (Dict.setitem "beam_mode" (PStr bm)
       (Dict.setitem "mission" m u0)))))))).
Proof.
  unfold required_metadata; intros H.
  destruct (mission_step p u0) as (m & Hm & Em); rewrite Em in H; clear Em.
  cbn [bind] in H.
  inv_bind H. apply assign_Ok_inv in E as (vbm & Ebm & ->).
  unfold str_item in Ebm; inv_item Ebm; injection Ebm as <-.
  rewrite assign_or_default_eq in H; cbn [bind] in H.
  inv_bind H. apply assign_Ok_inv in E0 as (vro & Ero & ->).
  unfold int_item in Ero; inv_item Ero; inv_bind Ero; injection Ero as <-.
  rewrite assign_or_default_eq in H; cbn [bind] in H.
  inv_bind H. apply assign_Ok_inv in E2 as (fd & Efd & ->). inv_bind Efd.
  inv_bind H. apply assign_Ok_inv in E3 as (ld & Eld & ->). inv_bind Eld.
  do 10 inv_item H.
  cbv zeta in H; injection H as <-.
  repeat match goal with
    | A : Dict.get ?k p = Some ?x, B : Dict.get ?k p = Some ?y |- _ =>
        rewrite A in B; injection B as <-
    end.
  repeat eexists; eassumption.
Qed.

Lemma get_pass (k k0 : string) (r : result pyval) (u : Dict.t pyval) :
  String.eqb k k0 = false ->
  Dict.get k (match r with Ok v => Dict.setitem k0 v u | Raise _ => u end)
  = Dict.get k u.
Proof.
  intros H; destruct r; [apply get_setitem_other; exact H | reflexivity].
Qed.

Lemma get_branch (k k0 : string) (b : bool) (v1 v2 : pyval)
  (u : Dict.t pyval) :
  String.eqb k k0 = false ->
  Dict.get k (if b then Dict.setitem k0 v1 u else Dict.setitem k0 v2 u)
  = Dict.get k u.
Proof. intros H; destruct b; apply get_setitem_other; exact H. Qed.

Lemma existsb_eqb_false (k : string) (l : list string) :
  existsb (String.eqb k) l = false ->
  forall k0, In k0 l -> String.eqb k k0 = false.
Proof.
  intros H k0 Hin; destruct (String.eqb k k0) eqn:E; [|reflexivity].
  rewrite <- H; symmetry; apply existsb_exists; eauto.
Qed.

(** [recommended_metadata] needs [ANTENNA_SIDE] and an integer frame,
    and writes only its own keys. *)
Lemma recommended_metadata_inv (p : Dict.t string) (u u' : Dict.t pyval) :
  recommended_metadata p u = Ok u' ->
  (exists side, Dict.get "ANTENNA_SIDE" p = Some side)
  /\ forall k, existsb (String.eqb k) recommended_keys = false ->
       Dict.get k u' = Dict.get k u.
Proof.
  unfold recommended_metadata; intros H.
  inv_bind H.
  assert (Hf : exists v, x = Dict.setitem "frame" v u).
  { destruct (Dict.mem "frame" p);
      [|destruct (Dict.mem "first_frame" p)];
      try (apply assign_Ok_inv in E as (v & _ & ->); eauto).
    injection E as <-; eauto. }
  destruct Hf as (vf & ->); clear E.
  rewrite assign_or_pass_eq in H; cbn [bind] in H.
  rewrite assign_or_default_eq in H; cbn [bind] in H.
  do 3 (rewrite assign_or_pass_eq in H; cbn [bind] in H).
  inv_item H. cbv zeta in H.
  do 2 (rewrite assign_or_pass_eq in H; cbn [bind] in H).
  rewrite assign_or_pass_eq in H; injection H as <-.
  split; [eauto|].
  intros k Hk.
  pose proof (existsb_eqb_false k _ Hk) as Hne.
  repeat (rewrite get_pass by (apply Hne; simpl; tauto)).
  rewrite get_branch by (apply Hne; simpl; tauto).
  repeat (rewrite get_pass by (apply Hne; simpl; tauto)).
  rewrite get_setitem_other by (apply Hne; simpl; tauto).
  repeat (rewrite get_pass by (apply Hne; simpl; tauto)).
  apply get_setitem_other; apply Hne; simpl; tauto.
Qed.

Lemma recommended_metadata_total (p : Dict.t string) (u : Dict.t pyval)
  (side : string) :
  frame_parsable p -> Dict.get "ANTENNA_SIDE" p = Some side ->
  exists u', recommended_metadata p u = Ok u'.
Proof.
  unfold recommended_metadata, frame_parsable; intros Hf Hs.
  assert (E : exists x,
             (if Dict.mem "frame" p
              then assign "frame" (int_item p "frame") u
              else if Dict.mem "first_frame" p
                   then assign "frame" (int_item p "first_frame") u
                   else Ok (Dict.setitem "frame" (PInt 0) u)) = Ok x).
  { unfold Dict.mem, assign, int_item, item, Dict.getitem.
    destruct (Dict.get "frame" p) as [s|];
      [|destruct (Dict.get "first_frame" p) as [s|]];
      cbn [bind]; [destruct Hf as [z ->] | destruct Hf as [z ->] |];
      cbn [bind]; eauto. }
  destruct E as (x & ->); cbn [bind].
  rewrite assign_or_pass_eq; cbn [bind].
  rewrite assign_or_default_eq; cbn [bind].
  do 3 (rewrite assign_or_pass_eq; cbn [bind]).
  unfold item at 1, Dict.getitem; rewrite Hs; cbn [bind]; cbv zeta.
  do 2 (rewrite assign_or_pass_eq; cbn [bind]).
  rewrite assign_or_pass_eq; eauto.
Qed.

(** [insarmaps_metadata] is gated by the key [X_FIRST] alone. *)
Lemma insarmaps_metadata_inv (p : Dict.t string) (u u' : Dict.t pyval) :
  insarmaps_metadata p u = Ok u' ->
  match Dict.get "X_FIRST" p with
  | Some _ =>
      exists v, data_footprint p = Ok v
                /\ u' = Dict.setitem "data_footprint" v u
  | None => u' = u
  end.
Proof.
  unfold insarmaps_metadata, Dict.mem.
  destruct (Dict.get "X_FIRST" p); intros H.
  - apply assign_Ok_inv in H; exact H.
  - injection H as <-; reflexivity.
Qed.

Lemma metadata_pysar2unavco_inv (now : DateTime.t) (src : Dict.t string)
  (dates : list string) (out : Dict.t pyval) :
  metadata_pysar2unavco now src dates = Ok out ->
  exists p u1 u2,
    alias_keys src = Ok p
    /\ required_metadata p now dates [] = Ok u1
    /\ recommended_metadata p u1 = Ok u2
    /\ insarmaps_metadata p u2 = Ok out.
Proof.
  unfold metadata_pysar2unavco; intros H.
  inv_bind H; cbv zeta in H; inv_bind H; inv_bind H; eauto 8.
Qed.

Lemma raises_metadata_pysar2unavco (now : DateTime.t) (src p : Dict.t string)
  (dates : list string) :
  alias_keys src = Ok p ->
  raises (required_metadata p now dates []) ->
  raises (metadata_pysar2unavco now src dates).
Proof.
  intros Hp Hr; unfold metadata_pysar2unavco; rewrite Hp; cbn [bind].
  apply raises_bind_l; exact Hr.
Qed.

Lemma item_Some (p : Dict.t string) (k v : string) :
  Dict.get k p = Some v -> item p k = Ok v.
Proof. unfold item, Dict.getitem; intros ->; reflexivity. Qed.

Lemma item_None (p : Dict.t string) (k : string) :
  Dict.get k p = None -> item p k = Raise (KeyError k).
Proof. unfold item, Dict.getitem; intros ->; reflexivity. Qed.

Lemma str_item_Some (p : Dict.t string) (k v : string) :
  Dict.get k p = Some v -> str_item p k = Ok (PStr v).
Proof. unfold str_item; intros H; rewrite (item_Some _ _ _ H); reflexivity. Qed.

Lemma int_item_Some (p : Dict.t string) (k v : string) (z : Z) :
  Dict.get k p = Some v -> PyInt.of_string v = Ok z ->
  int_item p k = Ok (PInt z).
Proof.
  unfold int_item; intros H Hz; rewrite (item_Some _ _ _ H); cbn [bind].
  rewrite Hz; reflexivity.
Qed.

Lemma int_item_None (p : Dict.t string) (k : string) :
  Dict.get k p = None -> int_item p k = Raise (KeyError k).
Proof. unfold int_item; intros H; rewrite (item_None _ _ H); reflexivity. Qed.

Lemma required_metadata_total (p : Dict.t string) (now : DateTime.t)
  (dates : list string) (u0 : Dict.t pyval) (bm ro d0 dl : string) :
  Dict.get "beam_mode" p = Some bm ->
  Dict.get "relative_orbit" p = Some ro -> int_parsable ro ->
  list_item dates 0 = Ok d0 -> valid_date_string d0 ->
  list_last dates = Ok dl -> valid_date_string dl ->
  (forall k, In k corner_keys -> exists v, Dict.get k p = Some v) ->
  exists u, required_metadata p now dates u0 = Ok u.
Proof.
  intros Hbm Hro [z Hz] Hd0 [t0 Ht0] Hdl [tl Htl] Hc.
  unfold required_metadata.
  destruct (mission_step p u0) as (m & _ & ->); cbn [bind].
  rewrite (str_item_Some _ _ _ Hbm); unfold assign at 1; cbn [bind].
  rewrite assign_or_default_eq; cbn [bind].
  rewrite (int_item_Some _ _ _ _ Hro Hz); unfold assign at 1; cbn [bind].
  rewrite assign_or_default_eq; cbn [bind].
  unfold assign, iso_date; rewrite Hd0, Hdl; cbn [bind].
  rewrite Ht0, Htl; cbn [bind].
  repeat match goal with
    | |- context [item p ?k] =>
        let v := fresh "v" in let E := fresh "E" in
        destruct (Hc k) as [v E]; [simpl; tauto|];
        rewrite (item_Some _ _ _ E); cbn [bind]
    end.
  eauto.
Qed.

(** The required keys as [required_metadata] leaves them. *)
Lemma required_metadata_get (p : Dict.t string) (now : DateTime.t)
  (dates : list string) (u : Dict.t pyval) :
  required_metadata p now dates [] = Ok u ->
  exists m bm ro z fd ld lon1 lon2 lon3 lon4 lat1 lat2 lat3 lat4,
    get_mission_name p = Ok m
    /\ Dict.get "beam_mode" p = Some bm
    /\ Dict.get "relative_orbit" p = Some ro /\ PyInt.of_string ro = Ok z
    /\ Dict.get "LON_REF1" p = Some lon1 /\ Dict.get "LON_REF2" p = Some lon2
    /\ Dict.get "LON_REF3" p = Some lon3 /\ Dict.get "LON_REF4" p = Some lon4
    /\ Dict.get "LAT_REF1" p = Some lat1 /\ Dict.get "LAT_REF2" p = Some lat2
    /\ Dict.get "LAT_REF3" p = Some lat3 /\ Dict.get "LAT_REF4" p = Some lat4
    /\ Dict.get "mission" u = Some m
    /\ Dict.get "beam_mode" u = Some (PStr bm)
    /\ Dict.get "beam_swath" u
       = Some (match int_item p "beam_swath" with
               | Ok v => v | Raise _ => PInt 0 end)
    /\ Dict.get "relative_orbit" u = Some (PInt z)
    /\ Dict.get "first_date" u = Some fd
    /\ Dict.get "last_date" u = Some ld
    /\ Dict.get "scene_footprint" u
       = Some (PStr (wkt_ring [(lon1, lat1); (lon3, lat3); (lon4, lat4);
                               (lon2, lat2); (lon1, lat1)]))
    /\ Dict.get "history" u
       = Some (PStr (Str.take 10 (DateTime.isoformat now)))
    /\ Dict.get "data_footprint" u = None.
Proof.
  intros H; apply required_metadata_inv in H.
  destruct H as (m & bm & ro & z & d0 & dl & fd & ld & lon1 & lon2 & lon3
                 & lon4 & lat1 & lat2 & lat3 & lat4 & Hm & Hbm & Hro & Hz
                 & _ & _ & _ & _ & H1 & H2 & H3 & H4 & H5 & H6 & H7 & H8
                 & ->).
  exists m, bm, ro, z, fd, ld, lon1, lon2, lon3, lon4, lat1, lat2, lat3, lat4.
  repeat (split; [assumption|]).
  repeat split; rewrite ?get_setitem; reflexivity.
Qed.

(** ** Hard errors of the translation *)

Ltac walk_to_raise :=
  repeat first
    [ apply raises_bind_l; eexists;
      first [apply item_None | apply int_item_None]; eassumption
    | apply raises_bind_l; unfold assign; apply raises_bind_l; eexists;
      first [apply item_None | apply int_item_None]; eassumption
    | apply raises_bind_r; intros ? _; cbv beta zeta ].

Lemma required_raises_relative_orbit (p : Dict.t string) (now : DateTime.t)
  (dates : list string) (u0 : Dict.t pyval) :
  Dict.get "relative_orbit" p = None ->
  raises (required_metadata p now dates u0).
Proof.
  intros H; unfold required_metadata; walk_to_raise.
Qed.

Lemma required_raises_corner (p : Dict.t string) (now : DateTime.t)
  (dates : list string) (u0 : Dict.t pyval) (k : string) :
  In k corner_keys -> Dict.get k p = None ->
  raises (required_metadata p now dates u0).
Proof.
  intros Hk H; unfold required_metadata.
  simpl in Hk; repeat destruct Hk as [<-|Hk]; [..|contradiction];
    walk_to_raise.
Qed.

(** C10. When the aliased source map lacks one of the eight corner keys
    [LON_REF1..4], [LAT_REF1..4], [metadata_pysar2unavco] ends with an
    exception: the footprint reads the eight keys with no fallback. *)
Theorem missing_corner_is_hard_error (now : DateTime.t)
  (src p : Dict.t string) (dates : list string) (k : string) :
  alias_keys src = Ok p ->
  In k corner_keys -> Dict.get k p = None ->
  raises (metadata_pysar2unavco now src dates).
Proof.
  intros Hp Hk Hnone.
  apply (raises_metadata_pysar2unavco now src p dates Hp).
  apply (required_raises_corner p now dates [] k Hk Hnone).
Qed.

Lemma missing_corner_is_hard_error_witness :
  raises (metadata_pysar2unavco Sample.now Sample.no_corner Sample.dates).
Proof.
  apply (missing_corner_is_hard_error Sample.now Sample.no_corner
           Sample.no_corner Sample.dates "LAT_REF4").
  - vm_compute; reflexivity.
  - simpl; tauto.
  - reflexivity.
Defined.

(** ** Required fields and fallbacks *)

Lemma get_mission_name_ext (p p' : Dict.t string) :
  Dict.get "mission" p = Dict.get "mission" p' ->
  Dict.get "PLATFORM" p = Dict.get "PLATFORM" p' ->
  get_mission_name p = get_mission_name p'.
Proof.
  unfold get_mission_name, Dict.mem, Dict.getitem; intros -> ->; reflexivity.
Qed.

Lemma swath_missing_raises (p : Dict.t string) :
  swath_missing p -> exists e, int_item p "beam_swath" = Raise e.
Proof.
  unfold swath_missing, int_item, item, Dict.getitem.
  destruct (Dict.get "beam_swath" p) as [s|]; cbn [bind]; [|eauto].
  intros Hs; destruct (PyInt.of_string s) as [z|e] eqn:E; cbn [bind]; [|eauto].
  exfalso; apply Hs; exists z; exact E.
Qed.

Ltac off_swath :=
  unfold str_item, int_item, float_item, item, Dict.getitem, Dict.mem;
  rewrite ?get_setitem; cbn [String.eqb Ascii.eqb Bool.eqb].

Lemma required_metadata_swath (p : Dict.t string) (now : DateTime.t)
  (dates : list string) (u0 : Dict.t pyval) :
  swath_missing p ->
  required_metadata p now dates u0
  = required_metadata (Dict.setitem "beam_swath" "0" p) now dates u0.
Proof.
  intros Hs; destruct (swath_missing_raises p Hs) as [e He].
  unfold required_metadata.
  rewrite (get_mission_name_ext (Dict.setitem "beam_swath" "0" p) p)
    by (apply get_setitem_other; reflexivity).
  unfold assign_or_default, assign; rewrite He.
  off_swath; cbn [bind try_except].
  change (PyInt.of_string "0") with (@Ok Z 0); reflexivity.
Qed.

Lemma recommended_metadata_swath (p : Dict.t string) (u : Dict.t pyval) :
  recommended_metadata p u
  = recommended_metadata (Dict.setitem "beam_swath" "0" p) u.
Proof. unfold recommended_metadata; off_swath; reflexivity. Qed.

Lemma insarmaps_metadata_swath (p : Dict.t string) (u : Dict.t pyval) :
  insarmaps_metadata p u
  = insarmaps_metadata (Dict.setitem "beam_swath" "0" p) u.
Proof.
  unfold insarmaps_metadata, data_footprint; off_swath; reflexivity.
Qed.

(** A key that the last two parts do not write keeps, in the result, the
    value [required_metadata] gave it. *)
Lemma result_get_required (p : Dict.t string) (u1 u2 out : Dict.t pyval)
  (k : string) :
  recommended_metadata p u1 = Ok u2 ->
  insarmaps_metadata p u2 = Ok out ->
  existsb (String.eqb k) recommended_keys = false ->
  String.eqb k "data_footprint" = false ->
  Dict.get k out = Dict.get k u1.
Proof.
  intros H2 H3 Hk Hd.
  apply recommended_metadata_inv in H2 as [_ H2].
  apply insarmaps_metadata_inv in H3.
  rewrite <- (H2 k Hk).
  destruct (Dict.get "X_FIRST" p); [|subst; reflexivity].
  destruct H3 as (v & _ & ->); apply get_setitem_other; exact Hd.
Qed.

(** C3. On a source map whose aliased copy has no [relative_orbit],
    [metadata_pysar2unavco] ends with an exception: no default takes the
    place of the track.  When [beam_swath] is absent or is not an
    integer, the translation goes on as if the swath were [0]: the three
    parts behave as on the map with [beam_swath] set to ["0"], and a
    result holds [beam_swath = 0]. *)
Theorem relative_orbit_required_beam_swath_defaulted (now : DateTime.t)
  (src p : Dict.t string) (dates : list string) :
  alias_keys src = Ok p ->
  (Dict.get "relative_orbit" p = None ->
   raises (metadata_pysar2unavco now src dates))
  /\ (swath_missing p ->
      (forall out, metadata_pysar2unavco now src dates = Ok out ->
                   Dict.get "beam_swath" out = Some (PInt 0))
      /\ let p0 := Dict.setitem "beam_swath" "0" p in
         required_metadata p now dates [] = required_metadata p0 now dates []
         /\ (forall u, recommended_metadata p u = recommended_metadata p0 u)
         /\ (forall u, insarmaps_metadata p u = insarmaps_metadata p0 u)).
Proof.
  intros Hp; split.
  - intros Hro.
    apply (raises_metadata_pysar2unavco now src p dates Hp).
    apply required_raises_relative_orbit; exact Hro.
  - intros Hs; split.
    + intros out Hout.
      apply metadata_pysar2unavco_inv in Hout
        as (p' & u1 & u2 & Hp' & H1 & H2 & H3).
      rewrite Hp in Hp'; injection Hp' as <-.
      rewrite (result_get_required p u1 u2 out "beam_swath" H2 H3)
        by reflexivity.
      apply required_metadata_get in H1.
      destruct H1 as (m & bm & ro & z & fd & ld & lon1 & lon2 & lon3 & lon4
                      & lat1 & lat2 & lat3 & lat4 & H1).
      destruct (swath_missing_raises p Hs) as [e He].
      rewrite He in H1; tauto.
    + cbv zeta; split; [|split].
      * apply required_metadata_swath; exact Hs.
      * apply recommended_metadata_swath.
      * apply insarmaps_metadata_swath.
Qed.

Lemma relative_orbit_required_beam_swath_defaulted_witness :
  raises (metadata_pysar2unavco Sample.now Sample.no_orbit Sample.dates)
  /\ exists out,
       metadata_pysar2unavco Sample.now Sample.bad_swath Sample.dates = Ok out
       /\ Dict.get "beam_swath" out = Some (PInt 0).
Proof.
  split.
  - apply (proj1 (relative_orbit_required_beam_swath_defaulted
                    Sample.now Sample.no_orbit Sample.no_orbit Sample.dates
                    eq_refl)).
    reflexivity.
  - destruct (metadata_pysar2unavco Sample.now Sample.bad_swath Sample.dates)
      as [out|e] eqn:E; [|vm_compute in E; discriminate E].
    exists out; split; [reflexivity|].
    apply (proj1 (proj2 (relative_orbit_required_beam_swath_defaulted
                           Sample.now Sample.bad_swath Sample.bad_swath
                           Sample.dates eq_refl)
                    (fun H : int_parsable "IW1" =>
                       match H with
                       | ex_intro _ z Hz =>
                           eq_ind (Raise ValueError)
                             (fun r => match r with
                                       | Ok _ => False
                                       | Raise _ => True
                                       end) I (Ok z) Hz
                       end))).
    exact E.
Defined.

(** ** The result of the translation *)

Lemma iso_date_valid (d : string) (v : pyval) :
  iso_date d = Ok v -> valid_date_string d.
Proof. unfold iso_date; intros H; inv_bind H; eexists; eassumption. Qed.

Lemma frame_step_inv (p : Dict.t string) (u x : Dict.t pyval) :
  (if Dict.mem "frame" p
   then assign "frame" (int_item p "frame") u
   else if Dict.mem "first_frame" p
        then assign "frame" (int_item p "first_frame") u
        else Ok (Dict.setitem "frame" (PInt 0) u)) = Ok x ->
  frame_parsable p.
Proof.
  unfold frame_parsable, Dict.mem, assign, int_item, item, Dict.getitem.
  destruct (Dict.get "frame" p) as [s|];
    [|destruct (Dict.get "first_frame" p) as [s|]]; cbn [bind];
    intros H; try exact I;
    destruct (PyInt.of_string s) as [z|] eqn:E; try discriminate H;
    exists z; exact E.
Qed.

Lemma recommended_metadata_frame (p : Dict.t string) (u u' : Dict.t pyval) :
  recommended_metadata p u = Ok u' -> frame_parsable p.
Proof.
  unfold recommended_metadata; intros H; inv_bind H.
  apply (frame_step_inv p u x E).
Qed.

(** When [X_FIRST] is absent, the preconditions are enough for the
    translation to return. *)
Lemma metadata_pysar2unavco_total (now : DateTime.t) (src p : Dict.t string)
  (dates : list string) :
  alias_keys src = Ok p -> translatable p dates ->
  Dict.get "X_FIRST" p = None ->
  exists out, metadata_pysar2unavco now src dates = Ok out.
Proof.
  intros Hp ([bm Hbm] & (ro & Hro & Hz) & [side Hs] & Hc
             & (d0 & dl & Hd0 & Hdl & Hv0 & Hvl) & Hf) Hx.
  unfold metadata_pysar2unavco; rewrite Hp; cbn [bind].
  destruct (required_metadata_total p now dates [] bm ro d0 dl
              Hbm Hro Hz Hd0 Hv0 Hdl Hvl Hc) as [u1 ->]; cbn [bind].
  destruct (recommended_metadata_total p u1 side Hf Hs) as [u2 ->].
  cbn [bind]; unfold insarmaps_metadata, Dict.mem; rewrite Hx; eauto.
Qed.

(** C8. When [metadata_pysar2unavco] returns, the archive metadata holds
    the eight required keys [mission] (possibly [None]), [beam_mode],
    [beam_swath], [relative_orbit], [first_date], [last_date],
    [scene_footprint] and [history]; and it returns only if the aliased
    map has [beam_mode], an integer [relative_orbit], [ANTENNA_SIDE] and
    the eight corner keys, and the date list is not empty, with a first
    and a last entry that are valid dates. *)
Theorem required_keys_after_translation (now : DateTime.t)
  (src : Dict.t string) (dates : list string) (out : Dict.t pyval) :
  metadata_pysar2unavco now src dates = Ok out ->
  (forall k, In k required_keys -> Dict.mem k out = true)
  /\ exists p, alias_keys src = Ok p
       /\ (exists m, get_mission_name p = Ok m
                     /\ Dict.get "mission" out = Some m)
       /\ translatable p dates.
Proof.
  intros Hout.
  apply metadata_pysar2unavco_inv in Hout
    as (p & u1 & u2 & Hp & H1 & H2 & H3).
  pose proof (fun k Hk => result_get_required p u1 u2 out k H2 H3 Hk) as G.
  pose proof (required_metadata_get p now dates u1 H1)
    as (m & bm & ro & z & fd & ld & lon1 & lon2 & lon3 & lon4 & lat1 & lat2
        & lat3 & lat4 & Hm & Hbm & Hro & Hz & L1 & L2 & L3 & L4 & L5 & L6
        & L7 & L8 & G1 & G2 & G3 & G4 & G5 & G6 & G7 & G8 & _).
  split.
  - intros k Hk; unfold Dict.mem.
    simpl in Hk; repeat destruct Hk as [<-|Hk]; [..|contradiction];
      rewrite G by reflexivity.
    + rewrite G1; reflexivity.
    + rewrite G2; reflexivity.
    + rewrite G3; reflexivity.
    + rewrite G4; reflexivity.
    + rewrite G5; reflexivity.
    + rewrite G6; reflexivity.
    + rewrite G7; reflexivity.
    + rewrite G8; reflexivity.
  - exists p; split; [exact Hp|]; split.
    + exists m; split; [exact Hm|]. rewrite G by reflexivity; exact G1.
    + apply required_metadata_inv in H1
        as (m' & bm' & ro' & z' & d0 & dl & fd' & ld' & _ & _ & _ & _ & _ & _
            & _ & _ & _ & _ & _ & _ & Hd0 & Hfd & Hdl & Hld & _).
      repeat split.
      * eauto.
      * exists ro; split; [exact Hro | exists z; exact Hz].
      * apply (proj1 (recommended_metadata_inv p u1 u2 H2)).
      * intros k Hk; simpl in Hk;
          repeat destruct Hk as [<-|Hk]; [..|contradiction]; eauto.
      * exists d0, dl; repeat split; eauto using iso_date_valid.
      * apply (recommended_metadata_frame p u1 u2 H2).
Qed.

Lemma required_keys_after_translation_witness :
  exists out,
    metadata_pysar2unavco Sample.now Sample.geocoded Sample.dates = Ok out
    /\ forall k, In k required_keys -> Dict.mem k out = true.
Proof.
  destruct (metadata_pysar2unavco Sample.now Sample.geocoded Sample.dates)
    as [out|e] eqn:E; [|vm_compute in E; discriminate E].
  exists out; split; [reflexivity|].
  exact (proj1 (required_keys_after_translation
                  Sample.now Sample.geocoded Sample.dates out E)).
Defined.

(** C6. The translated [scene_footprint] is the well-known text
    [POLYGON((...))] of five [lon lat] vertices: the corner pairs
    [LON_REFk], [LAT_REFk] of the map for [k] = 1, 3, 4, 2 and 1 again. *)
Theorem scene_footprint_corner_order (now : DateTime.t)
  (src p : Dict.t string) (dates : list string) (out : Dict.t pyval)
  (lon1 lon2 lon3 lon4 lat1 lat2 lat3 lat4 : string) :
  alias_keys src = Ok p ->
  Dict.get "LON_REF1" p = Some lon1 -> Dict.get "LAT_REF1" p = Some lat1 ->
  Dict.get "LON_REF2" p = Some lon2 -> Dict.get "LAT_REF2" p = Some lat2 ->
  Dict.get "LON_REF3" p = Some lon3 -> Dict.get "LAT_REF3" p = Some lat3 ->
  Dict.get "LON_REF4" p = Some lon4 -> Dict.get "LAT_REF4" p = Some lat4 ->
  metadata_pysar2unavco now src dates = Ok out ->
  Dict.get "scene_footprint" out
  = Some (PStr (wkt_ring [(lon1, lat1); (lon3, lat3); (lon4, lat4);
                          (lon2, lat2); (lon1, lat1)])).
Proof.
  intros Hp A1 B1 A2 B2 A3 B3 A4 B4 Hout.
  apply metadata_pysar2unavco_inv in Hout
    as (p' & u1 & u2 & Hp' & H1 & H2 & H3).
  rewrite Hp in Hp'; injection Hp' as <-.
  rewrite (result_get_required p u1 u2 out _ H2 H3) by reflexivity.
  pose proof (required_metadata_get p now dates u1 H1)
    as (m & bm & ro & z & fd & ld & x1 & x2 & x3 & x4 & y1 & y2
        & y3 & y4 & _ & _ & _ & _ & L1 & L2 & L3 & L4 & L5 & L6
        & L7 & L8 & _ & _ & _ & _ & _ & _ & G7 & _).
  rewrite G7; congruence.
Qed.

Lemma scene_footprint_corner_order_witness :
  exists out,
    metadata_pysar2unavco Sample.now Sample.radar Sample.dates = Ok out
    /\ Dict.get "scene_footprint" out
       = Some (PStr ("POLYGON((130.1 31.5,130.0 32.5,131.1 32.6,"
                       ++ "131.2 31.6,130.1 31.5))")).
Proof.
  destruct (metadata_pysar2unavco Sample.now Sample.radar Sample.dates)
    as [out|e] eqn:E; [|vm_compute in E; discriminate E].
  exists out; split; [reflexivity|].
  exact (scene_footprint_corner_order Sample.now Sample.radar Sample.radar
           Sample.dates out "130.1" "131.2" "130.0" "131.1"
           "31.5" "31.6" "32.5" "32.6"
           eq_refl eq_refl eq_refl eq_refl eq_refl eq_refl eq_refl eq_refl
           eq_refl E).
Defined.

(** ** The data footprint *)

Lemma data_footprint_inv (p : Dict.t string) (v : pyval) :
  data_footprint p = Ok v ->
  exists lon0 lat0 dx dy w l,
    anchor_float p "X_FIRST" lon0 /\ anchor_float p "Y_FIRST" lat0
    /\ anchor_float p "X_STEP" dx /\ anchor_float p "Y_STEP" dy
    /\ anchor_extent p "WIDTH" w /\ anchor_extent p "LENGTH" l
    /\ v = PStr (rectangle_ring lon0 lat0
                   (PyFloat.add lon0 (PyFloat.mul dx w))
                   (PyFloat.add lat0 (PyFloat.mul dy l))).
Proof.
  unfold data_footprint; intros H.
  inv_item H; inv_bind H. inv_item H; inv_bind H.
  inv_item H; inv_bind H. inv_item H; inv_bind H; inv_bind H.
  cbv zeta in H.
  inv_item H; inv_bind H. inv_item H; inv_bind H; inv_bind H.
  injection H as <-.
  unfold anchor_float, anchor_extent.
  repeat eexists; eassumption.
Qed.

Lemma insarmaps_raises (p : Dict.t string) (u : Dict.t pyval)
  (x k : string) :
  Dict.get "X_FIRST" p = Some x ->
  In k other_anchors -> Dict.get k p = None ->
  raises (insarmaps_metadata p u).
Proof.
  intros Hx Hk Hnone; unfold insarmaps_metadata, Dict.mem; rewrite Hx.
  unfold assign; apply raises_bind_l; unfold data_footprint.
  simpl in Hk; repeat destruct Hk as [<-|Hk]; [..|contradiction];
    walk_to_raise.
Qed.

(** When [X_FIRST] is present and another anchor is absent, the
    translation raises. *)
Lemma partial_anchors_raise (now : DateTime.t) (src p : Dict.t string)
  (dates : list string) (x k : string) :
  alias_keys src = Ok p ->
  Dict.get "X_FIRST" p = Some x ->
  In k other_anchors -> Dict.get k p = None ->
  raises (metadata_pysar2unavco now src dates).
Proof.
  intros Hp Hx Hk Hnone.
  unfold metadata_pysar2unavco; rewrite Hp; cbn [bind].
  apply raises_bind_r; intros u1 _.
  apply raises_bind_r; intros u2 _.
  apply (insarmaps_raises p u2 x k Hx Hk Hnone).
Qed.

(** C9, as the code has it.  The gate of the data footprint is the key
    [X_FIRST] of the aliased map alone.  A result of the translation
    holds [data_footprint] exactly when [X_FIRST] is present, and then it
    is the rectangle from the origin to origin plus step times extent;
    when [X_FIRST] is absent the key is omitted and, on a map that meets
    the other preconditions, the translation returns. *)
Theorem data_footprint_gated_by_X_FIRST (now : DateTime.t)
  (src p : Dict.t string) (dates : list string) :
  alias_keys src = Ok p ->
  (forall out, metadata_pysar2unavco now src dates = Ok out ->
     match Dict.get "X_FIRST" p with
     | Some _ =>
         exists lon0 lat0 dx dy w l,
           anchor_float p "X_FIRST" lon0 /\ anchor_float p "Y_FIRST" lat0
           /\ anchor_float p "X_STEP" dx /\ anchor_float p "Y_STEP" dy
           /\ anchor_extent p "WIDTH" w /\ anchor_extent p "LENGTH" l
           /\ Dict.get "data_footprint" out
              = Some (PStr (rectangle_ring lon0 lat0
                              (PyFloat.add lon0 (PyFloat.mul dx w))
                              (PyFloat.add lat0 (PyFloat.mul dy l))))
     | None => Dict.get "data_footprint" out = None
     end)
  /\ (Dict.get "X_FIRST" p = None -> translatable p dates ->
      exists out, metadata_pysar2unavco now src dates = Ok out
                  /\ Dict.get "data_footprint" out = None).
Proof.
  intros Hp.
  assert (G : forall out, metadata_pysar2unavco now src dates = Ok out ->
     match Dict.get "X_FIRST" p with
     | Some _ =>
         exists lon0 lat0 dx dy w l,
           anchor_float p "X_FIRST" lon0 /\ anchor_float p "Y_FIRST" lat0
           /\ anchor_float p "X_STEP" dx /\ anchor_float p "Y_STEP" dy
           /\ anchor_extent p "WIDTH" w /\ anchor_extent p "LENGTH" l
           /\ Dict.get "data_footprint" out
              = Some (PStr (rectangle_ring lon0 lat0
                              (PyFloat.add lon0 (PyFloat.mul dx w))
                              (PyFloat.add lat0 (PyFloat.mul dy l))))
     | None => Dict.get "data_footprint" out = None
     end).
  { intros out Hout.
    apply metadata_pysar2unavco_inv in Hout
      as (p' & u1 & u2 & Hp' & H1 & H2 & H3).
    rewrite Hp in Hp'; injection Hp' as <-.
    pose proof (insarmaps_metadata_inv p u2 out H3) as Hi.
    destruct (Dict.get "X_FIRST" p) as [x|].
    - destruct Hi as (v & Hv & ->).
      apply data_footprint_inv in Hv
        as (lon0 & lat0 & dx & dy & w & l & A1 & A2 & A3 & A4 & A5 & A6 & ->).
      exists lon0, lat0, dx, dy, w, l.
      repeat (split; [assumption|]).
      apply get_setitem_same.
    - subst out.
      apply recommended_metadata_inv in H2 as [_ H2].
      rewrite H2 by reflexivity.
      apply required_metadata_get in H1.
      destruct H1 as (m & bm & ro & z & fd & ld & x1 & x2 & x3 & x4 & y1
                      & y2 & y3 & y4 & H1).
      tauto. }
  split; [exact G|].
  intros Hx Ht.
  destruct (metadata_pysar2unavco_total now src p dates Hp Ht Hx)
    as [out Hout].
  exists out; split; [exact Hout|].
  specialize (G out Hout); rewrite Hx in G; exact G.
Qed.

Lemma data_footprint_gated_by_X_FIRST_witness :
  exists out,
    metadata_pysar2unavco Sample.now Sample.radar Sample.dates = Ok out
    /\ Dict.get "data_footprint" out = None.
Proof.
  apply (proj2 (data_footprint_gated_by_X_FIRST
                  Sample.now Sample.radar Sample.radar Sample.dates
                  eq_refl)).
  - reflexivity.
  - unfold translatable, frame_parsable, int_parsable, valid_date_string.
    repeat split.
    + exists "IW"; reflexivity.
    + exists "5"; split; [reflexivity | exists 5; reflexivity].
    + exists "-1"; reflexivity.
    + intros k Hk; simpl in Hk;
        repeat destruct Hk as [<-|Hk]; [..|contradiction];
        eexists; reflexivity.
    + exists "20150101", "20181231".
      repeat split; eexists; vm_compute; reflexivity.
    + exists 117; reflexivity.
Defined.

(** The footprint of the geocoded sample. *)
Example data_footprint_of_sample :
  exists out,
    metadata_pysar2unavco Sample.now Sample.geocoded Sample.dates = Ok out
    /\ Dict.get "data_footprint" out
       = Some (PStr ("POLYGON((130.5 32.1,131.1 32.1,"
                       ++ "131.1 31.700000000000003,"
                       ++ "130.5 31.700000000000003,130.5 32.1))")).
Proof.
  eexists; split; vm_compute; reflexivity.
Qed.

(** The claim C9 as stated fails on a map with [X_FIRST] and without
    [Y_FIRST]: an anchor is absent, yet the translation does not complete
    with the key omitted; it raises [KeyError]. *)
Lemma data_footprint_partial_anchors_counterexample :
  Dict.get "Y_FIRST" Sample.half_geocoded = None
  /\ alias_keys Sample.half_geocoded = Ok Sample.half_geocoded
  /\ metadata_pysar2unavco Sample.now Sample.half_geocoded Sample.dates
     = Raise (KeyError "Y_FIRST")
  /\ ~ (exists out,
         metadata_pysar2unavco Sample.now Sample.half_geocoded Sample.dates
         = Ok out
         /\ Dict.get "data_footprint" out = None).
Proof.
  assert (E : metadata_pysar2unavco Sample.now Sample.half_geocoded
                Sample.dates = Raise (KeyError "Y_FIRST"))
    by (vm_compute; reflexivity).
  repeat split; try reflexivity; try exact E.
  intros (out & Hout & _); rewrite E in Hout; discriminate Hout.
Qed.

(** ** Aliasing precedence *)

Lemma last_writer_app (t k0 : string) (ks1 ks2 : list string) :
  writes k0 t = true ->
  (forall k, In k ks2 -> writes k t = false) ->
  last_writer t (ks1 ++ k0 :: ks2) = Some k0.
Proof.
  intros Hw Hks2.
  assert (E2 : last_writer t ks2 = None).
  { induction ks2 as [|k ks IH]; [reflexivity|]; cbn [last_writer].
    rewrite IH by (intros k' Hk'; apply Hks2; right; exact Hk').
    rewrite (Hks2 k (or_introl eq_refl)); reflexivity. }
  induction ks1 as [|k ks IH]; cbn [last_writer app].
  - rewrite E2, Hw; reflexivity.
  - rewrite IH; reflexivity.
Qed.

(** The track of a result is the integer value of the last source key
    stored under [relative_orbit]. *)
Lemma relative_orbit_last_writer (now : DateTime.t) (src : Dict.t string)
  (dates : list string) (out : Dict.t pyval) (ks1 ks2 : list string)
  (k0 v : string) :
  Dict.keys src = (ks1 ++ k0 :: ks2)%list ->
  writes k0 "relative_orbit" = true ->
  (forall k, In k ks2 -> writes k "relative_orbit" = false) ->
  Dict.get k0 src = Some v ->
  metadata_pysar2unavco now src dates = Ok out ->
  exists z, PyInt.of_string v = Ok z
            /\ Dict.get "relative_orbit" out = Some (PInt z).
Proof.
  intros Hkeys Hw Hks2 Hv Hout.
  apply metadata_pysar2unavco_inv in Hout
    as (p & u1 & u2 & Hp & H1 & H2 & H3).
  destruct (alias_keys_get src) as (p' & Hp' & G).
  rewrite Hp in Hp'; injection Hp' as <-.
  specialize (G "relative_orbit").
  rewrite Hkeys, (last_writer_app _ _ ks1 ks2 Hw Hks2), Hv in G.
  rewrite (result_get_required p u1 u2 out _ H2 H3) by reflexivity.
  apply required_metadata_get in H1.
  destruct H1 as (m & bm & ro & z & fd & ld & x1 & x2 & x3 & x4 & y1
                  & y2 & y3 & y4 & _ & _ & Hro & Hz & _ & _ & _ & _ & _ & _
                  & _ & _ & _ & _ & _ & G4 & _).
  rewrite G in Hro; injection Hro as <-.
  exists z; split; [exact Hz | exact G4].
Qed.

(** C2, as the code has it.  When the override key
    [hdfEos5.relative_orbit] comes, in the iteration order of the source
    map, after the base key [relative_orbit] and after every other key
    stored under [relative_orbit], a result of the translation holds the
    integer value of the override key in [relative_orbit]. *)
Theorem override_after_base_takes_precedence (now : DateTime.t)
  (src : Dict.t string) (dates : list string) (out : Dict.t pyval)
  (ks1 ks2 : list string) (v : string) :
  Dict.keys src = (ks1 ++ override_key :: ks2)%list ->
  (forall k, In k ks2 -> writes k "relative_orbit" = false) ->
  Dict.get override_key src = Some v ->
  metadata_pysar2unavco now src dates = Ok out ->
  exists z, PyInt.of_string v = Ok z
            /\ Dict.get "relative_orbit" out = Some (PInt z).
Proof.
  intros Hkeys Hks2 Hv Hout.
  apply (relative_orbit_last_writer now src dates out ks1 ks2
           override_key v Hkeys eq_refl Hks2 Hv Hout).
Qed.

Lemma override_after_base_takes_precedence_witness :
  exists out,
    metadata_pysar2unavco Sample.now Sample.override_last Sample.dates
    = Ok out
    /\ Dict.get "relative_orbit" Sample.override_last = Some "5"
    /\ Dict.get "relative_orbit" out = Some (PInt 7).
Proof.
  destruct (metadata_pysar2unavco Sample.now Sample.override_last
              Sample.dates) as [out|e] eqn:E;
    [|vm_compute in E; discriminate E].
  exists out; split; [reflexivity|]; split; [reflexivity|].
  destruct (override_after_base_takes_precedence
              Sample.now Sample.override_last Sample.dates out
              (Dict.keys Sample.radar) [] "7" eq_refl
              (fun k (H : In k []) => match H with end) eq_refl E)
    as (z & Hz & Hget).
  vm_compute in Hz; injection Hz as <-; exact Hget.
Defined.

(** The claim C2 as stated fails when the override key comes first: the
    map holds both keys, the override says 7, and the result holds the
    base value 5. *)
Lemma override_before_base_counterexample :
  Dict.get "relative_orbit" Sample.override_first = Some "5"
  /\ Dict.get override_key Sample.override_first = Some "7"
  /\ exists out,
       metadata_pysar2unavco Sample.now Sample.override_first Sample.dates
       = Ok out
       /\ Dict.get "relative_orbit" out = Some (PInt 5)
       /\ Dict.get "relative_orbit" out <> Some (PInt 7).
Proof.
  split; [reflexivity|]; split; [reflexivity|].
  destruct (metadata_pysar2unavco Sample.now Sample.override_first
              Sample.dates) as [out|e] eqn:E;
    [|vm_compute in E; discriminate E].
  exists out; split; [reflexivity|].
  vm_compute in E; injection E as <-.
  split; [reflexivity | discriminate].
Qed.

(** ** Strings, continued: concatenation, slices and [splitext] *)

Lemma append_assoc (a b c : string) : (a ++ b) ++ c = a ++ b ++ c.
Proof.
  induction a as [|x a IH]; simpl; [reflexivity | rewrite IH; reflexivity].
Qed.

Lemma length_append (a b : string) :
  String.length (a ++ b) = (String.length a + String.length b)%nat.
Proof.
  induction a as [|x a IH]; simpl; [reflexivity | rewrite IH; reflexivity].
Qed.

Lemma take_append (a b : string) : Str.take (String.length a) (a ++ b) = a.
Proof.
  induction a as [|x a IH]; simpl;
    [destruct b; reflexivity | rewrite IH; reflexivity].
Qed.

Lemma drop_append (a b : string) : Str.drop (String.length a) (a ++ b) = b.
Proof.
  induction a as [|x a IH]; simpl; [destruct b; reflexivity | exact IH].
Qed.

Lemma split_at (n : nat) (s : string) :
  (n <= String.length s)%nat ->
  exists a b, s = a ++ b /\ String.length a = n.
Proof.
  revert s; induction n as [|n IH]; intros s Hn.
  - exists "", s; split; reflexivity.
  - destruct s as [|x s]; simpl in Hn; [lia|].
    destruct (IH s ltac:(lia)) as (a & b & -> & Ha).
    exists (String x a), b; split; [reflexivity|].
    simpl; rewrite Ha; reflexivity.
Qed.

Lemma rfind_range (c : ascii) (s : string) :
  -1 <= OsPath.rfind c s < Z.of_nat (String.length s).
Proof.
  induction s as [|x s IH]; cbn [OsPath.rfind String.length]; [lia|].
  destruct (0 <=? OsPath.rfind c s) eqn:E; [lia|].
  destruct (Ascii.eqb x c); lia.
Qed.

Lemma rfind_append (c : ascii) (a b : string) :
  OsPath.rfind c (a ++ b)
  = if 0 <=? OsPath.rfind c b
    then Z.of_nat (String.length a) + OsPath.rfind c b
    else OsPath.rfind c a.
Proof.
  induction a as [|x a IH]; cbn [append OsPath.rfind String.length].
  - pose proof (rfind_range c b).
    destruct (0 <=? OsPath.rfind c b) eqn:E; lia.
  - rewrite IH.
    destruct (0 <=? OsPath.rfind c b) eqn:E.
    + replace (0 <=? Z.of_nat (String.length a) + OsPath.rfind c b) with true
        by (symmetry; apply Z.leb_le; lia).
      lia.
    + reflexivity.
Qed.

Lemma has_non_dot_append (a : string) (c : ascii) :
  c <> "."%char -> OsPath.has_non_dot (a ++ String c "") = true.
Proof.
  intros Hc; induction a as [|x a IH]; simpl.
  - destruct (Ascii.eqb_spec c "."); [contradiction | reflexivity].
  - rewrite IH; apply orb_true_r.
Qed.

(** A name whose stem ends in a character other than a dot or a slash
    splits before its extension [.he5]. *)
Lemma splitext_he5 (stem : string) (c : ascii) :
  c <> "."%char -> c <> "/"%char ->
  OsPath.splitext ((stem ++ String c "") ++ ".he5")
  = (stem ++ String c "", ".he5").
Proof.
  intros Hdot Hsep; unfold OsPath.splitext.
  set (a := stem ++ String c "").
  assert (Hd : OsPath.rfind "." (a ++ ".he5") = Z.of_nat (String.length a)).
  { rewrite rfind_append.
    change (OsPath.rfind "." ".he5") with 0; cbn [Z.leb Z.compare]; lia. }
  assert (Hs : OsPath.rfind "/" (a ++ ".he5") = OsPath.rfind "/" stem).
  { rewrite rfind_append.
    change (OsPath.rfind "/" ".he5") with (-1); cbn [Z.leb Z.compare].
    unfold a; rewrite rfind_append; cbn [OsPath.rfind].
    destruct (Ascii.eqb_spec c "/"); [contradiction | reflexivity]. }
  rewrite Hd, Hs.
  pose proof (rfind_range "/" stem) as Hr.
  assert (Hlen : String.length a = S (String.length stem)).
  { unfold a; rewrite length_append; simpl; lia. }
  replace (OsPath.rfind "/" stem <? Z.of_nat (String.length a)) with true
    by (symmetry; apply Z.ltb_lt; lia).
  rewrite Nat2Z.id, take_append, drop_append.
  set (n := Z.to_nat (OsPath.rfind "/" stem + 1)).
  destruct (split_at n stem ltac:(lia)) as (s1 & s2 & Es & Hn).
  assert (Ea : a ++ ".he5" = s1 ++ ((s2 ++ String c "") ++ ".he5")).
  { unfold a; rewrite Es, !append_assoc; reflexivity. }
  rewrite Ea, <- Hn, drop_append.
  replace (Z.to_nat (Z.of_nat (String.length a)
                     - (OsPath.rfind "/" stem + 1)))
    with (String.length (s2 ++ String c "")).
  - rewrite take_append, has_non_dot_append by assumption; reflexivity.
  - rewrite length_append; simpl.
    assert (String.length stem = (n + String.length s2)%nat)
      by (rewrite Es, length_append, Hn; reflexivity).
    lia.
Qed.

(** ** The shape of the file name *)

Lemma digit_char_is_digit (d : Z) :
  0 <= d < 10 -> Str.is_digit (Str.digit_char d) = true.
Proof.
  intros H.
  assert (E : d = 0 \/ d = 1 \/ d = 2 \/ d = 3 \/ d = 4 \/ d = 5 \/ d = 6
              \/ d = 7 \/ d = 8 \/ d = 9) by lia.
  repeat destruct E as [->|E]; try subst d; reflexivity.
Qed.

Lemma digits_fuel_suffix (f : nat) (n : Z) (acc : string) :
  exists pre, PyInt.digits_fuel f n acc = pre ++ acc.
Proof.
  revert n acc; induction f as [|f IH]; intros n acc; cbn [PyInt.digits_fuel].
  - exists ""; reflexivity.
  - destruct (n <? 10).
    + exists (String (Str.digit_char (n mod 10)) ""); reflexivity.
    + destruct (IH (n / 10) (String (Str.digit_char (n mod 10)) acc))
        as [pre ->].
      exists (pre ++ String (Str.digit_char (n mod 10)) "").
      rewrite append_assoc; reflexivity.
Qed.

Lemma digits_ends (n : Z) : ends_in_digit (PyInt.digits n).
Proof.
  unfold PyInt.digits; cbn [PyInt.digits_fuel].
  assert (Hd : Str.is_digit (Str.digit_char (n mod 10)) = true)
    by (apply digit_char_is_digit, Z.mod_pos_bound; lia).
  destruct (n <? 10).
  - exists "", (Str.digit_char (n mod 10)); split; [reflexivity | exact Hd].
  - destruct (digits_fuel_suffix (Z.to_nat (Z.log2 n)) (n / 10)
                (String (Str.digit_char (n mod 10)) "")) as [pre ->].
    exists pre, (Str.digit_char (n mod 10)); split; [reflexivity | exact Hd].
Qed.

Lemma ends_in_digit_prepend (t s : string) :
  ends_in_digit s -> ends_in_digit (t ++ s).
Proof.
  intros (pre & c & -> & Hc); exists (t ++ pre), c; split; [|exact Hc].
  rewrite append_assoc; reflexivity.
Qed.

Lemma format_0d_ends (w : nat) (n : Z) : ends_in_digit (PyInt.format_0d w n).
Proof.
  unfold PyInt.format_0d, Str.zfill; destruct (n <? 0);
    repeat apply ends_in_digit_prepend; apply digits_ends.
Qed.

Lemma strftime_ends (d : DateTime.t) : ends_in_digit (DateTime.strftime_Ymd d).
Proof.
  unfold DateTime.strftime_Ymd;
    repeat apply ends_in_digit_prepend; apply format_0d_ends.
Qed.

(** The end token never ends in a dot or a slash, so the name splits
    before [.he5]. *)
Lemma splitext_name (head tok : string) (u : bool) :
  ends_in_digit tok ->
  OsPath.splitext (head ++ "_" ++ end_token u tok ++ ".he5")
  = (head ++ "_" ++ end_token u tok, ".he5").
Proof.
  intros (pre & c & -> & Hc).
  assert (E : exists stem c', head ++ "_" ++ end_token u (pre ++ String c "")
                              = stem ++ String c' ""
                              /\ c' <> "."%char /\ c' <> "/"%char).
  { destruct u; unfold end_token.
    - exists (head ++ "_XXXXXXX"), "X"%char.
      rewrite append_assoc; repeat split; discriminate.
    - exists (head ++ "_" ++ pre), c.
      rewrite !append_assoc.
      repeat split; intros ->; discriminate Hc. }
  destruct E as (stem & c' & E & H1 & H2).
  replace (head ++ "_" ++ end_token u (pre ++ String c "") ++ ".he5")
    with ((stem ++ String c' "") ++ ".he5")
    by (rewrite <- E, !append_assoc; reflexivity).
  rewrite E; apply splitext_he5; assumption.
Qed.

Ltac replay :=
  repeat match goal with
    | E : ?r = Ok _ |- context [bind ?r _] => rewrite E; cbn [bind]
    end.

Lemma plain_filename_shape (m : Dict.t pyval) (u : bool) (name : string) :
  plain_filename m u = Ok name ->
  exists head last tok,
    Dict.get "last_date" m = Some last
    /\ date_token last = Ok tok
    /\ ends_in_digit tok
    /\ forall u', plain_filename m u'
                  = Ok (head ++ "_" ++ end_token u' tok ++ ".he5").
Proof.
  unfold plain_filename; cbv beta zeta; intros H.
  do 14 inv_bind H.
  inv_bind H. destruct x; try discriminate E13. injection E13 as <-.
  inv_bind H. destruct x2; try discriminate E13. injection E13 as <-.
  inv_bind H. injection E13 as <-. clear H.
  apply getitem_Ok in E11.
  exists ((s ++ "_") ++ s0 ++ "_" ++ PyInt.format_0d 3 x4 ++ "_" ++ x8
            ++ "_" ++ DateTime.strftime_Ymd x10),
    x11, (DateTime.strftime_Ymd x12).
  split; [exact E11|]; split; [unfold date_token; rewrite E12; reflexivity|].
  split; [apply strftime_ends|].
  intros u'; apply getitem_Ok in E11.
  rewrite E1 in E2; cbn [bind] in E2.
  replay. cbn [str_add bind py_str].
  rewrite !append_assoc; destruct u'; reflexivity.
Qed.

(** ** Dates in canonical form *)

Lemma is_digit_in (c : ascii) : Str.is_digit c = true -> In c digit_chars.
Proof.
  destruct c as [[] [] [] [] [] [] [] []]; try discriminate; intros _;
    simpl; tauto.
Qed.

Lemma two_digits_all :
  forallb (fun e => forallb (two_digits_check e) digit_chars) digit_chars
  = true.
Proof. vm_compute; reflexivity. Qed.

Lemma four_digits_all :
  forallb (fun a => forallb (fun b => forallb (fun c =>
    forallb (four_digits_check a b c) digit_chars)
    digit_chars) digit_chars) digit_chars = true.
Proof. vm_compute; reflexivity. Qed.

Lemma month_day_all :
  forallb (fun e => forallb (fun f => forallb (fun g =>
    forallb (month_day_check e f g) digit_chars)
    digit_chars) digit_chars) digit_chars = true.
Proof. vm_compute; reflexivity. Qed.

Lemma two_digits_format (e f : ascii) :
  Str.is_digit e = true -> Str.is_digit f = true ->
  PyInt.format_0d 2 (10 * Str.digit_val e + Str.digit_val f)
  = String e (String f "").
Proof.
  intros He Hf; apply String.eqb_eq.
  pose proof two_digits_all as H.
  rewrite forallb_forall in H; specialize (H e (is_digit_in e He)).
  rewrite forallb_forall in H; exact (H f (is_digit_in f Hf)).
Qed.

Lemma four_digits_format (a b c d : ascii) :
  Str.is_digit a = true -> Str.is_digit b = true ->
  Str.is_digit c = true -> Str.is_digit d = true ->
  PyInt.format_0d 4 (1000 * Str.digit_val a + 100 * Str.digit_val b
                     + 10 * Str.digit_val c + Str.digit_val d)
  = String a (String b (String c (String d ""))).
Proof.
  intros Ha Hb Hc Hd; apply String.eqb_eq.
  pose proof four_digits_all as H.
  rewrite forallb_forall in H; specialize (H a (is_digit_in a Ha)).
  rewrite forallb_forall in H; specialize (H b (is_digit_in b Hb)).
  rewrite forallb_forall in H; specialize (H c (is_digit_in c Hc)).
  rewrite forallb_forall in H; exact (H d (is_digit_in d Hd)).
Qed.

Lemma month_day_fields (e f g h : ascii) :
  Str.is_digit e = true -> Str.is_digit f = true ->
  Str.is_digit g = true -> Str.is_digit h = true ->
  month_day_check e f g h = true.
Proof.
  intros He Hf Hg Hh.
  pose proof month_day_all as H.
  rewrite forallb_forall in H; specialize (H e (is_digit_in e He)).
  rewrite forallb_forall in H; specialize (H f (is_digit_in f Hf)).
  rewrite forallb_forall in H; specialize (H g (is_digit_in g Hg)).
  rewrite forallb_forall in H; exact (H h (is_digit_in h Hh)).
Qed.

Lemma digit_field_2 (s : string) :
  digit_field 2 s ->
  exists e f, s = String e (String f "")
              /\ Str.is_digit e = true /\ Str.is_digit f = true.
Proof.
  intros [Hl Hd].
  destruct s as [|e [|f [|x s]]]; try discriminate Hl.
  simpl in Hd; apply andb_prop in Hd as [He Hd].
  apply andb_prop in Hd as [Hf _]; eauto.
Qed.

Lemma digit_field_4 (s : string) :
  digit_field 4 s ->
  exists a b c d, s = String a (String b (String c (String d "")))
    /\ Str.is_digit a = true /\ Str.is_digit b = true
    /\ Str.is_digit c = true /\ Str.is_digit d = true.
Proof.
  intros [Hl Hd].
  destruct s as [|a [|b [|c [|d [|x s]]]]]; try discriminate Hl.
  simpl in Hd; apply andb_prop in Hd as [Ha Hd].
  apply andb_prop in Hd as [Hb Hd]; apply andb_prop in Hd as [Hc Hd].
  apply andb_prop in Hd as [Hd' _]; eauto 10.
Qed.

Lemma match_Y_four (a b c d : ascii) (r : string) :
  Str.is_digit a = true -> Str.is_digit b = true ->
  Str.is_digit c = true -> Str.is_digit d = true ->
  DateTime.match_Y (String a (String b (String c (String d r))))
  = Some (1000 * Str.digit_val a + 100 * Str.digit_val b
          + 10 * Str.digit_val c + Str.digit_val d, r).
Proof.
  intros Ha Hb Hc Hd; unfold DateTime.match_Y.
  rewrite Ha, Hb, Hc, Hd; reflexivity.
Qed.

Lemma strftime_Ymd_mk (y m d h mi sec us : Z) :
  DateTime.strftime_Ymd (DateTime.mk y m d h mi sec us)
  = PyInt.format_0d 4 y ++ PyInt.format_0d 2 m ++ PyInt.format_0d 2 d.
Proof. reflexivity. Qed.

(** A date written [YYYY-MM-DD] with four, two and two digits, the year
    not below 1000, when [strptime] accepts it, is written back as
    [YYYYMMDD] with the same digits. *)
Lemma date_token_canonical (y mo d tok : string) :
  digit_field 4 y -> Str.startswith y "0" = false ->
  digit_field 2 mo -> digit_field 2 d ->
  date_token (PStr (y ++ "-" ++ mo ++ "-" ++ d)) = Ok tok ->
  tok = y ++ mo ++ d.
Proof.
  intros Hy _ Hmo Hd.
  destruct (digit_field_4 y Hy) as (a & b & c & d' & -> & Ha & Hb & Hc & Hd').
  destruct (digit_field_2 mo Hmo) as (e & f & -> & He & Hf).
  destruct (digit_field_2 d Hd) as (g & h & -> & Hg & Hh).
  unfold date_token, DateTime.strptime, DateTime.strptime_Ymd,
    DateTime.regex_Ymd.
  cbn [append]; rewrite (match_Y_four a b c d' _ Ha Hb Hc Hd').
  pose proof (month_day_fields e f g h He Hf Hg Hh) as Hmd.
  unfold month_day_check in Hmd.
  destruct (hd_error (DateTime.fields_md "-" _)) as [[[m dd] r]|];
    [|discriminate].
  destruct r; [|discriminate].
  apply andb_prop in Hmd as [Hm Hdd].
  apply Z.eqb_eq in Hm, Hdd; subst m dd.
  destruct (DateTime.valid_date _ _ _); [|discriminate].
  unfold bind; intros H; apply Ok_inj in H; subst tok.
  rewrite strftime_Ymd_mk, four_digits_format, !two_digits_format
    by assumption.
  reflexivity.
Qed.

(** ** The end-date token *)

Lemma get_output_filename_shape (m : Dict.t pyval) (u s : bool)
  (name : string) :
  get_output_filename m u s = Ok name ->
  exists head last tok,
    Dict.get "last_date" m = Some last
    /\ date_token last = Ok tok
    /\ (forall u', get_output_filename m u' false
                   = Ok (head ++ "_" ++ end_token u' tok ++ ".he5"))
    /\ (forall u' sub,
          subset_range m = Ok sub ->
          get_output_filename m u' true
          = Ok (head ++ "_" ++ end_token u' tok ++ sub ++ ".he5"))
    /\ (s = true -> exists sub, subset_range m = Ok sub).
Proof.
  unfold get_output_filename; intros H; inv_bind H.
  destruct (plain_filename_shape m u x E)
    as (head & last & tok & Hl & Ht & Hd & Hp).
  exists head, last, tok; repeat (split; [assumption|]).
  split; [|split].
  - intros u'; rewrite Hp; reflexivity.
  - intros u' sub Hs; rewrite Hp, Hs; cbn [bind].
    rewrite (splitext_name head tok u' Hd); cbn [fst snd].
    rewrite !append_assoc; reflexivity.
  - intros ->; inv_bind H; eauto.
Qed.

Ltac off_key :=
  cbv beta zeta; unfold Dict.getitem, Dict.mem;
  rewrite ?get_setitem; cbn [String.eqb Ascii.eqb Bool.eqb].

Lemma date_token_strptime (v : pyval) (tok : string) :
  date_token v = Ok tok -> exists d, DateTime.strptime v "-" = Ok d.
Proof. unfold date_token; intros H; inv_bind H; eauto. Qed.

Lemma plain_filename_update_last_date (m : Dict.t pyval) (v1 v2 : pyval)
  (t1 t2 : string) :
  date_token v1 = Ok t1 -> date_token v2 = Ok t2 ->
  plain_filename (Dict.setitem "last_date" v1 m) true
  = plain_filename (Dict.setitem "last_date" v2 m) true.
Proof.
  intros H1 H2.
  apply date_token_strptime in H1 as [d1 H1].
  apply date_token_strptime in H2 as [d2 H2].
  unfold plain_filename; off_key; cbn [bind].
  rewrite H1, H2; cbn [bind]; reflexivity.
Qed.

Lemma subset_range_last_date (m : Dict.t pyval) (v : pyval) :
  subset_range (Dict.setitem "last_date" v m) = subset_range m.
Proof. unfold subset_range; off_key; reflexivity. Qed.

Lemma plain_filename_total (m : Dict.t pyval) (u : bool) :
  nameable m -> exists name, plain_filename m u = Ok name.
Proof.
  intros ([sat Hsat] & [sw Hsw] & [bs Hbs] & (ro & Hro & [zro Hzro])
          & (fr & Hfr & [zfr Hzfr]) & Hff & Hlf
          & (fd & t1 & Hfd & Ht1) & (ld & t2 & Hld & Ht2)).
  apply date_token_strptime in Ht1 as [d1 Hd1].
  apply date_token_strptime in Ht2 as [d2 Hd2].
  unfold plain_filename; cbv beta zeta; unfold Dict.getitem, Dict.mem.
  rewrite Hsat, Hsw, Hbs, Hro, Hfr, Hfd, Hld; cbn [bind].
  rewrite Hzro, Hzfr, Hd1, Hd2; cbn [bind].
  assert (E1 : exists y, (if py_truthy bs
                          then str_add (PStr sw) (PStr (py_str bs))
                          else Ok (PStr sw)) = Ok (PStr y))
    by (destruct (py_truthy bs); cbn [str_add]; eauto).
  destruct E1 as [y ->]; cbn [bind].
  destruct (Dict.get "first_frame" m) as [v1|] eqn:Ef.
  - destruct (Hff v1 eq_refl) as [z1 Hz1]; cbn [bind]; rewrite Hz1.
    cbn [bind].
    destruct (Dict.get "last_frame" m) as [v2|] eqn:El; cbn [bind str_add].
    + destruct (Hlf v2 eq_refl) as [z2 Hz2]; rewrite Hz2.
      cbn [bind str_add]; eauto.
    + eauto.
  - cbn [bind].
    destruct (Dict.get "last_frame" m) as [v2|] eqn:El; cbn [bind str_add].
    + destruct (Hlf v2 eq_refl) as [z2 Hz2]; rewrite Hz2.
      cbn [bind str_add]; eauto.
    + eauto.
Qed.

(** C7. With [update_mode] set, the end-date token of the name is the
    literal [XXXXXXXX], whatever valid date [last_date] holds; with
    [update_mode] unset, the name is the same but for that token, which
    is [last_date] reformatted: a date [YYYY-MM-DD] of the year 1000 or
    later gives its digits [YYYYMMDD].  On metadata that can be named
    the function returns in both modes. *)
Theorem update_mode_end_date_token (m : Dict.t pyval) (s : bool) :
  (forall u name, get_output_filename m u s = Ok name ->
     exists head last tok sub,
       Dict.get "last_date" m = Some last
       /\ date_token last = Ok tok
       /\ (if s then subset_range m = Ok sub else sub = "")
       /\ get_output_filename m true s
          = Ok (head ++ "_" ++ "XXXXXXXX" ++ sub ++ ".he5")
       /\ get_output_filename m false s
          = Ok (head ++ "_" ++ tok ++ sub ++ ".he5"))
  /\ (nameable m ->
      (s = true -> exists sub, subset_range m = Ok sub) ->
      forall u, exists name, get_output_filename m u s = Ok name)
  /\ (forall v1 v2 t1 t2,
        date_token v1 = Ok t1 -> date_token v2 = Ok t2 ->
        get_output_filename (Dict.setitem "last_date" v1 m) true s
        = get_output_filename (Dict.setitem "last_date" v2 m) true s)
  /\ (forall y mo d tok,
        digit_field 4 y -> Str.startswith y "0" = false ->
        digit_field 2 mo -> digit_field 2 d ->
        date_token (PStr (y ++ "-" ++ mo ++ "-" ++ d)) = Ok tok ->
        tok = y ++ mo ++ d).
Proof.
  split; [|split; [|split]].
  - intros u name H.
    destruct (get_output_filename_shape m u s name H)
      as (head & last & tok & Hl & Ht & Hf & Hs & Hsub).
    destruct s.
    + destruct (Hsub eq_refl) as [sub Esub].
      exists head, last, tok, sub; repeat (split; [assumption|]).
      split; [exact (Hs true sub Esub) | exact (Hs false sub Esub)].
    + exists head, last, tok, ""; repeat (split; [assumption || reflexivity|]).
      split; [exact (Hf true) | exact (Hf false)].
  - intros Hm Hsub u; unfold get_output_filename.
    destruct (plain_filename_total m u Hm) as [n ->]; cbn [bind].
    destruct s; [|eauto].
    destruct (Hsub eq_refl) as [sub ->]; cbn [bind]; eauto.
  - intros v1 v2 t1 t2 H1 H2; unfold get_output_filename.
    rewrite (plain_filename_update_last_date m v1 v2 t1 t2 H1 H2).
    rewrite !subset_range_last_date; reflexivity.
  - exact date_token_canonical.
Qed.

Lemma update_mode_end_date_token_witness :
  (exists head last tok sub,
     Dict.get "last_date" Sample.archive = Some last
     /\ date_token last = Ok tok
     /\ sub = ""
     /\ get_output_filename Sample.archive true false
        = Ok (head ++ "_" ++ "XXXXXXXX" ++ sub ++ ".he5")
     /\ get_output_filename Sample.archive false false
        = Ok (head ++ "_" ++ tok ++ sub ++ ".he5"))
  /\ get_output_filename
       (Dict.setitem "last_date" (PStr "2017-02-28") Sample.archive)
       true false
     = get_output_filename
         (Dict.setitem "last_date" (PStr "2018-12-31") Sample.archive)
         true false
  /\ (forall tok,
        date_token (PStr ("2018" ++ "-" ++ "12" ++ "-" ++ "31")) = Ok tok ->
        tok = "2018" ++ "12" ++ "31").
Proof.
  split; [|split].
  - exact (proj1 (update_mode_end_date_token Sample.archive false) true
             "S1_IW1_005_0117_20150101_XXXXXXXX.he5" eq_refl).
  - exact (proj1 (proj2 (proj2 (update_mode_end_date_token
                                  Sample.archive false)))
             (PStr "2017-02-28") (PStr "2018-12-31")
             "20170228" "20181231" eq_refl eq_refl).
  - intros tok.
    exact (proj2 (proj2 (proj2 (update_mode_end_date_token
                                  Sample.archive false)))
             "2018" "12" "31" tok
             (conj eq_refl eq_refl) eq_refl (conj eq_refl eq_refl)
             (conj eq_refl eq_refl)).
Defined.

(** ** The subset range *)

Lemma round_abs_not_negative (x : float) :
  PyFloat.ltb x PyFloat.zero = false ->
  PyFloat.round (PyFloat.mul (PyFloat.abs x) PyFloat.f1e3)
  = PyFloat.round (PyFloat.mul x PyFloat.f1e3).
Proof.
  destruct x as [[]|[]| |[] m e]; intros H;
    try discriminate H; reflexivity.
Qed.

(** The bound the code builds (lines 305-312) is the bound of the
    specification. *)
Lemma code_bound (pos neg : string) (width : nat) (x : float) (n : Z)
  (b : string) :
  PyFloat.round (PyFloat.mul x PyFloat.f1e3) = Ok n ->
  (if PyFloat.ltb x PyFloat.zero
   then n' <- PyFloat.round (PyFloat.mul (PyFloat.abs x) PyFloat.f1e3) ;;
        Ok (neg ++ PyInt.format_0d width n')
   else Ok (pos ++ PyInt.format_0d width n)) = Ok b ->
  spec_bound pos neg width x = Ok b.
Proof.
  intros Hn; unfold spec_bound.
  destruct (PyFloat.ltb x PyFloat.zero) eqn:E; intros H.
  - exact H.
  - rewrite (round_abs_not_negative x E), Hn; exact H.
Qed.

Lemma subset_range_inv (m : Dict.t pyval) (sub : string) :
  subset_range m = Ok sub ->
  exists lat1 lon0 dy dx l w b1 b2 b3 b4,
    meta_float m "Y_FIRST" lat1 /\ meta_float m "X_FIRST" lon0
    /\ meta_float m "Y_STEP" dy /\ meta_float m "X_STEP" dx
    /\ meta_extent m "LENGTH" l /\ meta_extent m "WIDTH" w
    /\ spec_bound "N" "S" 5 (PyFloat.add lat1 (PyFloat.mul dy l)) = Ok b1
    /\ spec_bound "N" "S" 5 lat1 = Ok b2
    /\ spec_bound "E" "W" 6 lon0 = Ok b3
    /\ spec_bound "E" "W" 6 (PyFloat.add lon0 (PyFloat.mul dx w)) = Ok b4
    /\ sub = "_" ++ b1 ++ "_" ++ b2 ++ "_" ++ b3 ++ "_" ++ b4.
Proof.
  unfold subset_range; cbv beta zeta; intros H.
  do 4 inv_bind H. do 5 inv_bind H. do 5 inv_bind H.
  do 4 inv_bind H. do 4 inv_bind H.
  apply Ok_inj in H; subst sub.
  apply getitem_Ok in E, E1, E3, E5, E8, E10.
  exists x0, x2, x4, x9, x7, x12, x17, x18, x19, x20.
  unfold meta_float, meta_extent.
  repeat match goal with
    | |- _ /\ _ => split
    end; eauto using code_bound.
Qed.

(** In subset mode the range goes between the plain name and its
    extension. *)
Lemma subset_name (m : Dict.t pyval) (u : bool) (name : string) :
  get_output_filename m u true = Ok name ->
  exists base sub,
    subset_range m = Ok sub
    /\ get_output_filename m u false = Ok (base ++ ".he5")
    /\ name = base ++ sub ++ ".he5".
Proof.
  intros H.
  destruct (get_output_filename_shape m u true name H)
    as (head & last & tok & Hl & Ht & Hf & Hs & Hsub).
  destruct (Hsub eq_refl) as [sub Esub].
  exists (head ++ "_" ++ end_token u tok), sub.
  split; [exact Esub|]; split.
  - rewrite Hf, !append_assoc; reflexivity.
  - rewrite (Hs u sub Esub) in H; apply Ok_inj in H; subst name.
    rewrite !append_assoc; reflexivity.
Qed.

(** C4, as the code has it.  In subset mode the name is the plain name
    with the range inserted before [.he5]; each bound is a hemisphere
    letter ([N] or [E] for a coordinate that is not negative, [S] or [W]
    for a negative one) and the absolute value in milli-degrees, rounded
    to the nearest integer, on five digits for a latitude and six for a
    longitude; the bounds come in the order latitude of the last row
    ([Y_FIRST + Y_STEP * LENGTH]), latitude of the first row ([Y_FIRST]),
    longitude of the first column ([X_FIRST]), longitude of the last
    column ([X_FIRST + X_STEP * WIDTH]).  For [X_FIRST = 130.5],
    [Y_FIRST = 32.1], [X_STEP = 0.001], [Y_STEP = -0.001], [WIDTH = 600]
    and [LENGTH = 400] the range is [_N31700_N32100_E130500_E131100]. *)
Theorem subset_range_in_filename (m : Dict.t pyval) (u : bool) :
  (forall name, get_output_filename m u true = Ok name ->
     exists base lat1 lon0 dy dx l w b1 b2 b3 b4,
       meta_float m "Y_FIRST" lat1 /\ meta_float m "X_FIRST" lon0
       /\ meta_float m "Y_STEP" dy /\ meta_float m "X_STEP" dx
       /\ meta_extent m "LENGTH" l /\ meta_extent m "WIDTH" w
       /\ spec_bound "N" "S" 5 (PyFloat.add lat1 (PyFloat.mul dy l)) = Ok b1
       /\ spec_bound "N" "S" 5 lat1 = Ok b2
       /\ spec_bound "E" "W" 6 lon0 = Ok b3
       /\ spec_bound "E" "W" 6 (PyFloat.add lon0 (PyFloat.mul dx w)) = Ok b4
       /\ get_output_filename m u false = Ok (base ++ ".he5")
       /\ name = base ++ "_" ++ b1 ++ "_" ++ b2 ++ "_" ++ b3 ++ "_" ++ b4
                   ++ ".he5")
  /\ (Dict.get "X_FIRST" m = Some (PStr "130.5") ->
      Dict.get "Y_FIRST" m = Some (PStr "32.1") ->
      Dict.get "X_STEP" m = Some (PStr "0.001") ->
      Dict.get "Y_STEP" m = Some (PStr "-0.001") ->
      Dict.get "WIDTH" m = Some (PStr "600") ->
      Dict.get "LENGTH" m = Some (PStr "400") ->
      forall plain, get_output_filename m u false = Ok plain ->
        exists base,
          plain = base ++ ".he5"
          /\ get_output_filename m u true
             = Ok (base ++ "_N31700_N32100_E130500_E131100" ++ ".he5")).
Proof.
  split.
  - intros name H.
    destruct (subset_name m u name H) as (base & sub & Hs & Hp & ->).
    destruct (subset_range_inv m sub Hs)
      as (lat1 & lon0 & dy & dx & l & w & b1 & b2 & b3 & b4 & A1 & A2 & A3
          & A4 & A5 & A6 & B1 & B2 & B3 & B4 & ->).
    exists base, lat1, lon0, dy, dx, l, w, b1, b2, b3, b4.
    repeat (split; [assumption|]).
    rewrite !append_assoc; reflexivity.
  - intros Hx Hy Hdx Hdy Hw Hl plain H.
    assert (Hs : subset_range m = Ok "_N31700_N32100_E130500_E131100").
    { unfold subset_range; cbv beta zeta; unfold Dict.getitem.
      rewrite Hx, Hy, Hdx, Hdy, Hw, Hl; vm_compute; reflexivity. }
    destruct (get_output_filename_shape m u false plain H)
      as (head & last & tok & _ & _ & Hf & Hsub & _).
    exists (head ++ "_" ++ end_token u tok); split.
    + rewrite Hf in H; apply Ok_inj in H; subst plain.
      rewrite !append_assoc; reflexivity.
    + rewrite (Hsub u _ Hs), !append_assoc; reflexivity.
Qed.

Lemma subset_range_in_filename_witness :
  exists base,
    "S1_IW1_005_0117_20150101_20181231.he5" = base ++ ".he5"
    /\ get_output_filename Sample.archive false true
       = Ok (base ++ "_N31700_N32100_E130500_E131100" ++ ".he5").
Proof.
  exact (proj2 (subset_range_in_filename Sample.archive false)
           eq_refl eq_refl eq_refl eq_refl eq_refl eq_refl
           "S1_IW1_005_0117_20150101_20181231.he5" eq_refl).
Defined.

(** The name of the geocoded sample in subset mode. *)
Example subset_name_of_sample :
  get_output_filename Sample.archive false true
  = Ok "S1_IW1_005_0117_20150101_20181231_N31700_N32100_E130500_E131100.he5".
Proof. vm_compute; reflexivity. Qed.

(** The claim C4 as stated fails on a raster stored south-up: with a
    positive [Y_STEP] the first bound of the name is the larger latitude,
    where the order minimum latitude, maximum latitude puts the smaller
    one. *)
Lemma subset_range_order_counterexample :
  exists lat_a dy l lon_a dx w,
    meta_float Sample.south_up "Y_FIRST" lat_a
    /\ meta_float Sample.south_up "Y_STEP" dy
    /\ meta_extent Sample.south_up "LENGTH" l
    /\ meta_float Sample.south_up "X_FIRST" lon_a
    /\ meta_float Sample.south_up "X_STEP" dx
    /\ meta_extent Sample.south_up "WIDTH" w
    /\ min_max_range lat_a (PyFloat.add lat_a (PyFloat.mul dy l))
         lon_a (PyFloat.add lon_a (PyFloat.mul dx w))
       = Ok "_N32100_N32500_E130500_E131100"
    /\ get_output_filename Sample.south_up false true
       = Ok ("S1_IW1_005_0117_20150101_20181231"
               ++ "_N32500_N32100_E130500_E131100" ++ ".he5")
    /\ get_output_filename Sample.south_up false true
       <> Ok ("S1_IW1_005_0117_20150101_20181231"
                ++ "_N32100_N32500_E130500_E131100" ++ ".he5").
Proof.
  do 6 eexists.
  split; [eexists; split; [reflexivity | vm_compute; reflexivity]|].
  split; [eexists; split; [reflexivity | vm_compute; reflexivity]|].
  split; [do 2 eexists; split; [reflexivity|];
          split; vm_compute; reflexivity|].
  split; [eexists; split; [reflexivity | vm_compute; reflexivity]|].
  split; [eexists; split; [reflexivity | vm_compute; reflexivity]|].
  split; [do 2 eexists; split; [reflexivity|];
          split; vm_compute; reflexivity|].
  split; [vm_compute; reflexivity|].
  split; [vm_compute; reflexivity|].
  vm_compute; discriminate.
Qed.

(** ** Determinism of the file name *)

Lemma get_output_filename_ext (m1 m2 : Dict.t pyval) (u s : bool) :
  agree_off_history m1 m2 ->
  get_output_filename m1 u s = get_output_filename m2 u s.
Proof.
  intros H.
  unfold get_output_filename, plain_filename, subset_range.
  cbv beta zeta; unfold Dict.getitem, Dict.mem.
  repeat match goal with
    | |- context [Dict.get ?k m1] => rewrite (H k) by discriminate
    end.
  reflexivity.
Qed.

Lemma same_but_history_refl (m : Dict.t pyval) : same_but_history m m.
Proof. induction m; constructor; auto. Qed.

Lemma same_but_history_setitem (k : string) (v : pyval)
  (m1 m2 : Dict.t pyval) :
  same_but_history m1 m2 ->
  same_but_history (Dict.setitem k v m1) (Dict.setitem k v m2).
Proof.
  induction 1 as [|[k1 v1] [k2 v2] m1 m2 [Hk Hv] Ht IH]; cbn [Dict.setitem].
  - constructor; [split; [reflexivity | intros _; reflexivity] | constructor].
  - cbn [fst snd] in Hk, Hv; subst k2.
    destruct (String.eqb k k1).
    + constructor; [split; [reflexivity | intros _; reflexivity] | exact Ht].
    + constructor; [split; [reflexivity | exact Hv] | exact IH].
Qed.

Lemma same_but_history_set_history (v1 v2 : pyval) (m : Dict.t pyval) :
  same_but_history (Dict.setitem "history" v1 m)
                   (Dict.setitem "history" v2 m).
Proof.
  induction m as [|[k v] m IH]; cbn [Dict.setitem].
  - constructor; [split; [reflexivity | intros H; exfalso; apply H; reflexivity]
                 | constructor].
  - destruct (String.eqb_spec "history" k) as [<-|Hne].
    + constructor; [|apply same_but_history_refl].
      split; [reflexivity | intros H; exfalso; apply H; reflexivity].
    + constructor; [split; [reflexivity | intros _; reflexivity] | exact IH].
Qed.

Lemma update_agree (e1 e2 : Dict.t pyval) :
  same_but_history e1 e2 ->
  forall m1 m2, agree_off_history m1 m2 ->
  agree_off_history (Dict.update m1 e1) (Dict.update m2 e2).
Proof.
  unfold Dict.update.
  induction 1 as [|[k1 v1] [k2 v2] e1 e2 [Hk Hv] _ IH]; intros m1 m2 Hm;
    cbn [fold_left]; [exact Hm|].
  cbn [fst snd] in Hk, Hv |- *; subst k2.
  apply IH; intros k Hne.
  rewrite !get_setitem.
  destruct (String.eqb_spec k k1) as [->|]; [|apply Hm; exact Hne].
  rewrite (Hv Hne); reflexivity.
Qed.

Lemma alike_bind {A B : Type} (R : A -> A -> Prop) (Q : B -> B -> Prop)
  (r1 r2 : result A) (f g : A -> result B) :
  alike R r1 r2 ->
  (forall a b, R a b -> alike Q (f a) (g b)) ->
  alike Q (bind r1 f) (bind r2 g).
Proof.
  destruct r1 as [a|e1], r2 as [b|e2]; cbn [alike bind]; intros H Hf;
    auto; contradiction.
Qed.

Lemma alike_refl {A : Type} (r : result A) : alike eq r r.
Proof. destruct r; reflexivity. Qed.

Lemma alike_assign (k : string) (r : result pyval) (u1 u2 : Dict.t pyval) :
  same_but_history u1 u2 ->
  alike same_but_history (assign k r u1) (assign k r u2).
Proof.
  intros H; unfold assign; destruct r; cbn [bind alike];
    [apply same_but_history_setitem; exact H | reflexivity].
Qed.

Lemma alike_assign_or_pass (k : string) (r : result pyval)
  (u1 u2 : Dict.t pyval) :
  same_but_history u1 u2 ->
  alike same_but_history (assign_or_pass k r u1) (assign_or_pass k r u2).
Proof.
  intros H; rewrite !assign_or_pass_eq; destruct r; cbn [alike];
    [apply same_but_history_setitem; exact H | exact H].
Qed.

Lemma alike_assign_or_default (k : string) (r : result pyval) (d : pyval)
  (u1 u2 : Dict.t pyval) :
  same_but_history u1 u2 ->
  alike same_but_history (assign_or_default k r d u1)
                         (assign_or_default k r d u2).
Proof.
  intros H; rewrite !assign_or_default_eq; cbn [alike].
  apply same_but_history_setitem; exact H.
Qed.

Lemma required_metadata_alike (p : Dict.t string) (now1 now2 : DateTime.t)
  (dates : list string) (u0 : Dict.t pyval) :
  alike same_but_history (required_metadata p now1 dates u0)
                         (required_metadata p now2 dates u0).
Proof.
  unfold required_metadata; cbv zeta.
  repeat match goal with
    | |- alike _ (bind ?r _) (bind ?r _) =>
        destruct r; cbn [bind alike]; [|reflexivity]
    end.
  apply same_but_history_set_history.
Qed.

Lemma recommended_metadata_alike (p : Dict.t string) (u1 u2 : Dict.t pyval) :
  same_but_history u1 u2 ->
  alike same_but_history (recommended_metadata p u1)
                         (recommended_metadata p u2).
Proof.
  intros H; unfold recommended_metadata.
  apply (alike_bind same_but_history).
  { destruct (Dict.mem "frame" p); [apply alike_assign; exact H|].
    destruct (Dict.mem "first_frame" p); [apply alike_assign; exact H|].
    cbn [alike]; apply same_but_history_setitem; exact H. }
  clear u1 u2 H; intros u1 u2 H.
  do 5 (apply (alike_bind same_but_history);
        [first [apply alike_assign_or_pass | apply alike_assign_or_default];
         exact H|];
        clear u1 u2 H; intros u1 u2 H).
  apply (alike_bind eq); [apply alike_refl|]; intros side ? <-; cbv zeta.
  assert (H' : same_but_history
                 (if String.eqb side "-1"
                  then Dict.setitem "look_direction" (PStr "R") u1
                  else Dict.setitem "look_direction" (PStr "L") u1)
                 (if String.eqb side "-1"
                  then Dict.setitem "look_direction" (PStr "R") u2
                  else Dict.setitem "look_direction" (PStr "L") u2))
    by (destruct (String.eqb side "-1");
        apply same_but_history_setitem; exact H).
  revert H'; generalize
    (if String.eqb side "-1"
     then Dict.setitem "look_direction" (PStr "R") u1
     else Dict.setitem "look_direction" (PStr "L") u1)
    (if String.eqb side "-1"
     then Dict.setitem "look_direction" (PStr "R") u2
     else Dict.setitem "look_direction" (PStr "L") u2).
  clear u1 u2 H; intros u1 u2 H.
  do 2 (apply (alike_bind same_but_history);
        [apply alike_assign_or_pass; exact H|];
        clear u1 u2 H; intros u1 u2 H).
  apply alike_assign_or_pass; exact H.
Qed.

Lemma insarmaps_metadata_alike (p : Dict.t string) (u1 u2 : Dict.t pyval) :
  same_but_history u1 u2 ->
  alike same_but_history (insarmaps_metadata p u1) (insarmaps_metadata p u2).
Proof.
  intros H; unfold insarmaps_metadata.
  destruct (Dict.mem "X_FIRST" p); [apply alike_assign; exact H | exact H].
Qed.

(** Two translations of the same source at different times end alike. *)
Lemma metadata_pysar2unavco_alike (now1 now2 : DateTime.t)
  (src : Dict.t string) (dates : list string) :
  alike same_but_history (metadata_pysar2unavco now1 src dates)
                         (metadata_pysar2unavco now2 src dates).
Proof.
  unfold metadata_pysar2unavco.
  apply (alike_bind eq); [apply alike_refl|]; intros p ? <-; cbv zeta.
  apply (alike_bind same_but_history); [apply required_metadata_alike|].
  intros u1 u2 H.
  apply (alike_bind same_but_history);
    [apply recommended_metadata_alike; exact H|].
  clear u1 u2 H; intros u1 u2 H.
  apply insarmaps_metadata_alike; exact H.
Qed.

Lemma prep_metadata_alike (now1 now2 : DateTime.t) (src : Dict.t string)
  (dates : list string) :
  alike agree_off_history (prep_metadata now1 src dates)
                          (prep_metadata now2 src dates).
Proof.
  unfold prep_metadata.
  apply (alike_bind same_but_history); [apply metadata_pysar2unavco_alike|].
  intros u1 u2 H; cbv zeta; cbn [alike].
  intros k Hk; rewrite !get_setitem.
  destruct (String.eqb k "FILE_TYPE"); [reflexivity|].
  apply update_agree; [exact H | intros k' _; reflexivity | exact Hk].
Qed.

(** C5. The file name is a function of the metadata and of the two mode
    flags, and the [history] field does not enter it: two maps that agree
    on every other key get the same name, or the same exception.  The
    wall clock does not enter it either: the program, run on the same
    source at two different times, derives the same name. *)
Theorem filename_deterministic :
  (forall m1 m2 u s,
     agree_off_history m1 m2 ->
     get_output_filename m1 u s = get_output_filename m2 u s)
  /\ (forall m h u s,
        get_output_filename (Dict.setitem "history" h m) u s
        = get_output_filename m u s)
  /\ (forall now1 now2 src dates u s,
        output_name now1 src dates u s = output_name now2 src dates u s).
Proof.
  split; [exact get_output_filename_ext|]; split.
  - intros m h u s; apply get_output_filename_ext.
    intros k Hk; apply get_setitem_other.
    apply String.eqb_neq; exact Hk.
  - intros now1 now2 src dates u s; unfold output_name.
    pose proof (prep_metadata_alike now1 now2 src dates) as H.
    destruct (prep_metadata now1 src dates) as [m1|e1],
             (prep_metadata now2 src dates) as [m2|e2];
      cbn [alike bind] in H |- *; try contradiction.
    + apply get_output_filename_ext; exact H.
    + rewrite H; reflexivity.
Qed.

Lemma filename_deterministic_witness :
  get_output_filename
    (Dict.setitem "history" (PStr "1999-12-31") Sample.archive) false true
  = get_output_filename Sample.archive false true
  /\ output_name Sample.now Sample.geocoded Sample.dates false true
     = output_name (DateTime.mk 2031 1 2 3 4 5 6) Sample.geocoded
         Sample.dates false true.
Proof.
  split.
  - apply (proj1 filename_deterministic).
    intros k Hk; apply get_setitem_other, String.eqb_neq; exact Hk.
  - apply (proj2 (proj2 filename_deterministic)).
Defined.

(** ** The scenario of the specification *)

(** Dates 20150101 to 20181231, Sentinel-1, beam mode IW, swath 1, track
    5, frame 117 and [ANTENNA_SIDE = -1] give mission S1, look direction
    R, the two dates in ISO form, and the name
    [S1_IW1_005_0117_20150101_20181231.he5]. *)
Example end_to_end_scenario :
  exists m,
    prep_metadata Sample.now Sample.radar Sample.dates = Ok m
    /\ Dict.get "mission" m = Some (PStr "S1")
    /\ Dict.get "look_direction" m = Some (PStr "R")
    /\ Dict.get "first_date" m = Some (PStr "2015-01-01")
    /\ Dict.get "last_date" m = Some (PStr "2018-12-31")
    /\ Dict.get "history" m = Some (PStr "2018-03-09")
    /\ get_output_filename m false false
       = Ok "S1_IW1_005_0117_20150101_20181231.he5".
Proof.
  eexists; split; [vm_compute; reflexivity|].
  repeat split; vm_compute; reflexivity.
Qed.

(* ================================================================== *)
(** * Further properties of the code *)
(* ================================================================== *)

(** ** Dictionaries, continued *)

Lemma keys_setitem {V : Type} (k k0 : string) (v : V) (d : Dict.t V) :
  In k (Dict.keys (Dict.setitem k0 v d)) <-> k = k0 \/ In k (Dict.keys d).
Proof.
  induction d as [|[k1 v1] d IH]; simpl.
  - split; [intros [<-|[]]; auto | intros [->|[]]; auto].
  - destruct (String.eqb_spec k0 k1) as [->|Hne]; simpl.
    + split; intros H; intuition (subst; auto).
    + unfold Dict.keys in IH; rewrite IH; split; intros H; intuition auto.
Qed.

Lemma NoDup_setitem {V : Type} (k0 : string) (v : V) (d : Dict.t V) :
  NoDup (Dict.keys d) -> NoDup (Dict.keys (Dict.setitem k0 v d)).
Proof.
  induction d as [|[k1 v1] d IH]; simpl; intros H.
  - constructor; [intros [] | constructor].
  - destruct (String.eqb_spec k0 k1) as [->|Hne]; simpl; [exact H|].
    inversion H as [|? ? Hn Hd]; subst; constructor; [|apply IH; exact Hd].
    intros Hin; apply (keys_setitem k1 k0 v d) in Hin.
    destruct Hin as [->|Hin]; [congruence | contradiction].
Qed.

Lemma get_None_keys {V : Type} (k : string) (d : Dict.t V) :
  Dict.get k d = None <-> ~ In k (Dict.keys d).
Proof.
  induction d as [|[k1 v1] d IH]; simpl; [tauto|].
  destruct (String.eqb_spec k k1) as [->|Hne].
  - split; [discriminate | intros H; exfalso; apply H; auto].
  - rewrite IH; split; intros H; [intros [E|Hin]; [congruence | auto] | auto].
Qed.

Lemma in_keys_get {V : Type} (k : string) (d : Dict.t V) :
  existsb (String.eqb k) (Dict.keys d)
  = match Dict.get k d with Some _ => true | None => false end.
Proof.
  induction d as [|[k1 v1] d IH]; simpl; [reflexivity|].
  destruct (String.eqb k k1); [reflexivity | exact IH].
Qed.

Lemma get_map_PStr (k : string) (d : Dict.t string) :
  Dict.get k (List.map (fun '(k, v) => (k, PStr v)) d)
  = option_map PStr (Dict.get k d).
Proof.
  induction d as [|[k1 v1] d IH]; simpl; [reflexivity|].
  destruct (String.eqb k k1); [reflexivity | exact IH].
Qed.

(** [d.update(e)] reads as [e] where [e] has the key, and as [d]
    elsewhere. *)
Lemma get_update {V : Type} (k : string) (e : Dict.t V) :
  NoDup (Dict.keys e) ->
  forall d, Dict.get k (Dict.update d e)
            = match Dict.get k e with
              | Some v => Some v
              | None => Dict.get k d
              end.
Proof.
  unfold Dict.update.
  induction e as [|[k1 v1] e IH]; simpl; intros Hn d; [reflexivity|].
  inversion Hn as [|? ? Hk He]; subst.
  rewrite (IH He), get_setitem.
  destruct (String.eqb_spec k k1) as [->|Hne]; [|reflexivity].
  apply get_None_keys in Hk; rewrite Hk; reflexivity.
Qed.

Lemma get_pass_eq (k k0 : string) (r : result pyval) (u : Dict.t pyval) :
  Dict.get k (match r with Ok v => Dict.setitem k0 v u | Raise _ => u end)
  = match r with
    | Ok v => if String.eqb k k0 then Some v else Dict.get k u
    | Raise _ => Dict.get k u
    end.
Proof. destruct r; [apply get_setitem | reflexivity]. Qed.

Lemma within_nil (L : list string) : within L [].
Proof. split; [constructor | intros k []]. Qed.

Lemma within_setitem (L : list string) (k : string) (v : pyval)
  (d : Dict.t pyval) :
  In k L -> within L d -> within L (Dict.setitem k v d).
Proof.
  intros Hk [Hn Hi]; split; [apply NoDup_setitem; exact Hn|].
  intros k' H; apply keys_setitem in H as [->|H]; [exact Hk | apply Hi, H].
Qed.

Lemma within_pass (L : list string) (k : string) (r : result pyval)
  (d : Dict.t pyval) :
  In k L -> within L d ->
  within L (match r with Ok v => Dict.setitem k v d | Raise _ => d end).
Proof. intros Hk H; destruct r; [apply within_setitem|]; assumption. Qed.

Lemma within_branch (L : list string) (k : string) (b : bool)
  (v1 v2 : pyval) (d : Dict.t pyval) :
  In k L -> within L d ->
  within L (if b then Dict.setitem k v1 d else Dict.setitem k v2 d).
Proof. intros Hk H; destruct b; apply within_setitem; assumption. Qed.

(** ** The aliasing loop, continued *)

Lemma writes_self (k : string) : writes k k = true.
Proof.
  unfold writes, alias_targets; cbn [existsb]; rewrite String.eqb_refl.
  reflexivity.
Qed.

Lemma writes_plain (k t : string) :
  plain_key k = true -> writes k t = String.eqb t k.
Proof.
  unfold plain_key, writes, alias_targets; intros H.
  apply andb_prop in H as [H1 H2].
  apply negb_true_iff in H1, H2; rewrite H1, H2; cbn [existsb app].
  apply orb_false_r.
Qed.

Lemma last_writer_member (t k : string) (ks : list string) :
  last_writer t ks = Some k -> In k ks.
Proof.
  revert k; induction ks as [|a ks IH]; [discriminate|]; cbn [last_writer].
  intros k; destruct (last_writer t ks) as [b|].
  - intros [= <-]; right; apply IH; reflexivity.
  - destruct (writes a t); [intros [= <-]; left; reflexivity | discriminate].
Qed.

Lemma last_writer_In (t : string) (ks : list string) :
  In t ks -> exists k, last_writer t ks = Some k /\ In k ks.
Proof.
  induction ks as [|k ks IH]; intros H; [destruct H|].
  cbn [last_writer].
  destruct (last_writer t ks) as [k'|] eqn:E.
  - exists k'; split; [reflexivity|].
    right; apply (last_writer_member t k' ks E).
  - destruct H as [->|H].
    + rewrite writes_self; exists t; split; [reflexivity | left; reflexivity].
    + destruct (IH H) as (k' & E' & _); congruence.
Qed.

Lemma last_writer_plain (t : string) (ks : list string) :
  forallb plain_key ks = true ->
  last_writer t ks = if existsb (String.eqb t) ks then Some t else None.
Proof.
  induction ks as [|k ks IH]; [reflexivity|]; cbn [forallb existsb].
  intros H; apply andb_prop in H as [Hk Hks].
  cbn [last_writer]; rewrite (IH Hks), (writes_plain k t Hk).
  destruct (existsb (String.eqb t) ks); [rewrite orb_true_r; reflexivity|].
  rewrite orb_false_r.
  destruct (String.eqb_spec t k) as [->|]; reflexivity.
Qed.

(** X1. The aliasing loop of [metadata_pysar2unavco] never raises.  In
    the copy it builds, a key holds the value of the last source key, in
    iteration order, that is stored under it: the key itself, or a key
    that carries it after a marker [unavco.] or [hdfEos5.].  Every key of
    the source is a key of the copy, and a source none of whose keys has
    a marker is copied as it is. *)
Theorem aliasing_is_total_and_keeps_the_source (src : Dict.t string) :
  exists p, alias_keys src = Ok p
    /\ (forall t, Dict.get t p
                  = match last_writer t (Dict.keys src) with
                    | Some k => Dict.get k src
                    | None => None
                    end)
    /\ (forall k, Dict.mem k src = true -> Dict.mem k p = true)
    /\ (forallb plain_key (Dict.keys src) = true ->
        forall t, Dict.get t p = Dict.get t src).
Proof.
  destruct (alias_keys_get src) as (p & Hp & G).
  exists p; split; [exact Hp|]; split; [exact G|]; split.
  - intros k Hk; unfold Dict.mem in *; rewrite G.
    assert (Hin : In k (Dict.keys src)).
    { destruct (Dict.get k src) eqn:E; [|discriminate Hk].
      destruct (in_dec string_dec k (Dict.keys src)) as [|Hn]; [assumption|].
      apply get_None_keys in Hn; congruence. }
    destruct (last_writer_In k _ Hin) as (k' & -> & Hin').
    destruct (get_in_keys k' src Hin') as [v ->]; reflexivity.
  - intros Hplain t; rewrite G, (last_writer_plain t _ Hplain), in_keys_get.
    destruct (Dict.get t src) eqn:E; [exact E | reflexivity].
Qed.

Lemma aliasing_is_total_and_keeps_the_source_witness :
  forallb plain_key (Dict.keys Sample.radar) = true
  /\ exists p, alias_keys Sample.radar = Ok p
       /\ forall t, Dict.get t p = Dict.get t Sample.radar.
Proof.
  split; [reflexivity|].
  destruct (aliasing_is_total_and_keeps_the_source Sample.radar)
    as (p & Hp & _ & _ & H).
  exists p; split; [exact Hp | exact (H eq_refl)].
Defined.

(** ** The recommended fields *)

Ltac peel :=
  repeat first
    [ rewrite get_pass by reflexivity
    | rewrite get_branch by reflexivity
    | rewrite get_setitem_other by reflexivity ].

Lemma str_item_eq (p : Dict.t string) (k : string) :
  str_item p k = match Dict.get k p with
                 | Some v => Ok (PStr v)
                 | None => Raise (KeyError k)
                 end.
Proof.
  unfold str_item, item, Dict.getitem; destruct (Dict.get k p); reflexivity.
Qed.


(** What [recommended_metadata] has read when it returns, and what it
    returns. *)
Lemma recommended_metadata_form (p : Dict.t string) (u u' : Dict.t pyval) :
  recommended_metadata p u = Ok u' ->
  exists vf side,
    frame_value p = Ok vf
    /\ Dict.get "ANTENNA_SIDE" p = Some side
    /\ u' = recommended_result p vf side u.
Proof.
  unfold recommended_metadata; intros H.
  inv_bind H.
  assert (Hf : exists vf, frame_value p = Ok vf
                          /\ x = Dict.setitem "frame" vf u).
  { unfold frame_value.
    destruct (Dict.mem "frame" p);
      [|destruct (Dict.mem "first_frame" p)];
      try (apply assign_Ok_inv in E as (v & Ev & ->); eauto).
    injection E as <-; eauto. }
  destruct Hf as (vf & Hvf & ->); clear E.
  rewrite assign_or_pass_eq in H; cbn [bind] in H.
  rewrite assign_or_default_eq in H; cbn [bind] in H.
  do 3 (rewrite assign_or_pass_eq in H; cbn [bind] in H).
  inv_item H. cbv zeta in H.
  do 2 (rewrite assign_or_pass_eq in H; cbn [bind] in H).
  rewrite assign_or_pass_eq in H; injection H as <-.
  exists vf, x; repeat split; assumption.
Qed.

Lemma recommended_result_within (p : Dict.t string) (vf : pyval)
  (side : string) (u : Dict.t pyval) :
  within archive_keys u -> within archive_keys (recommended_result p vf side u).
Proof.
  intros H; unfold recommended_result; cbv zeta.
  repeat first [ apply within_pass; [simpl; tauto|]
               | apply within_branch; [simpl; tauto|]
               | apply within_setitem; [simpl; tauto|] ].
  exact H.
Qed.

Lemma metadata_pysar2unavco_within (now : DateTime.t) (src : Dict.t string)
  (dates : list string) (out : Dict.t pyval) :
  metadata_pysar2unavco now src dates = Ok out -> within archive_keys out.
Proof.
  intros H.
  apply metadata_pysar2unavco_inv in H as (p & u1 & u2 & Hp & H1 & H2 & H3).
  apply required_metadata_inv in H1
    as (m & bm & ro & z & d0 & dl & fd & ld & lon1 & lon2 & lon3 & lon4
        & lat1 & lat2 & lat3 & lat4 & _ & _ & _ & _ & _ & _ & _ & _ & _ & _
        & _ & _ & _ & _ & _ & _ & Hu1).
  assert (W1 : within archive_keys u1).
  { rewrite Hu1; repeat (apply within_setitem; [simpl; tauto|]).
    apply within_nil. }
  apply recommended_metadata_form in H2 as (vf & side & _ & _ & ->).
  apply insarmaps_metadata_inv in H3.
  pose proof (recommended_result_within p vf side u1 W1) as W.
  destruct (Dict.get "X_FIRST" p).
  - destruct H3 as (v & _ & ->); apply within_setitem; [simpl; tauto|exact W].
  - subst out; exact W.
Qed.

(** The parts of a result of the translation. *)
Lemma metadata_pysar2unavco_parts (now : DateTime.t) (src : Dict.t string)
  (dates : list string) (out : Dict.t pyval) :
  metadata_pysar2unavco now src dates = Ok out ->
  exists p u1 vf side,
    alias_keys src = Ok p
    /\ required_metadata p now dates [] = Ok u1
    /\ frame_value p = Ok vf
    /\ Dict.get "ANTENNA_SIDE" p = Some side
    /\ forall k, String.eqb k "data_footprint" = false ->
         Dict.get k out = Dict.get k (recommended_result p vf side u1).
Proof.
  intros H.
  apply metadata_pysar2unavco_inv in H as (p & u1 & u2 & Hp & H1 & H2 & H3).
  apply recommended_metadata_form in H2 as (vf & side & Hf & Hs & ->).
  apply insarmaps_metadata_inv in H3.
  exists p, u1, vf, side; repeat (split; [assumption|]).
  intros k Hk; destruct (Dict.get "X_FIRST" p); [|subst; reflexivity].
  destruct H3 as (v & _ & ->); apply get_setitem_other; exact Hk.
Qed.

Lemma frame_value_source (p : Dict.t string) (vf : pyval) :
  frame_value p = Ok vf ->
  match frame_source p with
  | Some s => exists z, PyInt.of_string s = Ok z /\ vf = PInt z
  | None => vf = PInt 0
  end.
Proof.
  unfold frame_value, frame_source, Dict.mem, int_item, item, Dict.getitem.
  destruct (Dict.get "frame" p) as [s|];
    [|destruct (Dict.get "first_frame" p) as [s|]]; cbn [bind];
    try (destruct (PyInt.of_string s) as [z|]; cbn [bind]; intros H;
         [|discriminate H]; exists z; split; [reflexivity|];
         apply Ok_inj in H; symmetry; exact H).
  intros H; apply Ok_inj in H; symmetry; exact H.
Qed.


(** X2. In a result of the translation, [frame] is the integer read from
    the [frame] of the aliased map if it has that key, else from its
    [first_frame], and [0] when it has neither. *)
Theorem frame_number_of_archive (now : DateTime.t) (src : Dict.t string)
  (dates : list string) (out : Dict.t pyval) :
  metadata_pysar2unavco now src dates = Ok out ->
  exists p, alias_keys src = Ok p
    /\ match frame_source p with
       | Some s => exists z, PyInt.of_string s = Ok z
                             /\ Dict.get "frame" out = Some (PInt z)
       | None => Dict.get "frame" out = Some (PInt 0)
       end.
Proof.
  intros H.
  apply metadata_pysar2unavco_parts in H
    as (p & u1 & vf & side & Hp & _ & Hf & _ & G).
  exists p; split; [exact Hp|].
  assert (E : Dict.get "frame" out = Some vf).
  { rewrite G by reflexivity; unfold recommended_result; cbv zeta.
    peel; apply get_setitem_same. }
  apply frame_value_source in Hf.
  destruct (frame_source p) as [s|].
  - destruct Hf as (z & Hz & ->); eauto.
  - subst vf; exact E.
Qed.

Lemma frame_number_of_archive_witness :
  exists p, alias_keys Cases.full = Ok p
    /\ match frame_source p with
       | Some s => exists z, PyInt.of_string s = Ok z
                             /\ Dict.get "frame" Cases.translated
                                = Some (PInt z)
       | None => Dict.get "frame" Cases.translated = Some (PInt 0)
       end.
Proof.
  apply (frame_number_of_archive Sample.now Cases.full Sample.dates).
  vm_compute; reflexivity.
Defined.

(** X3. A result of the translation always holds [processing_type] and
    [post_processing_method]: the value of the aliased map where it has
    the key, and [LOS_TIMESERIES] and [PYSAR] where it has not. *)
Theorem processing_defaults (now : DateTime.t) (src : Dict.t string)
  (dates : list string) (out : Dict.t pyval) :
  metadata_pysar2unavco now src dates = Ok out ->
  exists p, alias_keys src = Ok p
    /\ Dict.get "processing_type" out
       = Some (PStr (with_default (Dict.get "processing_type" p)
                       "LOS_TIMESERIES"))
    /\ Dict.get "post_processing_method" out
       = Some (PStr (with_default (Dict.get "post_processing_method" p)
                       "PYSAR")).
Proof.
  intros H.
  apply metadata_pysar2unavco_parts in H
    as (p & u1 & vf & side & Hp & H1 & _ & _ & G).
  exists p; split; [exact Hp|]; split.
  - rewrite G by reflexivity; unfold recommended_result; cbv zeta; peel.
    apply required_metadata_inv in H1
      as (m & bm & ro & z & d0 & dl & fd & ld & lon1 & lon2 & lon3 & lon4
          & lat1 & lat2 & lat3 & lat4 & _ & _ & _ & _ & _ & _ & _ & _ & _
          & _ & _ & _ & _ & _ & _ & _ & ->).
    peel; rewrite get_setitem_same, str_item_eq.
    destruct (Dict.get "processing_type" p); reflexivity.
  - rewrite G by reflexivity; unfold recommended_result; cbv zeta; peel.
    rewrite get_setitem_same, str_item_eq.
    destruct (Dict.get "post_processing_method" p); reflexivity.
Qed.

Lemma processing_defaults_witness :
  exists p, alias_keys Cases.full = Ok p
    /\ Dict.get "processing_type" Cases.translated
       = Some (PStr (with_default (Dict.get "processing_type" p)
                       "LOS_TIMESERIES"))
    /\ Dict.get "post_processing_method" Cases.translated
       = Some (PStr (with_default (Dict.get "post_processing_method" p)
                       "PYSAR")).
Proof.
  apply (processing_defaults Sample.now Cases.full Sample.dates).
  vm_compute; reflexivity.
Defined.



(** X5. In a result of the translation, [look_direction] is [R] when
    the [ANTENNA_SIDE] of the aliased map is exactly the text [-1], and
    [L] for any other value; [flight_direction] is the first character of
    [ORBIT_DIRECTION] in upper case, and is absent when the key is
    missing or its value is empty. *)
Theorem flight_and_look_direction (now : DateTime.t) (src : Dict.t string)
  (dates : list string) (out : Dict.t pyval) :
  metadata_pysar2unavco now src dates = Ok out ->
  exists p side, alias_keys src = Ok p
    /\ Dict.get "ANTENNA_SIDE" p = Some side
    /\ Dict.get "look_direction" out
       = Some (PStr (if String.eqb side "-1" then "R" else "L"))
    /\ Dict.get "flight_direction" out = initial p "ORBIT_DIRECTION".
Proof.
  intros H.
  apply metadata_pysar2unavco_parts in H
    as (p & u1 & vf & side & Hp & H1 & _ & Hs & G).
  exists p, side; repeat (split; [assumption|]); split.
  - rewrite G by reflexivity; unfold recommended_result; cbv zeta.
    peel; destruct (String.eqb side "-1"); apply get_setitem_same.
  - rewrite G by reflexivity; unfold recommended_result; cbv zeta.
    peel; rewrite get_pass_eq; cbn [String.eqb Ascii.eqb Bool.eqb].
    peel.
    apply required_metadata_inv in H1
      as (m & bm & ro & z & d0 & dl & fd & ld & lon1 & lon2 & lon3 & lon4
          & lat1 & lat2 & lat3 & lat4 & _ & _ & _ & _ & _ & _ & _ & _ & _
          & _ & _ & _ & _ & _ & _ & _ & ->).
    peel; unfold initial, item, Dict.getitem.
    destruct (Dict.get "ORBIT_DIRECTION" p) as [[|c s]|]; reflexivity.
Qed.

Lemma flight_and_look_direction_witness :
  exists p side, alias_keys Cases.full = Ok p
    /\ Dict.get "ANTENNA_SIDE" p = Some side
    /\ Dict.get "look_direction" Cases.translated
       = Some (PStr (if String.eqb side "-1" then "R" else "L"))
    /\ Dict.get "flight_direction" Cases.translated
       = initial p "ORBIT_DIRECTION".
Proof.
  apply (flight_and_look_direction Sample.now Cases.full Sample.dates).
  vm_compute; reflexivity.
Defined.

(** X6. A result of the translation has no key outside the twenty of the
    archive metadata (the required ones, [processing_type], the
    recommended ones and [data_footprint]): no other attribute of the
    source gets into it.  Beyond the required keys it always holds
    [processing_type], [frame], [post_processing_method] and
    [look_direction]. *)
Theorem archive_keys_only (now : DateTime.t) (src : Dict.t string)
  (dates : list string) (out : Dict.t pyval) :
  metadata_pysar2unavco now src dates = Ok out ->
  (forall k, In k (Dict.keys out) -> In k archive_keys)
  /\ (forall k, In k always_keys -> Dict.mem k out = true).
Proof.
  intros H; split.
  - apply (proj2 (metadata_pysar2unavco_within now src dates out H)).
  - intros k Hk; unfold Dict.mem.
    apply metadata_pysar2unavco_parts in H
      as (p & u1 & vf & side & Hp & H1 & _ & _ & G).
    apply required_metadata_inv in H1
      as (m & bm & ro & z & d0 & dl & fd & ld & lon1 & lon2 & lon3 & lon4
          & lat1 & lat2 & lat3 & lat4 & _ & _ & _ & _ & _ & _ & _ & _ & _
          & _ & _ & _ & _ & _ & _ & _ & ->).
    simpl in Hk; repeat destruct Hk as [<-|Hk]; [..|contradiction];
      rewrite G by reflexivity; unfold recommended_result; cbv zeta; peel.
    + rewrite get_setitem_same; reflexivity.
    + rewrite get_setitem_same; reflexivity.
    + rewrite get_setitem_same; reflexivity.
    + destruct (String.eqb side "-1"); rewrite get_setitem_same; reflexivity.
Qed.

Lemma archive_keys_only_witness :
  (forall k, In k (Dict.keys Cases.translated) -> In k archive_keys)
  /\ (forall k, In k always_keys -> Dict.mem k Cases.translated = true).
Proof.
  apply (archive_keys_only Sample.now Cases.full Sample.dates).
  vm_compute; reflexivity.
Defined.

(** ** Dates *)

Lemma iso_fields_all :
  forallb (fun m => forallb (iso_fields_check m) (upto 31)) (upto 12) = true.
Proof. vm_compute; reflexivity. Qed.

Lemma compact_fields_all :
  forallb (fun e => forallb (fun f => forallb (fun g =>
    forallb (compact_fields_check e f g) digit_chars)
    digit_chars) digit_chars) digit_chars = true.
Proof. vm_compute; reflexivity. Qed.

Lemma width_four_all : forallb (width_check 4) (upto 9999) = true.
Proof. vm_compute; reflexivity. Qed.

Lemma width_two_all : forallb (width_check 2) (upto 31) = true.
Proof. vm_compute; reflexivity. Qed.

Lemma in_upto (n z : Z) : 1 <= z <= n -> In z (upto n).
Proof.
  intros H; unfold upto; apply in_map_iff.
  exists (Z.to_nat z); split; [lia|]; apply in_seq; lia.
Qed.

Lemma valid_date_bounds (y m d : Z) :
  DateTime.valid_date y m d = true ->
  1 <= y <= 9999 /\ 1 <= m <= 12 /\ 1 <= d <= 31.
Proof.
  unfold DateTime.valid_date, DateTime.days_in_month; intros H.
  repeat (apply andb_prop in H; destruct H as [H ?]).
  repeat match goal with
    | A : (_ <=? _) = true |- _ => apply Z.leb_le in A
    end.
  split; [lia|]; split; [lia|]; split; [lia|].
  destruct (m =? 2); [destruct (DateTime.is_leap y); lia|].
  destruct ((m =? 4) || (m =? 6) || (m =? 9) || (m =? 11))%bool; lia.
Qed.

(** The first ten characters of the ISO form of a valid date and time
    are its date. *)
Lemma take_iso_day (t : DateTime.t) :
  DateTime.valid_date (DateTime.year t) (DateTime.month t) (DateTime.day t)
  = true ->
  Str.take 10 (DateTime.isoformat t) = iso_day t
  /\ String.length (iso_day t) = 10%nat.
Proof.
  intros Hv.
  pose proof (valid_date_bounds _ _ _ Hv) as (Hy & Hm & Hd).
  pose proof width_four_all as W4; rewrite forallb_forall in W4.
  pose proof width_two_all as W2; rewrite forallb_forall in W2.
  pose proof (W4 _ (in_upto 9999 _ Hy)) as Ly.
  assert (Hm' : 1 <= DateTime.month t <= 31) by lia.
  pose proof (W2 _ (in_upto 31 _ Hm')) as Lm.
  pose proof (W2 _ (in_upto 31 _ Hd)) as Ld.
  unfold width_check in Ly, Lm, Ld.
  unfold DateTime.isoformat, iso_day.
  destruct (PyInt.format_0d 4 (DateTime.year t))
    as [|a [|b [|c [|d [|]]]]]; try discriminate Ly.
  destruct (PyInt.format_0d 2 (DateTime.month t))
    as [|e [|f [|]]]; try discriminate Lm.
  destruct (PyInt.format_0d 2 (DateTime.day t))
    as [|g [|h [|]]]; try discriminate Ld.
  split; reflexivity.
Qed.

(** X7. The [history] of a result of the translation is the day of the
    clock reading in the form [YYYY-MM-DD], ten characters: the time of
    day takes no part in it. *)
Theorem history_is_the_day_of_the_clock (now : DateTime.t)
  (src : Dict.t string) (dates : list string) (out : Dict.t pyval) :
  DateTime.valid_date (DateTime.year now) (DateTime.month now)
    (DateTime.day now) = true ->
  metadata_pysar2unavco now src dates = Ok out ->
  Dict.get "history" out = Some (PStr (iso_day now))
  /\ String.length (iso_day now) = 10%nat.
Proof.
  intros Hv H.
  destruct (take_iso_day now Hv) as [Et El]; split; [|exact El].
  apply metadata_pysar2unavco_parts in H
    as (p & u1 & vf & side & _ & H1 & _ & _ & G).
  rewrite G by reflexivity; unfold recommended_result; cbv zeta; peel.
  apply required_metadata_inv in H1
    as (m & bm & ro & z & d0 & dl & fd & ld & lon1 & lon2 & lon3 & lon4
        & lat1 & lat2 & lat3 & lat4 & _ & _ & _ & _ & _ & _ & _ & _ & _
        & _ & _ & _ & _ & _ & _ & _ & ->).
  rewrite get_setitem_same, Et; reflexivity.
Qed.

Lemma history_is_the_day_of_the_clock_witness :
  Dict.get "history" Cases.translated = Some (PStr (iso_day Sample.now))
  /\ String.length (iso_day Sample.now) = 10%nat.
Proof.
  apply (history_is_the_day_of_the_clock Sample.now Cases.full Sample.dates).
  - reflexivity.
  - vm_compute; reflexivity.
Defined.

Lemma list_last_ends {A : Type} (d0 : A) (mid : list A) (dl : A) :
  list_last (d0 :: mid ++ [dl]) = Ok dl.
Proof.
  unfold list_last; cbn [rev]; rewrite rev_app_distr; reflexivity.
Qed.

(** X8. Of the date list, [prep_metadata] reads the first and the last
    entry only: the entries between them, valid dates or not, change
    neither its result nor whether it raises. *)
Theorem dates_between_are_not_read (now : DateTime.t) (src : Dict.t string)
  (d0 dl : string) (mid : list string) :
  prep_metadata now src (d0 :: mid ++ [dl]) = prep_metadata now src [d0; dl].
Proof.
  unfold prep_metadata, metadata_pysar2unavco, required_metadata.
  rewrite (list_last_ends d0 mid dl).
  reflexivity.
Qed.

(** ** [prep_metadata] *)

Lemma prep_metadata_get (now : DateTime.t) (src : Dict.t string)
  (dates : list string) (m : Dict.t pyval) :
  prep_metadata now src dates = Ok m ->
  exists out,
    metadata_pysar2unavco now src dates = Ok out
    /\ Dict.get "FILE_TYPE" m = Some (PStr "HDFEOS")
    /\ forall k, String.eqb k "FILE_TYPE" = false ->
         Dict.get k m = match Dict.get k out with
                        | Some v => Some v
                        | None => option_map PStr (Dict.get k src)
                        end.
Proof.
  unfold prep_metadata; intros H; inv_bind H; cbv zeta in H.
  injection H as <-.
  exists x; split; [exact E|]; split; [apply get_setitem_same|].
  intros k Hk; rewrite get_setitem_other by exact Hk.
  rewrite get_update by (apply (metadata_pysar2unavco_within _ _ _ _ E)).
  rewrite get_map_PStr; reflexivity.
Qed.

(** X9. The metadata [prep_metadata] returns hold [FILE_TYPE = HDFEOS],
    whatever the source says; under any other key they hold the
    translated value where the translation has one, and the attribute of
    the source, unchanged, elsewhere.  The source map is read before the
    aliasing: a key that exists only behind a marker stays behind it. *)
Theorem prep_metadata_merges_over_the_source (now : DateTime.t)
  (src : Dict.t string) (dates : list string) (m : Dict.t pyval) :
  prep_metadata now src dates = Ok m ->
  exists out,
    metadata_pysar2unavco now src dates = Ok out
    /\ Dict.get "FILE_TYPE" m = Some (PStr "HDFEOS")
    /\ forall k, k <> "FILE_TYPE" ->
         Dict.get k m = match Dict.get k out with
                        | Some v => Some v
                        | None => option_map PStr (Dict.get k src)
                        end.
Proof.
  intros H; apply prep_metadata_get in H as (out & Ho & Hf & G).
  exists out; split; [exact Ho|]; split; [exact Hf|].
  intros k Hk; apply G, String.eqb_neq; exact Hk.
Qed.

Lemma prep_metadata_merges_over_the_source_witness :
  exists out,
    metadata_pysar2unavco Sample.now Cases.full Sample.dates = Ok out
    /\ Dict.get "FILE_TYPE" Cases.prepared = Some (PStr "HDFEOS")
    /\ forall k, k <> "FILE_TYPE" ->
         Dict.get k Cases.prepared
         = match Dict.get k out with
           | Some v => Some v
           | None => option_map PStr (Dict.get k Cases.full)
           end.
Proof.
  apply (prep_metadata_merges_over_the_source Sample.now Cases.full
           Sample.dates).
  vm_compute; reflexivity.
Defined.

(** ** The format of the name *)

Lemma append_nil_r (s : string) : s ++ "" = s.
Proof. induction s; simpl; congruence. Qed.

(** What [plain_filename] has read when it returns, and the name it
    returns. *)
Lemma plain_filename_format (m : Dict.t pyval) (u : bool) (name : string) :
  plain_filename m u = Ok name ->
  exists sat sw bs vro ro vfr fr f1 f2 v1 t1 v2 t2,
    Dict.get "mission" m = Some (PStr sat)
    /\ Dict.get "beam_mode" m = Some (PStr sw)
    /\ Dict.get "beam_swath" m = Some bs
    /\ Dict.get "relative_orbit" m = Some vro /\ py_int vro = Ok ro
    /\ Dict.get "frame" m = Some vfr /\ py_int vfr = Ok fr
    /\ int_under m "first_frame" fr f1
    /\ opt_int_under m "last_frame" f2
    /\ Dict.get "first_date" m = Some v1 /\ date_token v1 = Ok t1
    /\ Dict.get "last_date" m = Some v2 /\ date_token v2 = Ok t2
    /\ name = sat ++ "_" ++ sw ++ swath_suffix bs ++ "_"
              ++ PyInt.format_0d 3 ro ++ "_" ++ frame_token f1 f2 ++ "_"
              ++ t1 ++ "_" ++ end_token u t2 ++ ".he5".
Proof.
  unfold plain_filename; cbv beta zeta; intros H.
  do 14 inv_bind H.
  inv_bind H. destruct x; try discriminate E13. injection E13 as <-.
  inv_bind H. destruct x2; try discriminate E13. injection E13 as <-.
  inv_bind H. injection E13 as <-.
  apply Ok_inj in H; cbn [py_str] in H.
  apply getitem_Ok in E, E0, E1, E3, E5, E9, E11.
  assert (Hsw : exists sw, x0 = PStr sw /\ s0 = sw ++ swath_suffix x1).
  { unfold swath_suffix; destruct (py_truthy x1).
    - rewrite (proj2 (getitem_Ok m "beam_swath" x1) E1) in E2.
      cbn [bind] in E2; destruct x0; try discriminate E2.
      cbn [str_add] in E2; apply Ok_inj in E2; injection E2 as <-; eauto.
    - apply Ok_inj in E2; subst x0; exists s0; split; [reflexivity|].
      symmetry; apply append_nil_r. }
  destruct Hsw as (sw & -> & ->).
  assert (Hf1 : int_under m "first_frame" x6 x7).
  { unfold int_under; unfold Dict.mem, Dict.getitem in E7.
    destruct (Dict.get "first_frame" m); cbn [bind] in E7;
      [exact E7 | apply Ok_inj in E7; symmetry; exact E7]. }
  assert (Hf2 : exists f2, opt_int_under m "last_frame" f2
                           /\ x8 = frame_token x7 f2).
  { unfold opt_int_under, frame_token; unfold Dict.mem, Dict.getitem in E8.
    destruct (Dict.get "last_frame" m); cbn [bind] in E8.
    - inv_bind E8; apply Ok_inj in E8; exists (Some x); split; [eauto|].
      subst x8; destruct (x =? x7); cbn [negb];
        [symmetry; apply append_nil_r | reflexivity].
    - apply Ok_inj in E8; exists None; split; [reflexivity|].
      subst x8; symmetry; apply append_nil_r. }
  destruct Hf2 as (f2 & Hf2 & ->).
  exists s, sw, x1, x3, x4, x5, x6, x7, f2, x9, (DateTime.strftime_Ymd x10),
    x11, (DateTime.strftime_Ymd x12).
  repeat (split; [assumption|]).
  split; [unfold date_token; rewrite E10; reflexivity|].
  split; [assumption|].
  split; [unfold date_token; rewrite E12; reflexivity|].
  subst name; unfold end_token; rewrite !append_assoc; reflexivity.
Qed.

Lemma date_token_ends (v : pyval) (tok : string) :
  date_token v = Ok tok -> ends_in_digit tok.
Proof.
  unfold date_token; intros H; inv_bind H; apply Ok_inj in H; subst tok.
  apply strftime_ends.
Qed.

(** X10. A name [get_output_filename] returns is
    [<mission>_<beam mode><swath>_<track>_<frame>_<first date>_<end>]
    followed by the subset range, if asked for, and by [.he5].  The
    mission and the beam mode are texts; the swath is printed unless it
    is false (zero, empty or [None]); the track has three digits at
    least; the frame is [first_frame] if the metadata have it, else
    [frame], with four digits at least, followed by [_<last_frame>] when
    [last_frame] is given and differs; the dates are [first_date] and
    [last_date] reformatted, or [XXXXXXXX] for the end in the update
    mode. *)
Theorem filename_format (m : Dict.t pyval) (u s : bool) (name : string) :
  get_output_filename m u s = Ok name ->
  exists sat sw bs vro ro vfr fr f1 f2 v1 t1 v2 t2 sub,
    Dict.get "mission" m = Some (PStr sat)
    /\ Dict.get "beam_mode" m = Some (PStr sw)
    /\ Dict.get "beam_swath" m = Some bs
    /\ Dict.get "relative_orbit" m = Some vro /\ py_int vro = Ok ro
    /\ Dict.get "frame" m = Some vfr /\ py_int vfr = Ok fr
    /\ int_under m "first_frame" fr f1
    /\ opt_int_under m "last_frame" f2
    /\ Dict.get "first_date" m = Some v1 /\ date_token v1 = Ok t1
    /\ Dict.get "last_date" m = Some v2 /\ date_token v2 = Ok t2
    /\ (if s then subset_range m = Ok sub else sub = "")
    /\ name = sat ++ "_" ++ sw ++ swath_suffix bs ++ "_"
              ++ PyInt.format_0d 3 ro ++ "_" ++ frame_token f1 f2 ++ "_"
              ++ t1 ++ "_" ++ end_token u t2 ++ sub ++ ".he5".
Proof.
  unfold get_output_filename; intros H; inv_bind H.
  apply plain_filename_format in E
    as (sat & sw & bs & vro & ro & vfr & fr & f1 & f2 & v1 & t1 & v2 & t2
        & A1 & A2 & A3 & A4 & B4 & A5 & B5 & F1 & F2 & A6 & B6 & A7 & B7
        & ->).
  destruct s.
  - inv_bind H; apply Ok_inj in H.
    exists sat, sw, bs, vro, ro, vfr, fr, f1, f2, v1, t1, v2, t2, x.
    repeat (split; [assumption|]).
    subst name.
    replace (sat ++ "_" ++ sw ++ swath_suffix bs ++ "_"
               ++ PyInt.format_0d 3 ro ++ "_" ++ frame_token f1 f2 ++ "_"
               ++ t1 ++ "_" ++ end_token u t2 ++ ".he5")
      with ((sat ++ "_" ++ sw ++ swath_suffix bs ++ "_"
               ++ PyInt.format_0d 3 ro ++ "_" ++ frame_token f1 f2 ++ "_"
               ++ t1) ++ "_" ++ end_token u t2 ++ ".he5")
      by (rewrite !append_assoc; reflexivity).
    rewrite (splitext_name _ t2 u (date_token_ends v2 t2 B7)).
    cbn [fst snd]; rewrite !append_assoc; reflexivity.
  - apply Ok_inj in H.
    exists sat, sw, bs, vro, ro, vfr, fr, f1, f2, v1, t1, v2, t2, "".
    repeat (split; [assumption|]).
    split; [reflexivity | symmetry; exact H].
Qed.

Lemma filename_format_witness :
  exists sat sw bs vro ro vfr fr f1 f2 v1 t1 v2 t2 sub,
    Dict.get "mission" Cases.prepared = Some (PStr sat)
    /\ Dict.get "beam_mode" Cases.prepared = Some (PStr sw)
    /\ Dict.get "beam_swath" Cases.prepared = Some bs
    /\ Dict.get "relative_orbit" Cases.prepared = Some vro
    /\ py_int vro = Ok ro
    /\ Dict.get "frame" Cases.prepared = Some vfr /\ py_int vfr = Ok fr
    /\ int_under Cases.prepared "first_frame" fr f1
    /\ opt_int_under Cases.prepared "last_frame" f2
    /\ Dict.get "first_date" Cases.prepared = Some v1
    /\ date_token v1 = Ok t1
    /\ Dict.get "last_date" Cases.prepared = Some v2
    /\ date_token v2 = Ok t2
    /\ subset_range Cases.prepared = Ok sub
    /\ "S1_IW1_005_0117_0119_20150101_XXXXXXXX_N31700_N32100_E130500_E131100.he5"
       = sat ++ "_" ++ sw ++ swath_suffix bs ++ "_"
         ++ PyInt.format_0d 3 ro ++ "_" ++ frame_token f1 f2 ++ "_"
         ++ t1 ++ "_" ++ end_token true t2 ++ sub ++ ".he5".
Proof.
  apply (filename_format Cases.prepared true true).
  vm_compute; reflexivity.
Defined.

(** ** Keys the name needs *)

Lemma raises_get_output_filename (m : Dict.t pyval) (u s : bool) :
  raises (plain_filename m u) -> raises (get_output_filename m u s).
Proof. intros H; unfold get_output_filename; apply raises_bind_l; exact H. Qed.

Lemma plain_filename_missing (m : Dict.t pyval) (u : bool) (k : string) :
  In k naming_keys -> Dict.get k m = None -> raises (plain_filename m u).
Proof.
  intros Hk H; unfold plain_filename; cbv beta zeta.
  simpl in Hk; repeat destruct Hk as [<-|Hk]; [..|contradiction];
    repeat first
      [ apply raises_bind_l; eexists; unfold Dict.getitem; rewrite H;
        reflexivity
      | apply raises_bind_r; intros ? _ ].
Qed.

Lemma subset_range_missing (m : Dict.t pyval) (k : string) :
  In k anchor_keys -> Dict.get k m = None -> raises (subset_range m).
Proof.
  intros Hk H; unfold subset_range; cbv beta zeta.
  simpl in Hk; repeat destruct Hk as [<-|Hk]; [..|contradiction];
    repeat first
      [ apply raises_bind_l; eexists; unfold Dict.getitem; rewrite H;
        reflexivity
      | apply raises_bind_r; intros ? _ ].
Qed.

(** X11. [get_output_filename] raises, in every mode, on metadata that
    lack one of [mission], [beam_mode], [beam_swath], [relative_orbit],
    [frame], [first_date] and [last_date]: [frame] is read even when
    [first_frame] replaces it, and [last_date] even when the update mode
    hides it.  In the subset mode it raises on metadata that lack one of
    the six geocoding anchors. *)
Theorem naming_needs_its_keys (m : Dict.t pyval) (u : bool) :
  (forall k s, In k naming_keys -> Dict.get k m = None ->
     raises (get_output_filename m u s))
  /\ (forall k, In k anchor_keys -> Dict.get k m = None ->
        raises (get_output_filename m u true)).
Proof.
  split.
  - intros k s Hk H.
    apply raises_get_output_filename, (plain_filename_missing m u k Hk H).
  - intros k Hk H.
    unfold get_output_filename; apply raises_bind_r; intros name _.
    apply raises_bind_l, (subset_range_missing m k Hk H).
Qed.

Lemma naming_needs_its_keys_witness :
  raises (get_output_filename Cases.no_frame true false)
  /\ raises (get_output_filename Cases.radar_prepared true true).
Proof.
  split.
  - apply (proj1 (naming_needs_its_keys Cases.no_frame true) "frame" false);
      [simpl; tauto | reflexivity].
  - apply (proj2 (naming_needs_its_keys Cases.radar_prepared true) "Y_FIRST");
      [simpl; tauto | reflexivity].
Defined.

(** ** From the translation to the name *)

(** What [strptime(s, '%Y%m%d')] has read when it returns. *)
Lemma strptime_compact_inv (s : string) (t : DateTime.t) :
  DateTime.strptime_Ymd "" s = Ok t ->
  exists a b c d r m dd,
    s = String a (String b (String c (String d r)))
    /\ Str.is_digit a = true /\ Str.is_digit b = true
    /\ Str.is_digit c = true /\ Str.is_digit d = true
    /\ hd_error (DateTime.fields_md "" r) = Some (m, dd, "")
    /\ DateTime.valid_date
         (1000 * Str.digit_val a + 100 * Str.digit_val b
          + 10 * Str.digit_val c + Str.digit_val d) m dd = true
    /\ t = DateTime.mk
             (1000 * Str.digit_val a + 100 * Str.digit_val b
              + 10 * Str.digit_val c + Str.digit_val d) m dd 0 0 0 0.
Proof.
  unfold DateTime.strptime_Ymd, DateTime.regex_Ymd, DateTime.match_Y.
  destruct s as [|a [|b [|c [|d r]]]]; try discriminate.
  destruct (Str.is_digit a) eqn:Ha; [|discriminate].
  destruct (Str.is_digit b) eqn:Hb; [|discriminate].
  destruct (Str.is_digit c) eqn:Hc; [|discriminate].
  destruct (Str.is_digit d) eqn:Hd; [|discriminate].
  cbn [andb].
  destruct (hd_error (DateTime.fields_md "" r)) as [[[m dd] r']|] eqn:Hh;
    [|discriminate].
  destruct r'; [|discriminate].
  destruct (DateTime.valid_date _ m dd) eqn:Hv; [|discriminate].
  intros H; apply Ok_inj in H.
  exists a, b, c, d, r, m, dd; repeat (split; [reflexivity || assumption|]).
  symmetry; exact H.
Qed.

(** The ISO date the translation writes is a date the naming reads, and
    it reads the same day. *)
Lemma iso_date_round_trip (s : string) (v : pyval) :
  iso_date s = Ok v ->
  exists t, DateTime.strptime_Ymd "" s = Ok t
            /\ date_token v = Ok (DateTime.strftime_Ymd t).
Proof.
  unfold iso_date; intros H; inv_bind H; apply Ok_inj in H; subst v.
  exists x; split; [exact E|].
  apply strptime_compact_inv in E
    as (a & b & c & d & r & m & dd & -> & Ha & Hb & Hc & Hd & _ & Hv & ->).
  pose proof (valid_date_bounds _ _ _ Hv) as (_ & Hm & Hdd).
  pose proof iso_fields_all as C.
  rewrite forallb_forall in C; specialize (C m (in_upto 12 m Hm)).
  rewrite forallb_forall in C; specialize (C dd (in_upto 31 dd Hdd)).
  unfold iso_fields_check in C.
  unfold DateTime.isoformat; cbn [DateTime.year DateTime.month DateTime.day].
  rewrite (four_digits_format a b c d Ha Hb Hc Hd).
  destruct (PyInt.format_0d 2 m) as [|e [|f [|]]]; try discriminate C.
  destruct (PyInt.format_0d 2 dd) as [|g [|h [|]]]; try discriminate C.
  cbn [append Str.take].
  unfold date_token, DateTime.strptime, DateTime.strptime_Ymd,
    DateTime.regex_Ymd.
  rewrite (match_Y_four a b c d _ Ha Hb Hc Hd).
  destruct (hd_error (DateTime.fields_md "-" _)) as [[[m' d'] r']|];
    [|discriminate C].
  destruct r'; [|discriminate C].
  apply andb_prop in C as [Cm Cd]; apply Z.eqb_eq in Cm, Cd; subst m' d'.
  rewrite Hv; reflexivity.
Qed.

Lemma digit_field_8 (s : string) :
  digit_field 8 s ->
  exists a b c d e f g h,
    s = String a (String b (String c (String d
          (String e (String f (String g (String h "")))))))
    /\ Str.is_digit a = true /\ Str.is_digit b = true
    /\ Str.is_digit c = true /\ Str.is_digit d = true
    /\ Str.is_digit e = true /\ Str.is_digit f = true
    /\ Str.is_digit g = true /\ Str.is_digit h = true.
Proof.
  intros [Hl Hd].
  destruct s as [|a [|b [|c [|d [|e [|f [|g [|h [|x s]]]]]]]]];
    try discriminate Hl.
  simpl in Hd.
  repeat (apply andb_prop in Hd; destruct Hd as [? Hd]).
  exists a, b, c, d, e, f, g, h; repeat (split; [reflexivity || assumption|]).
  assumption.
Qed.

(** A date of eight digits that [strptime(s, '%Y%m%d')] accepts is
    written back by [strftime('%Y%m%d')] with the same digits. *)
Lemma compact_date_fixed (s : string) (t : DateTime.t) :
  digit_field 8 s -> DateTime.strptime_Ymd "" s = Ok t ->
  DateTime.strftime_Ymd t = s.
Proof.
  intros Hs Ht.
  destruct (digit_field_8 s Hs)
    as (a & b & c & d & e & f & g & h & -> & Ha & Hb & Hc & Hd & He & Hf
        & Hg & Hh).
  apply strptime_compact_inv in Ht
    as (a' & b' & c' & d' & r & m & dd & Es & _ & _ & _ & _ & Hmd & _ & ->).
  injection Es as <- <- <- <- <-.
  pose proof compact_fields_all as C.
  rewrite forallb_forall in C; specialize (C e (is_digit_in e He)).
  rewrite forallb_forall in C; specialize (C f (is_digit_in f Hf)).
  rewrite forallb_forall in C; specialize (C g (is_digit_in g Hg)).
  rewrite forallb_forall in C; specialize (C h (is_digit_in h Hh)).
  unfold compact_fields_check in C; rewrite Hmd in C.
  apply andb_prop in C as [Cm Cd]; apply Z.eqb_eq in Cm, Cd; subst m dd.
  rewrite strftime_Ymd_mk, four_digits_format, !two_digits_format
    by assumption.
  reflexivity.
Qed.

(** A key the translation does not write is absent from its result. *)
Lemma archive_key_absent (now : DateTime.t) (src : Dict.t string)
  (dates : list string) (out : Dict.t pyval) (k : string) :
  metadata_pysar2unavco now src dates = Ok out ->
  existsb (String.eqb k) archive_keys = false ->
  Dict.get k out = None.
Proof.
  intros H Hk; apply get_None_keys; intros Hin.
  apply (proj2 (metadata_pysar2unavco_within now src dates out H)) in Hin.
  assert (E : existsb (String.eqb k) archive_keys = true)
    by (apply existsb_exists; exists k; split;
        [exact Hin | apply String.eqb_refl]).
  congruence.
Qed.

(** What [prep_metadata] hands to [get_output_filename] under the keys
    of the name. *)
Lemma prep_metadata_naming (now : DateTime.t) (src : Dict.t string)
  (dates : list string) (m : Dict.t pyval) :
  prep_metadata now src dates = Ok m ->
  exists p mis bm sro ro fr d0 dl fd ld,
    alias_keys src = Ok p
    /\ get_mission_name p = Ok mis
    /\ Dict.get "beam_mode" p = Some bm
    /\ Dict.get "relative_orbit" p = Some sro
    /\ PyInt.of_string sro = Ok ro
    /\ frame_number p fr
    /\ list_item dates 0 = Ok d0 /\ iso_date d0 = Ok fd
    /\ list_last dates = Ok dl /\ iso_date dl = Ok ld
    /\ Dict.get "mission" m = Some mis
    /\ Dict.get "beam_mode" m = Some (PStr bm)
    /\ Dict.get "beam_swath" m = Some (PInt (swath_number p))
    /\ Dict.get "relative_orbit" m = Some (PInt ro)
    /\ Dict.get "frame" m = Some (PInt fr)
    /\ Dict.get "first_date" m = Some fd
    /\ Dict.get "last_date" m = Some ld
    /\ forall k,
         existsb (String.eqb k) ("FILE_TYPE" :: archive_keys) = false ->
         Dict.get k m = option_map PStr (Dict.get k src).
Proof.
  intros H.
  apply prep_metadata_get in H as (out & Hout & _ & G).
  pose proof (fun k => archive_key_absent now src dates out k Hout) as N.
  pose proof Hout as Hparts.
  apply metadata_pysar2unavco_parts in Hparts
    as (p & u1 & vf & side & Hp & H1 & Hf & _ & R).
  pose proof H1 as Hinv.
  apply required_metadata_inv in Hinv
    as (mis & bm & sro & ro & d0 & dl & fd & ld & lon1 & lon2 & lon3 & lon4
        & lat1 & lat2 & lat3 & lat4 & Hm & Hbm & Hsro & Hro & Hd0 & Hfd & Hdl
        & Hld & _ & _ & _ & _ & _ & _ & _ & _ & Hu1).
  assert (Hbs : match int_item p "beam_swath" with
                | Ok v => v | Raise _ => PInt 0 end
                = PInt (swath_number p)).
  { unfold int_item, item, Dict.getitem, swath_number.
    destruct (Dict.get "beam_swath" p) as [s|]; cbn [bind]; [|reflexivity].
    destruct (PyInt.of_string s); reflexivity. }
  assert (Hfr : exists fr, vf = PInt fr /\ frame_number p fr).
  { apply frame_value_source in Hf; unfold frame_number.
    destruct (frame_source p).
    - destruct Hf as (fr & Hz & ->); eauto.
    - eauto. }
  destruct Hfr as (fr & -> & Hfr).
  exists p, mis, bm, sro, ro, fr, d0, dl, fd, ld.
  repeat (split; [assumption|]).
  assert (Q : forall k v, String.eqb k "FILE_TYPE" = false ->
                String.eqb k "data_footprint" = false ->
                Dict.get k (recommended_result p (PInt fr) side u1) = Some v ->
                Dict.get k m = Some v).
  { intros k v K1 K2 E; rewrite (G k K1), (R k K2), E; reflexivity. }
  repeat split.
  - apply Q; [reflexivity..|]; unfold recommended_result; cbv zeta; peel.
    rewrite Hu1; peel; apply get_setitem_same.
  - apply Q; [reflexivity..|]; unfold recommended_result; cbv zeta; peel.
    rewrite Hu1; peel; apply get_setitem_same.
  - apply Q; [reflexivity..|]; unfold recommended_result; cbv zeta; peel.
    rewrite Hu1; peel; rewrite get_setitem_same, Hbs; reflexivity.
  - apply Q; [reflexivity..|]; unfold recommended_result; cbv zeta; peel.
    rewrite Hu1; peel; apply get_setitem_same.
  - apply Q; [reflexivity..|]; unfold recommended_result; cbv zeta; peel.
    apply get_setitem_same.
  - apply Q; [reflexivity..|]; unfold recommended_result; cbv zeta; peel.
    rewrite Hu1; peel; apply get_setitem_same.
  - apply Q; [reflexivity..|]; unfold recommended_result; cbv zeta; peel.
    rewrite Hu1; peel; apply get_setitem_same.
  - intros k Hk; cbn [existsb] in Hk; apply orb_false_elim in Hk as [K1 K2].
    rewrite (G k K1), (N k K2); reflexivity.
Qed.

Lemma plain_filename_null_mission (m : Dict.t pyval) (u : bool) :
  Dict.get "mission" m = Some PNone -> raises (plain_filename m u).
Proof.
  intros H; unfold plain_filename; cbv beta zeta.
  unfold Dict.getitem at 1; rewrite H; cbn [bind].
  do 13 (apply raises_bind_r; intros ? _).
  apply raises_bind_l; exists TypeError; reflexivity.
Qed.

(** X12. On a source whose platform the mission table does not know,
    the translation stores [mission = None] and goes on, but no name can
    be made of it: [prep_metadata] followed by [get_output_filename]
    raises, in every mode. *)
Theorem unrecognised_mission_has_no_name (now : DateTime.t)
  (src p : Dict.t string) (dates : list string) (u s : bool) :
  alias_keys src = Ok p -> get_mission_name p = Ok PNone ->
  raises (output_name now src dates u s).
Proof.
  intros Hp Hm; unfold output_name.
  apply raises_bind_r; intros m H.
  apply prep_metadata_naming in H
    as (p' & mis & bm & sro & ro & fr & d0 & dl & fd & ld & Hp' & Hm' & _ & _
        & _ & _ & _ & _ & _ & _ & G & _).
  rewrite Hp in Hp'; apply Ok_inj in Hp'; subst p'.
  rewrite Hm in Hm'; apply Ok_inj in Hm'; subst mis.
  apply raises_get_output_filename, plain_filename_null_mission; exact G.
Qed.

Lemma unrecognised_mission_has_no_name_witness :
  raises (output_name Sample.now Cases.unknown_platform Sample.dates
            false false).
Proof.
  apply (unrecognised_mission_has_no_name Sample.now Cases.unknown_platform
           Cases.unknown_platform);
    vm_compute; reflexivity.
Defined.

(** X13. Metadata that [prep_metadata] returns can always be named when
    the mission is known and the [first_frame] and [last_frame] of the
    source, if any, are integers: every other key the name needs is there
    in the form [get_output_filename] reads, the dates included. *)
Theorem translated_metadata_can_be_named (now : DateTime.t)
  (src : Dict.t string) (dates : list string) (m : Dict.t pyval)
  (sat : string) :
  prep_metadata now src dates = Ok m ->
  Dict.get "mission" m = Some (PStr sat) ->
  (forall v, Dict.get "first_frame" src = Some v -> int_parsable v) ->
  (forall v, Dict.get "last_frame" src = Some v -> int_parsable v) ->
  forall u, exists name, get_output_filename m u false = Ok name.
Proof.
  intros H Hsat Hff Hlf u.
  apply prep_metadata_naming in H
    as (p & mis & bm & sro & ro & fr & d0 & dl & fd & ld & _ & _ & _ & _ & _
        & _ & _ & Hfd & _ & Hld & _ & G2 & G3 & G4 & G5 & G6 & G7 & G).
  apply iso_date_round_trip in Hfd as (t1 & _ & Ht1).
  apply iso_date_round_trip in Hld as (t2 & _ & Ht2).
  assert (Hn : nameable m).
  { repeat split; eauto.
    - exists (PInt ro); split; [exact G4 | exists ro; reflexivity].
    - exists (PInt fr); split; [exact G5 | exists fr; reflexivity].
    - intros v Hv; rewrite G in Hv by reflexivity.
      destruct (Dict.get "first_frame" src) as [s|]; [|discriminate Hv].
      injection Hv as <-; apply (Hff s eq_refl).
    - intros v Hv; rewrite G in Hv by reflexivity.
      destruct (Dict.get "last_frame" src) as [s|]; [|discriminate Hv].
      injection Hv as <-; apply (Hlf s eq_refl). }
  unfold get_output_filename.
  destruct (plain_filename_total m u Hn) as [name ->]; cbn [bind]; eauto.
Qed.

Lemma translated_metadata_can_be_named_witness :
  exists name, get_output_filename Cases.prepared true false = Ok name.
Proof.
  apply (translated_metadata_can_be_named Sample.now Cases.full Sample.dates
           Cases.prepared "S1").
  - vm_compute; reflexivity.
  - reflexivity.
  - intros v Hv; vm_compute in Hv; discriminate Hv.
  - intros v Hv; vm_compute in Hv; injection Hv as <-.
    exists 119; reflexivity.
Defined.

(** X14. The name [main] makes of a time-series file, outside the subset
    mode, in terms of the source: the mission code of the aliased map, its
    beam mode, its swath number unless that is [0], its track, the frame
    (the [first_frame] of the source map itself if it has one, else the
    frame number of the aliased map; then the [last_frame] of the source
    if it differs), the first and the last date of the date list as
    [strptime] reads them, or [XXXXXXXX] for the last one. *)
Theorem name_from_the_source (now : DateTime.t) (src : Dict.t string)
  (dates : list string) (u : bool) (name : string) :
  output_name now src dates u false = Ok name ->
  exists p sat bm sro ro fr f1 f2 d0 dl t0 tl,
    alias_keys src = Ok p
    /\ get_mission_name p = Ok (PStr sat)
    /\ Dict.get "beam_mode" p = Some bm
    /\ Dict.get "relative_orbit" p = Some sro
    /\ PyInt.of_string sro = Ok ro
    /\ frame_number p fr
    /\ match Dict.get "first_frame" src with
       | Some s => PyInt.of_string s = Ok f1
       | None => f1 = fr
       end
    /\ match Dict.get "last_frame" src with
       | Some s => exists z, PyInt.of_string s = Ok z /\ f2 = Some z
       | None => f2 = None
       end
    /\ list_item dates 0 = Ok d0 /\ DateTime.strptime_Ymd "" d0 = Ok t0
    /\ list_last dates = Ok dl /\ DateTime.strptime_Ymd "" dl = Ok tl
    /\ name = sat ++ "_" ++ bm ++ swath_suffix (PInt (swath_number p)) ++ "_"
              ++ PyInt.format_0d 3 ro ++ "_" ++ frame_token f1 f2 ++ "_"
              ++ DateTime.strftime_Ymd t0 ++ "_"
              ++ end_token u (DateTime.strftime_Ymd tl) ++ ".he5".
Proof.
  intros H.
  unfold output_name in H; inv_bind H.
  unfold get_output_filename in H; inv_bind H; apply Ok_inj in H; subst x0.
  apply prep_metadata_naming in E
    as (p & mis & bm & sro & ro & fr & d0 & dl & fd & ld & Hp & Hm & Hbm
        & Hsro & Hro & Hfr & Hd0 & Hfd & Hdl & Hld & G1 & G2 & G3 & G4 & G5
        & G6 & G7 & G).
  apply iso_date_round_trip in Hfd as (t0 & P0 & Ht0).
  apply iso_date_round_trip in Hld as (tl & Pl & Htl).
  apply plain_filename_format in E0
    as (sat & sw & bs & vro & ro' & vfr & fr' & f1 & f2 & v1 & tk1 & v2
        & tk2 & A1 & A2 & A3 & A4 & B4 & A5 & B5 & F1 & F2 & A6 & B6 & A7
        & B7 & ->).
  rewrite G1 in A1; injection A1 as ->.
  rewrite G2 in A2; injection A2 as <-.
  rewrite G3 in A3; injection A3 as <-.
  rewrite G4 in A4; injection A4 as <-.
  cbn [py_int] in B4; apply Ok_inj in B4; subst ro'.
  rewrite G5 in A5; injection A5 as <-.
  cbn [py_int] in B5; apply Ok_inj in B5; subst fr'.
  rewrite G6 in A6; injection A6 as <-.
  rewrite G7 in A7; injection A7 as <-.
  rewrite Ht0 in B6; apply Ok_inj in B6; subst tk1.
  rewrite Htl in B7; apply Ok_inj in B7; subst tk2.
  unfold int_under in F1; rewrite G in F1 by reflexivity.
  unfold opt_int_under in F2; rewrite G in F2 by reflexivity.
  exists p, sat, bm, sro, ro, fr, f1, f2, d0, dl, t0, tl.
  repeat (split; [assumption|]).
  split; [destruct (Dict.get "first_frame" src); exact F1|].
  split; [destruct (Dict.get "last_frame" src); exact F2|].
  repeat (split; [assumption|]).
  reflexivity.
Qed.

Lemma name_from_the_source_witness :
  exists p sat bm sro ro fr f1 f2 d0 dl t0 tl,
    alias_keys Cases.full = Ok p
    /\ get_mission_name p = Ok (PStr sat)
    /\ Dict.get "beam_mode" p = Some bm
    /\ Dict.get "relative_orbit" p = Some sro
    /\ PyInt.of_string sro = Ok ro
    /\ frame_number p fr
    /\ match Dict.get "first_frame" Cases.full with
       | Some s => PyInt.of_string s = Ok f1
       | None => f1 = fr
       end
    /\ match Dict.get "last_frame" Cases.full with
       | Some s => exists z, PyInt.of_string s = Ok z /\ f2 = Some z
       | None => f2 = None
       end
    /\ list_item Sample.dates 0 = Ok d0
    /\ DateTime.strptime_Ymd "" d0 = Ok t0
    /\ list_last Sample.dates = Ok dl
    /\ DateTime.strptime_Ymd "" dl = Ok tl
    /\ "S1_IW1_005_0117_0119_20150101_20181231.he5"
       = sat ++ "_" ++ bm ++ swath_suffix (PInt (swath_number p)) ++ "_"
         ++ PyInt.format_0d 3 ro ++ "_" ++ frame_token f1 f2 ++ "_"
         ++ DateTime.strftime_Ymd t0 ++ "_"
         ++ end_token false (DateTime.strftime_Ymd tl) ++ ".he5".
Proof.
  apply (name_from_the_source Sample.now Cases.full Sample.dates false).
  vm_compute; reflexivity.
Defined.

(** X15. The two dates of a name are the first and the last entry of
    the date list, digit for digit, when these are dates of eight digits
    of the year 1000 or later: the ISO form the translation stores in
    between loses nothing. *)
Theorem name_dates_are_the_first_and_last_acquisition (now : DateTime.t)
  (src : Dict.t string) (dates : list string) (u : bool)
  (d0 dl name : string) :
  list_item dates 0 = Ok d0 -> list_last dates = Ok dl ->
  digit_field 8 d0 -> Str.startswith d0 "0" = false ->
  digit_field 8 dl -> Str.startswith dl "0" = false ->
  output_name now src dates u false = Ok name ->
  exists head, name = head ++ "_" ++ d0 ++ "_" ++ end_token u dl ++ ".he5".
Proof.
  intros Hd0 Hdl F0 _ Fl _ H.
  unfold output_name in H; inv_bind H.
  unfold get_output_filename in H; inv_bind H; apply Ok_inj in H; subst x0.
  apply prep_metadata_naming in E
    as (p & mis & bm & sro & ro & fr & d0' & dl' & fd & ld & _ & _ & _ & _
        & _ & _ & Hd0' & Hfd & Hdl' & Hld & _ & _ & _ & _ & _ & G6 & G7 & _).
  rewrite Hd0 in Hd0'; apply Ok_inj in Hd0'; subst d0'.
  rewrite Hdl in Hdl'; apply Ok_inj in Hdl'; subst dl'.
  apply iso_date_round_trip in Hfd as (t1 & P1 & Ht1).
  apply iso_date_round_trip in Hld as (t2 & P2 & Ht2).
  rewrite (compact_date_fixed d0 t1 F0 P1) in Ht1.
  rewrite (compact_date_fixed dl t2 Fl P2) in Ht2.
  apply plain_filename_format in E0
    as (sat & sw & bs' & vro & ro' & vfr & fr' & f1 & f2 & v1 & tk1 & v2
        & tk2 & _ & _ & _ & _ & _ & _ & _ & _ & _ & A1 & B1 & A2 & B2 & ->).
  rewrite G6 in A1; injection A1 as <-.
  rewrite G7 in A2; injection A2 as <-.
  rewrite Ht1 in B1; apply Ok_inj in B1; subst tk1.
  rewrite Ht2 in B2; apply Ok_inj in B2; subst tk2.
  exists (sat ++ "_" ++ sw ++ swath_suffix bs' ++ "_"
            ++ PyInt.format_0d 3 ro' ++ "_" ++ frame_token f1 f2).
  rewrite !append_assoc; reflexivity.
Qed.

Lemma name_dates_are_the_first_and_last_acquisition_witness :
  exists head,
    "S1_IW1_005_0117_0119_20150101_20181231.he5"
    = head ++ "_" ++ "20150101" ++ "_" ++ end_token false "20181231"
        ++ ".he5".
Proof.
  apply (name_dates_are_the_first_and_last_acquisition Sample.now Cases.full
           Sample.dates false "20150101" "20181231").
  - reflexivity.
  - reflexivity.
  - split; reflexivity.
  - reflexivity.
  - split; reflexivity.
  - reflexivity.
  - vm_compute; reflexivity.
Defined.

(** X16. In the subset mode [main] raises on a source map that lacks
    one of the six geocoding anchors, whether or not the translation
    succeeds: the anchors of the name are those of the source map itself,
    which the translation neither adds nor renames. *)
Theorem subset_mode_needs_source_anchors (now : DateTime.t)
  (src : Dict.t string) (dates : list string) (u : bool) (k : string) :
  In k anchor_keys -> Dict.get k src = None ->
  raises (output_name now src dates u true).
Proof.
  intros Hk H; unfold output_name; apply raises_bind_r; intros m Hm.
  apply prep_metadata_naming in Hm
    as (p & mis & bm & sro & ro & fr & d0 & dl & fd & ld & _ & _ & _ & _ & _
        & _ & _ & _ & _ & _ & _ & _ & _ & _ & _ & _ & _ & G).
  assert (E : Dict.get k m = None).
  { rewrite G, H; [reflexivity|].
    simpl in Hk; repeat destruct Hk as [<-|Hk]; [..|contradiction];
      reflexivity. }
  unfold get_output_filename; apply raises_bind_r; intros name _.
  apply raises_bind_l, (subset_range_missing m k Hk E).
Qed.

Lemma subset_mode_needs_source_anchors_witness :
  raises (output_name Sample.now Sample.radar Sample.dates true true).
Proof.
  apply (subset_mode_needs_source_anchors Sample.now Sample.radar
           Sample.dates true "Y_FIRST"); [simpl; tauto | reflexivity].
Defined.

(** ** The options of the template *)

Lemma template_says_yes_flag (template : Dict.t string) (name : string) :
  template_says_yes template ("pysar.save.hdfEos5." ++ name)
  = Ok (template_flag template name).
Proof.
  unfold template_says_yes, template_flag, Dict.mem, Dict.getitem.
  destruct (Dict.get _ template); reflexivity.
Qed.

(** On options that are given, [read_template2inps] returns whenever the
    template can be read, and changes the two flags only. *)
Lemma read_template2inps_flags
  (cmd_line_parse : option (list string) -> result Namespace)
  (read_template : string -> result (Dict.t string))
  (f : string) (inps : Namespace) (template : Dict.t string) :
  read_template f = Ok template ->
  read_template2inps cmd_line_parse read_template f (Some inps)
  = Ok (mk_inps (timeseries_file inps) (template_file inps)
          (coherence_file inps) (mask_file inps) (geom_file inps)
          (update inps || template_flag template "update")
          (subset inps || template_flag template "subset")).
Proof.
  intros Ht; unfold read_template2inps; rewrite Ht; cbn [bind]; cbv zeta.
  rewrite (template_says_yes_flag template "update"); cbn [bind].
  rewrite (template_says_yes_flag template "subset"); cbn [bind].
  destruct inps as [a b c d e up sub]; unfold set_update, set_subset.
  destruct (template_flag template "update"),
    (template_flag template "subset"); cbn;
    rewrite ?orb_true_r, ?orb_false_r; reflexivity.
Qed.

(** X17. The name [main] hands to the writer is the one of
    [prep_metadata] and [get_output_filename] in the modes of the command
    line, each switched on as well by the value [yes], and by no other
    value, of its option in the template; a template cannot switch off a
    mode the command line asks for, and a missing option is no error.
    Without a template file, or with an empty path, the modes are those
    of the command line. *)
Theorem template_switches_modes_on_only (now : DateTime.t)
  (cmd_line_parse : option (list string) -> result Namespace)
  (read_template : string -> result (Dict.t string))
  (iargs : option (list string)) (inps : Namespace)
  (metadata : Dict.t string) (dateList : list string) :
  cmd_line_parse iargs = Ok inps ->
  match path_given (template_file inps) with
  | Some f =>
      forall template, read_template f = Ok template ->
        main_outName now cmd_line_parse read_template iargs metadata dateList
        = output_name now metadata dateList
            (update inps || template_flag template "update")
            (subset inps || template_flag template "subset")
  | None =>
      main_outName now cmd_line_parse read_template iargs metadata dateList
      = output_name now metadata dateList (update inps) (subset inps)
  end.
Proof.
  intros Hi; unfold main_outName; rewrite Hi; cbn [bind].
  destruct (path_given (template_file inps)) as [f|]; [|reflexivity].
  intros template Ht.
  rewrite (read_template2inps_flags _ _ f inps template Ht); reflexivity.
Qed.

Lemma template_switches_modes_on_only_witness :
  main_outName Sample.now Cases.cmd_line_parse Cases.read_template None
    Cases.full Sample.dates
  = output_name Sample.now Cases.full Sample.dates
      (update Cases.options || template_flag Cases.template "update")
      (subset Cases.options || template_flag Cases.template "subset").
Proof.
  exact (template_switches_modes_on_only Sample.now Cases.cmd_line_parse
           Cases.read_template None Cases.options Cases.full Sample.dates
           eq_refl Cases.template eq_refl).
Defined.

(** ** The attributes of the geometry datasets *)

(** X18. For every dataset of the geometry file the writer sets [Title]
    to the name of the dataset.  For the eleven names it knows it sets
    [MissingValue] and [_FillValue] to one and the same fill value, the
    float zero or, for [waterMask] and [shadowMask], the boolean zero, and
    [Units] to meters, degrees or [1] as the table says; for any other
    name it sets [Title] alone.  It touches no other attribute. *)
Theorem geometry_attributes_follow_the_table (dsName : string)
  (attrs : Dict.t attr_value) :
  Dict.get "Title" (geometry_attrs dsName attrs) = Some (AText dsName)
  /\ match Dict.get dsName geometry_table with
     | Some (fill, units) =>
         Dict.get "MissingValue" (geometry_attrs dsName attrs)
         = Some (AFill fill)
         /\ Dict.get "_FillValue" (geometry_attrs dsName attrs)
            = Some (AFill fill)
         /\ Dict.get "Units" (geometry_attrs dsName attrs)
            = Some (AText units)
     | None =>
         forall k, k <> "Title" ->
           Dict.get k (geometry_attrs dsName attrs) = Dict.get k attrs
     end
  /\ forall k, ~ In k ["Title"; "MissingValue"; "_FillValue"; "Units"] ->
       Dict.get k (geometry_attrs dsName attrs) = Dict.get k attrs.
Proof.
  assert (T : forall k, ~ In k ["Title"; "MissingValue"; "_FillValue"; "Units"]
                -> String.eqb k "Title" = false
                   /\ String.eqb k "MissingValue" = false
                   /\ String.eqb k "_FillValue" = false
                   /\ String.eqb k "Units" = false).
  { intros k Hk; repeat split; apply String.eqb_neq; intros ->; apply Hk;
      simpl; tauto. }
  unfold geometry_attrs, in_names, geometry_table; cbv zeta.
  cbn [existsb Dict.get].
  repeat match goal with
    | |- context [String.eqb dsName ?s] =>
        destruct (String.eqb dsName s); cbn [orb]
    end;
    (split; [rewrite ?get_setitem; reflexivity|]);
    (split;
     [ first [ repeat split; rewrite ?get_setitem; reflexivity
             | intros k Hk; apply get_setitem_other, String.eqb_neq; exact Hk ]
     | intros k Hk; destruct (T k Hk) as (E1 & E2 & E3 & E4);
       rewrite ?get_setitem, ?E1, ?E2, ?E3, ?E4; reflexivity ]).
Qed.

Lemma geometry_attributes_follow_the_table_witness :
  Dict.get "Units" (geometry_attrs "incidenceAngle" [("Title", AText "old")])
  = Some (AText "degrees")
  /\ forall k, k <> "Title" ->
       Dict.get k (geometry_attrs "temporalCoherence" [])
       = Dict.get k (@nil (string * attr_value)).
Proof.
  split.
  - exact (proj2 (proj2 (proj1 (proj2
             (geometry_attributes_follow_the_table "incidenceAngle"
                [("Title", AText "old")]))))).
  - exact (proj1 (proj2
             (geometry_attributes_follow_the_table "temporalCoherence" []))).
Defined.
